(** * User and credential lifecycle: a shallow embedding

  This development embeds the user-lifecycle and password-reset code of the
  backend (services/user_service.py, services/password_service.py, the
  Firestore repositories, the models and the validators) as executable
  Rocq functions, and proves the properties the specification states
  about them.

  Conventions of the embedding.
  - Python [str] is [string]; the character classes ([str.isupper],
    [[A-Z]], [\d], [str.lower] ...) are those of the ASCII range, where the
    Unicode-aware and the ASCII-only tests of the source coincide.
    Characters above 127 carry no case and are no digits.
  - A [dict] is a [gmap] with string keys; a Firestore collection is a
    [gmap] from document ids to documents.
  - An exception is a value of type [exn]; a function that may raise
    returns [result].
  - Instants ([datetime] values) are integers, microseconds since the
    epoch; every clock reading is an argument of the operation reading it.
  - The identity provider, the mail sender, the blob store, the markup
    filter and the ISO-8601 codec of the [datetime] library are
    collaborators outside the repository: they are the fields of the
    class [Env], and every theorem holds for every such environment.
  - A request carries what [request.get_json()] returned for a body that
    parsed as JSON: the dictionary of a JSON object, whose values are
    strings or null, or a value of another type.
  - Firestore compares a stored value with the bound of a range filter by
    type first, and [DocumentReference.update] reads its keys as field
    paths. *)

From Stdlib Require Import String Ascii ZArith NArith List Bool Lia.
From Stdlib Require Import DecimalString DecimalZ DecimalPos.
From stdpp Require Import gmap strings list fin_maps.

Open Scope string_scope.

(** ** Python strings *)

Module PyStr.

Definition in_range (lo hi c : ascii) : bool :=
  ((N_of_ascii lo <=? N_of_ascii c) && (N_of_ascii c <=? N_of_ascii hi))%N.

(** [c.isupper()], [c.islower()], [c.isdigit()] for one character. *)
Definition isupper (c : ascii) : bool := in_range "A" "Z" c.
Definition islower (c : ascii) : bool := in_range "a" "z" c.
Definition isdigit (c : ascii) : bool := in_range "0" "9" c.
Definition isalpha (c : ascii) : bool := isupper c || islower c.
Definition isalnum (c : ascii) : bool := isalpha c || isdigit c.

(** [\s]: space, \t \n \v \f \r and the four separators 28..31. *)
Definition isspace (c : ascii) : bool :=
  Ascii.eqb c " " || in_range "009" "013" c || in_range "028" "031" c.

Definition chars (s : string) : list ascii := list_ascii_of_string s.

(** [c in s] for a one-character [c]. *)
Definition char_in (s : string) (c : ascii) : bool :=
  existsb (Ascii.eqb c) (chars s).

(** [any(p(c) for c in s)]. *)
Definition any (p : ascii -> bool) (s : string) : bool := existsb p (chars s).

Definition dquote : ascii := "034".

(** [string.punctuation]. *)
Definition punctuation : string :=
  String "!" (String dquote "#$%&'()*+,-./:;<=>?@[\]^_`{|}~").

Definition lower_char (c : ascii) : ascii :=
  if isupper c then ascii_of_N (N_of_ascii c + 32) else c.
Definition upper_char (c : ascii) : ascii :=
  if islower c then ascii_of_N (N_of_ascii c - 32) else c.

(** [s.lower()]. *)
Fixpoint lower (s : string) : string :=
  match s with
  | EmptyString => EmptyString
  | String c s' => String (lower_char c) (lower s')
  end.

(** [s.isupper()]: no lowercase character and at least one cased one. *)
Definition str_isupper (s : string) : bool :=
  any isupper s && negb (any islower s).

(** [s.title()]: the first letter of every run of letters in upper case,
    the others in lower case. [prev] tells whether the previous character
    was a letter. *)
Fixpoint title_from (prev : bool) (s : string) : string :=
  match s with
  | EmptyString => EmptyString
  | String c s' =>
      String (if isalpha c then (if prev then lower_char c else upper_char c) else c)
             (title_from (isalpha c) s')
  end.
Definition title (s : string) : string := title_from false s.

(** [sep.join(l)]. *)
Fixpoint join (sep : string) (l : list string) : string :=
  match l with
  | [] => ""
  | [x] => x
  | x :: l' => x ++ sep ++ join sep l'
  end.

(** [s.startswith(p)]. *)
Definition startswith (p s : string) : bool := String.prefix p s.

(** [s.replace(c, r)] for a one-character [c]. *)
Fixpoint replace_char (c : ascii) (r : string) (s : string) : string :=
  match s with
  | EmptyString => EmptyString
  | String d s' =>
      if Ascii.eqb d c then r ++ replace_char c r s'
      else String d (replace_char c r s')
  end.

End PyStr.

(** ** utils/auth.py: the password validator of user creation *)

Module Auth.

Record validation := { valid : bool; errors : list string }.

Definition reject (r : validation) (msg : string) : validation :=
  {| valid := false; errors := errors r ++ [msg] |}.

(** [re.search] of a one-character class: some character is in the class. *)
Definition re_search_class (cls : ascii -> bool) (s : string) : bool :=
  PyStr.any cls s.

(** The characters of the special-character class of [validate_password]. *)
Definition special_class : string :=
  "!@#$%^&*(),.?" ++ String PyStr.dquote ":{}|<>".

Definition msg_length := "Password must be at least 8 characters long".
Definition msg_upper := "Password must contain at least one uppercase letter".
Definition msg_lower := "Password must contain at least one lowercase letter".
Definition msg_digit := "Password must contain at least one digit".
Definition msg_special := "Password must contain at least one special character".

Definition validate_password (password : string) : validation :=
  let result := {| valid := true; errors := [] |} in
  let result :=
    if (String.length password <? 8)%nat then reject result msg_length else result in
  let result :=
    if negb (re_search_class PyStr.isupper password)
    then reject result msg_upper else result in
  let result :=
    if negb (re_search_class PyStr.islower password)
    then reject result msg_lower else result in
  let result :=
    if negb (re_search_class PyStr.isdigit password)
    then reject result msg_digit else result in
  let result :=
    if negb (re_search_class (PyStr.char_in special_class) password)
    then reject result msg_special else result in
  result.

End Auth.

(** ** services/password_service.py: the strength validator *)

Module Strength.

Definition min_password_length : nat := 8.

Definition msg_length := "Password must be at least 8 characters long.".
Definition msg_upper := "Password must contain at least one uppercase letter.".
Definition msg_lower := "Password must contain at least one lowercase letter.".
Definition msg_number := "Password must contain at least one number.".
Definition msg_special := "Password must contain at least one special character.".

(** [PasswordService.validate_password_strength]. *)
Definition validate_password_strength (password : string) : bool * option string :=
  if (String.length password <? min_password_length)%nat then (false, Some msg_length)
  else if negb (PyStr.any PyStr.isupper password) then (false, Some msg_upper)
  else if negb (PyStr.any PyStr.islower password) then (false, Some msg_lower)
  else if negb (PyStr.any PyStr.isdigit password) then (false, Some msg_number)
  else if negb (PyStr.any (PyStr.char_in PyStr.punctuation) password)
       then (false, Some msg_special)
  else (true, None).

End Strength.

(** ** Regular expressions

  The patterns of utils/validators.py use no back-reference and no
  look-around, so [re.match] succeeds exactly when the subject belongs to
  the regular language of the pattern. The language is decided here with
  derivatives. *)

Module Regex.

Inductive regex : Type :=
| Void
| Eps
| Class (p : ascii -> bool)
| Cat (r1 r2 : regex)
| Alt (r1 r2 : regex)
| Star (r : regex).

Definition Chr (c : ascii) : regex := Class (Ascii.eqb c).
(** [r?], [r+], [r{n}], [r{lo,hi}], [r{n,}]. *)
Definition Opt (r : regex) : regex := Alt Eps r.
Definition Plus (r : regex) : regex := Cat r (Star r).
Fixpoint Rep (n : nat) (r : regex) : regex :=
  match n with
  | O => Eps
  | S n' => Cat r (Rep n' r)
  end.
Definition RepRange (lo hi : nat) (r : regex) : regex :=
  Cat (Rep lo r) (Rep (hi - lo) (Opt r)).
Definition AtLeast (n : nat) (r : regex) : regex := Cat (Rep n r) (Star r).

Fixpoint nullable (r : regex) : bool :=
  match r with
  | Void => false
  | Eps => true
  | Class _ => false
  | Cat r1 r2 => nullable r1 && nullable r2
  | Alt r1 r2 => nullable r1 || nullable r2
  | Star _ => true
  end.

Fixpoint deriv (c : ascii) (r : regex) : regex :=
  match r with
  | Void => Void
  | Eps => Void
  | Class p => if p c then Eps else Void
  | Cat r1 r2 =>
      Alt (Cat (deriv c r1) r2) (if nullable r1 then deriv c r2 else Void)
  | Alt r1 r2 => Alt (deriv c r1) (deriv c r2)
  | Star r1 => Cat (deriv c r1) (Star r1)
  end.

Fixpoint derivs (l : list ascii) (r : regex) : regex :=
  match l with
  | [] => r
  | c :: l' => derivs l' (deriv c r)
  end.

(** The whole of [s] is in the language of [r]. *)
Definition fullmatch (r : regex) (s : string) : bool :=
  nullable (derivs (PyStr.chars s) r).

Definition newline : ascii := "010".

(** [s] without its last character, when that is a newline. *)
Fixpoint strip_newline (s : string) : option string :=
  match s with
  | EmptyString => None
  | String c EmptyString => if Ascii.eqb c newline then Some EmptyString else None
  | String c s' => option_map (String c) (strip_newline s')
  end.

(** [re.match('^' r '$', s)]: without MULTILINE, [$] holds at the end of
    the subject and just before a newline that ends it. *)
Definition match_anchored (r : regex) (s : string) : bool :=
  fullmatch r s ||
  match strip_newline s with
  | Some s' => fullmatch r s'
  | None => false
  end.

End Regex.

(** ** utils/validators.py *)

Module Validators.
Import Regex.

Local Notation "r1 ⋅ r2" := (Cat r1 r2) (at level 41, right associativity).

Definition alnum : regex := Class PyStr.isalnum.
Definition alpha : regex := Class PyStr.isalpha.
Definition digit : regex := Class PyStr.isdigit.
Definition local_char : regex :=
  Class (fun c => PyStr.isalnum c || PyStr.char_in "._%+-" c).
Definition label_char : regex :=
  Class (fun c => PyStr.isalnum c || Ascii.eqb c "-").
Definition sep_char : regex :=
  Class (fun c => PyStr.isspace c || PyStr.char_in ".-" c).

(** [^[a-zA-Z0-9](?:[a-zA-Z0-9._%+-]*[a-zA-Z0-9])?@
     (?:[a-zA-Z0-9](?:[a-zA-Z0-9-]*[a-zA-Z0-9])?\.)+[a-zA-Z]{2,}$] *)
Definition email_pattern : regex :=
  alnum ⋅ Opt (Star local_char ⋅ alnum) ⋅ Chr "@" ⋅
  Plus (alnum ⋅ Opt (Star label_char ⋅ alnum) ⋅ Chr ".") ⋅
  AtLeast 2 alpha.

(** [^(\+\d{1,3}\s?)?(?:\(\d{3}\)|\d{3})[\s.-]?\d{3}[\s.-]?\d{4}$] *)
Definition phone_pattern : regex :=
  Opt (Chr "+" ⋅ RepRange 1 3 digit ⋅ Opt (Class PyStr.isspace)) ⋅
  Alt (Chr "(" ⋅ Rep 3 digit ⋅ Chr ")") (Rep 3 digit) ⋅
  Opt sep_char ⋅ Rep 3 digit ⋅ Opt sep_char ⋅ Rep 4 digit.

(** A value that is [None] or a string: [truthy] is Python's [bool(v)]. *)
Definition truthy (v : option string) : bool :=
  match v with
  | Some (String _ _) => true
  | _ => false
  end.

Definition validate_email (email : option string) : bool :=
  match email with
  | Some (String _ _ as e) => match_anchored email_pattern e
  | _ => false
  end.

Definition validate_phone_number (phone : option string) : bool :=
  match phone with
  | Some (String _ _ as p) => match_anchored phone_pattern p
  | _ => false
  end.

Record required_check := { valid : bool; missing_fields : list string }.

(** A request payload: a JSON object whose values are strings or null. *)
Abbreviation payload := (gmap string (option string)).

(** [field not in data or data[field] is None or data[field] == ""]. *)
Definition is_missing (data : payload) (field : string) : bool :=
  match data !! field with
  | Some v => negb (truthy v)
  | None => true
  end.

Definition validate_required_fields (data : payload) (required_fields : list string)
  : required_check :=
  let missing := List.filter (is_missing data) required_fields in
  {| valid := match missing with [] => true | _ => false end;
     missing_fields := missing |}.

End Validators.

(** ** Values, exceptions and the collaborators *)

Module Py.

(** Values held by documents and by the fields of model objects. [PNum] is
    an [int] or [float] (by its integral value), [PTime] a [datetime] (by
    its instant), [PDict] a nested dictionary in insertion order. *)
#[warnings="-register-all"]
Inductive pyval : Type :=
| PNone
| PBool (b : bool)
| PNum (n : Z)
| PStr (s : string)
| PTime (t : Z)
| PDict (d : list (string * pyval)).

(** [bool(v)]. *)
Definition truthy (v : pyval) : bool :=
  match v with
  | PNone => false
  | PBool b => b
  | PNum n => negb (n =? 0)%Z
  | PStr s => match s with EmptyString => false | _ => true end
  | PTime _ => true
  | PDict d => match d with [] => false | _ => true end
  end.

Definition is_none (v : pyval) : bool :=
  match v with PNone => true | _ => false end.

Definition of_opt (v : option string) : pyval :=
  match v with Some s => PStr s | None => PNone end.

(** [str(v)] for a value that is a string or [None]. *)
Definition str_of (v : option string) : string :=
  match v with Some s => s | None => "None" end.

Abbreviation dict := (gmap string pyval).

Inductive exn : Type :=
| ValueError (msg : string)
| KeyError (key : string)
| TypeError (what : string)
| AttributeError (what : string)
| OverflowError (what : string).

Inductive result (A : Type) : Type :=
| Ok (a : A)
| Raise (e : exn).
Arguments Ok {A} a.
Arguments Raise {A} e.

Definition is_ok {A} (r : result A) : bool :=
  match r with Ok _ => true | Raise _ => false end.

(** Outcome of [StorageService().upload_file]: the dictionary it returns,
    with its optional [file_url] or [error] entry, or an exception. *)
Inductive upload_result : Type :=
| Uploaded (file_url : option string)
| UploadFailed (error : option string)
| UploadRaised (msg : string).

(** Outcome of [firebase_admin.auth.create_user] followed by
    [create_custom_token]. *)
Inductive idp_create_result : Type :=
| Created (uid : string)
| EmailAlreadyExists
| CreateFailed (msg : string).

(** Outcome of [auth.get_user] and [auth.get_user_by_email]: the record
    (uid and display name), [UserNotFoundError], or another exception. *)
Inductive idp_lookup : Type :=
| UserFound (uid : string) (display_name : option string)
| UserNotFound
| LookupFailed.

(** Outcome of [EmailService.send_password_reset_email]. *)
Inductive mail_result : Type :=
| Sent
| NotSent
| MailRaised.

(** The collaborators outside the repository. The two laws are those of
    the [datetime] library: [fromisoformat] inverts [isoformat], and
    [isoformat] writes offsets as [+HH:MM], never as [Z]. *)
Class Env : Type := {
  isoformat : Z -> string;
  fromisoformat : string -> option Z;
  fromtimestamp : Z -> option Z;
  fromisoformat_isoformat : forall t, fromisoformat (isoformat t) = Some t;
  isoformat_no_Z : forall t, PyStr.char_in (isoformat t) "Z" = false;
  (** the substitutions, truncation and [strip] of [sanitize_input] on a
      non-empty text *)
  sanitize_markup : string -> string;
  upload_file : string -> string -> string -> upload_result;
  send_password_reset_email : string -> string -> option string -> mail_result;
  idp : Type;
  idp_create_user : idp -> string -> string -> option string -> idp_create_result * idp;
  idp_get_user : idp -> string -> idp_lookup;
  idp_get_user_by_email : idp -> string -> idp_lookup;
  idp_update_password : idp -> string -> string -> option idp
}.

End Py.

(** ** models/user.py *)

Module UserModel.
Import Py.

Record User : Type := {
  email : pyval;
  first_name : pyval;
  last_name : pyval;
  role : pyval;
  created_at : pyval;
  updated_at : pyval;
  profile_picture : pyval;
  phone_number : pyval;
  is_active : pyval;
  firebase_uid : pyval;
  onboarding_completed : pyval;
  language : pyval;
  location : pyval;
  email_notifications : pyval;
  push_notification : pyval;
  photo_url : pyval;
  bio : pyval;
  lang : pyval;
  id : pyval
}.

Definition default_location : pyval :=
  PDict [("address", PStr ""); ("city", PStr ""); ("state", PStr "");
         ("country", PStr ""); ("postalCode", PStr "");
         ("coordinates", PDict [("latitude", PNum 0); ("longitude", PNum 0)])].

(** A keyword argument, or the default of the field. *)
Definition kwarg (kw : dict) (field : string) (default : pyval) : pyval :=
  match kw !! field with Some v => v | None => default end.

Definition if_none (v default : pyval) : pyval :=
  if is_none v then default else v.

(** [User] applied to the keyword arguments [kw]: the generated [__init__], then [__post_init__], whose two
    clock readings are [now_c] and [now_u]. The three fields without a
    default must be given. *)
Definition User_new (kw : dict) (now_c now_u : Z) : result User :=
  match kw !! "email", kw !! "first_name", kw !! "last_name" with
  | Some e, Some f, Some l =>
      let fuid := kwarg kw "firebase_uid" PNone in
      let i := kwarg kw "id" PNone in
      Ok {| email := e;
            first_name := f;
            last_name := l;
            role := kwarg kw "role" (PStr "user");
            created_at := if_none (kwarg kw "created_at" PNone) (PTime now_c);
            updated_at := if_none (kwarg kw "updated_at" PNone) (PTime now_u);
            profile_picture := kwarg kw "profile_picture" PNone;
            phone_number := kwarg kw "phone_number" PNone;
            is_active := kwarg kw "is_active" (PBool true);
            firebase_uid := fuid;
            onboarding_completed := kwarg kw "onboarding_completed" (PBool false);
            language := kwarg kw "language" PNone;
            location := if_none (kwarg kw "location" PNone) default_location;
            email_notifications := kwarg kw "email_notifications" (PBool true);
            push_notification := kwarg kw "push_notification" (PBool true);
            photo_url := kwarg kw "photo_url" PNone;
            bio := kwarg kw "bio" PNone;
            lang := kwarg kw "lang" PNone;
            id := if truthy fuid && negb (truthy i) then fuid else i |}
  | _, _, _ => Raise (TypeError "missing required argument")
  end.

(** [dataclasses.asdict]. *)
Definition asdict (u : User) : dict :=
  list_to_map
    [("email", email u); ("first_name", first_name u); ("last_name", last_name u);
     ("role", role u); ("created_at", created_at u); ("updated_at", updated_at u);
     ("profile_picture", profile_picture u); ("phone_number", phone_number u);
     ("is_active", is_active u); ("firebase_uid", firebase_uid u);
     ("onboarding_completed", onboarding_completed u); ("language", language u);
     ("location", location u); ("email_notifications", email_notifications u);
     ("push_notification", push_notification u); ("photo_url", photo_url u);
     ("bio", bio u); ("lang", lang u); ("id", id u)].

Section WithEnv.
Context `{Env}.

(** A truthy value with an [isoformat] attribute is a [datetime]. *)
Definition iso_field (v : pyval) : pyval :=
  match v with PTime t => PStr (isoformat t) | _ => v end.

Definition not_none (kv : string * pyval) : Prop := is_none kv.2 = false.

(** [User.to_dict]. *)
Definition to_dict (u : User) : dict :=
  let user_dict := asdict u in
  let user_dict := <["created_at" := iso_field (created_at u)]> user_dict in
  let user_dict := <["updated_at" := iso_field (updated_at u)]> user_dict in
  filter not_none user_dict.

(** The conversion of one stored date: a number goes through
    [fromtimestamp] (which may raise), a string through [fromisoformat],
    the string being kept when it does not parse. *)
Definition parse_date (field : string) (user_data : dict) : result dict :=
  match user_data !! field with
  | Some (PNum n) =>
      match fromtimestamp n with
      | Some t => Ok (<[field := PTime t]> user_data)
      | None => Raise (OverflowError "timestamp out of range")
      end
  | Some (PBool b) =>
      match fromtimestamp (if b then 1 else 0) with
      | Some t => Ok (<[field := PTime t]> user_data)
      | None => Raise (OverflowError "timestamp out of range")
      end
  | Some (PStr s) =>
      match fromisoformat (PyStr.replace_char "Z" "+00:00" s) with
      | Some t => Ok (<[field := PTime t]> user_data)
      | None => Ok user_data
      end
  | _ => Ok user_data
  end.

(** [field not in user_data or not user_data[field]]: store the default. *)
Definition default_field (field : string) (default : pyval) (user_data : dict) : dict :=
  match user_data !! field with
  | Some v => if truthy v then user_data else <[field := default]> user_data
  | None => <[field := default]> user_data
  end.

Definition valid_fields : list string :=
  ["email"; "first_name"; "last_name"; "role"; "created_at"; "updated_at";
   "profile_picture"; "phone_number"; "is_active"; "firebase_uid";
   "onboarding_completed"; "language"; "location"; "email_notifications";
   "photo_url"; "lang"; "push_notification"; "bio"; "id"].

Definition is_valid_field (kv : string * pyval) : Prop := kv.1 ∈ valid_fields.

Definition set_id (u : User) (i : pyval) : User :=
  {| email := email u; first_name := first_name u; last_name := last_name u;
     role := role u; created_at := created_at u; updated_at := updated_at u;
     profile_picture := profile_picture u; phone_number := phone_number u;
     is_active := is_active u; firebase_uid := firebase_uid u;
     onboarding_completed := onboarding_completed u; language := language u;
     location := location u; email_notifications := email_notifications u;
     push_notification := push_notification u; photo_url := photo_url u;
     bio := bio u; lang := lang u; id := i |}.

Definition set_email (u : User) (e : pyval) : User :=
  {| email := e; first_name := first_name u; last_name := last_name u;
     role := role u; created_at := created_at u; updated_at := updated_at u;
     profile_picture := profile_picture u; phone_number := phone_number u;
     is_active := is_active u; firebase_uid := firebase_uid u;
     onboarding_completed := onboarding_completed u; language := language u;
     location := location u; email_notifications := email_notifications u;
     push_notification := push_notification u; photo_url := photo_url u;
     bio := bio u; lang := lang u; id := id u |}.

(** [User.from_dict(data, doc_id)]. *)
Definition from_dict (data : dict) (doc_id : option string) (now : Z) : result User :=
  match parse_date "created_at" data with
  | Raise e => Raise e
  | Ok user_data =>
      match parse_date "updated_at" user_data with
      | Raise e => Raise e
      | Ok user_data =>
          let user_data := default_field "email" (PStr "default@example.com") user_data in
          let user_data := default_field "first_name" (PStr "Default") user_data in
          let user_data := default_field "last_name" (PStr "") user_data in
          let filtered_data := filter is_valid_field user_data in
          match User_new filtered_data now now with
          | Raise e => Raise e
          | Ok user =>
              match doc_id with
              | Some (String _ _ as i) => Ok (set_id user (PStr i))
              | _ => Ok user
              end
          end
      end
  end.

End WithEnv.
End UserModel.

(** ** repositories/firestore/user_repo.py

    The users collection maps a document id (the identity provider's uid)
    to the stored dictionary. A query lists its matches in the order of
    [map_to_list]. *)

Module UserRepo.
Import Py UserModel.

Abbreviation collection := (gmap string dict).

Section WithEnv.
Context `{Env}.

Definition field_is (field value : string) (doc : dict) : bool :=
  match doc !! field with
  | Some (PStr s) => String.eqb s value
  | _ => false
  end.

(** [collection.where(field, "==", value)]. *)
Definition where_eq (field value : string) (c : collection) : list (string * dict) :=
  List.filter (fun kd => field_is field value kd.2) (map_to_list c).

Definition found (r : result User) : result (option User) :=
  match r with Ok u => Ok (Some u) | Raise e => Raise e end.

(** The last resort of [get_by_email]: the loop over the documents. *)
Fixpoint scan_emails (lower_email : string) (now : Z) (docs : list (string * dict))
  : result (option User) :=
  match docs with
  | [] => Ok None
  | (doc_id, user_data) :: rest =>
      match user_data !! "email" with
      | Some v =>
          if truthy v then
            match v with
            | PStr s =>
                if String.eqb (PyStr.lower s) lower_email
                then found (from_dict user_data (Some doc_id) now)
                else scan_emails lower_email now rest
            | _ => Raise (AttributeError "lower")
            end
          else scan_emails lower_email now rest
      | None => scan_emails lower_email now rest
      end
  end.

(** [FirestoreUserRepository.get_by_email]. *)
Definition get_by_email (c : collection) (email : string) (now : Z) : result (option User) :=
  let lower_email := PyStr.lower email in
  match where_eq "email" lower_email c with
  | (doc_id, doc_data) :: _ => found (from_dict doc_data (Some doc_id) now)
  | [] =>
      match where_eq "email" email c with
      | (doc_id, doc_data) :: _ => found (from_dict doc_data (Some doc_id) now)
      | [] => scan_emails lower_email now (take 1000 (map_to_list c))
      end
  end.

(** [FirestoreUserRepository.create]: the created user and the collection
    after [doc_ref.set]. *)
Definition create (c : collection) (user : User) : result (User * collection) :=
  let lowered :=
    if truthy (email user) then
      match email user with
      | PStr s => Ok (set_email user (PStr (PyStr.lower s)))
      | _ => Raise (AttributeError "lower")
      end
    else Ok user in
  match lowered with
  | Raise e => Raise e
  | Ok user =>
      let user_dict := delete "id" (to_dict user) in
      if negb (truthy (firebase_uid user))
      then Raise (ValueError "firebase_uid is required to create a user")
      else
        match firebase_uid user with
        | PStr uid => Ok (set_id user (PStr uid), <[uid := user_dict]> c)
        | _ => Raise (TypeError "document id")
        end
  end.

End WithEnv.
End UserRepo.

(** ** utils/auth.py: provisioning an identity *)

Module Firebase.
Import Py.

Section WithEnv.
Context `{Env}.

Definition nl : string := String Regex.newline "".

(** [create_firebase_user]: the uid of the new identity and the provider
    after the call. Every failure is re-raised as a [ValueError]. *)
Definition create_firebase_user (st : idp) (email password : string)
  (display_name : option string) : result string * idp :=
  let password_validation := Auth.validate_password password in
  if negb (Auth.valid password_validation)
  then (Raise (ValueError (PyStr.join nl (Auth.errors password_validation))), st)
  else
    let email := PyStr.lower email in
    let display_name :=
      match display_name with Some (String _ _) => display_name | _ => None end in
    match idp_create_user st email password display_name with
    | (Created uid, st') => (Ok uid, st')
    | (EmailAlreadyExists, st') =>
        (Raise (ValueError ("User with email " ++ email ++ " already exists")), st')
    | (CreateFailed msg, st') => (Raise (ValueError msg), st')
    end.

End WithEnv.
End Firebase.

(** ** services/user_service.py *)

Module UserService.
Import Py UserModel Validators.

Section WithEnv.
Context `{Env}.

(** The state the service acts on: the users collection and the identity
    provider. *)
Record world : Type := { users : UserRepo.collection; provider : idp }.

(** Computations that read and write the state and may raise. *)
Definition M (A : Type) : Type := world -> result A * world.

Definition ret {A} (a : A) : M A := fun w => (Ok a, w).
Definition raise {A} (e : exn) : M A := fun w => (Raise e, w).
Definition bind {A B} (m : M A) (k : A -> M B) : M B :=
  fun w => match m w with
           | (Ok a, w') => k a w'
           | (Raise e, w') => (Raise e, w')
           end.
Definition lift {A} (r : result A) : M A := fun w => (r, w).

Notation "x <- m ;; k" := (bind m (fun x => k))
  (at level 100, m at next level, right associativity).
Notation "'check' b 'else' e ;; k" := (if b then k else raise e)
  (at level 100, b at next level, e at next level, right associativity).

(** [d[key]]. *)
Definition getitem (d : payload) (key : string) : M (option string) :=
  match d !! key with
  | Some v => ret v
  | None => raise (KeyError key)
  end.

(** [d.get(key)]. *)
Definition get (d : payload) (key : string) : option string :=
  match d !! key with
  | Some v => v
  | None => None
  end.

(** [sanitize_input]. *)
Definition sanitize_input (text : option string) : option string :=
  match text with
  | None => None
  | Some EmptyString => Some ""
  | Some s => Some (sanitize_markup s)
  end.

(** [if name and name.isupper(): name = name.title()]. *)
Definition capitalise (name : option string) : option string :=
  match name with
  | Some s => if truthy name && PyStr.str_isupper s then Some (PyStr.title s) else name
  | None => None
  end.

(** [UserService.get_user_by_email]. *)
Definition get_user_by_email (email : string) (now : Z) : M (option User) :=
  check validate_email (Some email) else ValueError "Invalid email format" ;;
  fun w => (UserRepo.get_by_email (users w) email now, w).

Definition is_url (s : string) : bool :=
  PyStr.startswith "http://" s || PyStr.startswith "https://" s.

Definition upload_prefix : string := "Failed to upload profile picture: ".

(** The profile-picture block of [create_user]. *)
Definition store_profile_picture (user_data : payload) (temp_id : string) : M payload :=
  match user_data !! "profile_picture" with
  | None => ret user_data
  | Some profile_picture =>
      match profile_picture with
      | Some (String _ _ as data) =>
          if is_url data
          then ret (<["profile_picture" := sanitize_input profile_picture]> user_data)
          else
            let file_name := "profile_" ++ temp_id ++ ".jpg" in
            match upload_file data file_name "profile_photos" with
            | Uploaded file_url =>
                ret (<["profile_picture" := Some (default "" file_url)]> user_data)
            | UploadFailed error =>
                raise (ValueError (upload_prefix ++ upload_prefix
                                   ++ default "Unknown error" error))
            | UploadRaised msg => raise (ValueError (upload_prefix ++ msg))
            end
      | _ => ret (<["profile_picture" := sanitize_input profile_picture]> user_data)
      end
  end.

(** The block that makes sure [firebase_uid] is set. *)
Definition ensure_firebase_uid (user_data : payload) (create_auth_user : bool)
  (email : string) : M payload :=
  if truthy (get user_data "firebase_uid") then ret user_data
  else if create_auth_user then
    password <- getitem user_data "password" ;;
    let user_data := delete "password" user_data in
    first_name <- getitem user_data "first_name" ;;
    last_name <- getitem user_data "last_name" ;;
    let display_name := str_of first_name ++ " " ++ str_of last_name in
    match password with
    | None => raise (TypeError "password")
    | Some password =>
        uid <- (fun w =>
                  let '(r, st) :=
                    Firebase.create_firebase_user (provider w) email password
                      (Some display_name) in
                  (r, {| users := users w; provider := st |})) ;;
        ret (<["firebase_uid" := Some uid]> user_data)
    end
  else raise (ValueError "firebase_uid is required to create a user").

(** [d.get(key, default)] as a value. *)
Definition get_value (d : payload) (key : string) (default : pyval) : pyval :=
  match d !! key with
  | Some v => of_opt v
  | None => default
  end.

(** [UserService.create_user]. [temp_id] is the uuid drawn for an uploaded
    picture; the [except] clause logs and re-raises. *)
Definition create_user (user_data : payload) (create_auth_user : bool)
  (temp_id : string) (now : Z) : M User :=
  let required_fields :=
    (["email"; "first_name"] ++ (if create_auth_user then ["password"] else []))%list in
  let validation := validate_required_fields user_data required_fields in
  check valid validation
    else ValueError ("Missing required fields: "
                     ++ PyStr.join ", " (missing_fields validation)) ;;
  email <- getitem user_data "email" ;;
  check validate_email email else ValueError "Invalid email format" ;;
  let email := PyStr.lower (default "" email) in
  let user_data := <["email" := Some email]> user_data in
  let phone_number := get user_data "phone_number" in
  check negb (truthy phone_number && negb (validate_phone_number phone_number))
    else ValueError "Invalid phone number format" ;;
  existing_user <- get_user_by_email email now ;;
  check negb (bool_decide (is_Some existing_user))
    else ValueError ("User with email " ++ email ++ " already exists") ;;
  first_name <- getitem user_data "first_name" ;;
  let first_name := sanitize_input first_name in
  last_name <- getitem user_data "last_name" ;;
  let last_name := sanitize_input last_name in
  let first_name := capitalise first_name in
  let last_name := capitalise last_name in
  let user_data := <["first_name" := first_name]> user_data in
  let user_data := <["last_name" := last_name]> user_data in
  user_data <- store_profile_picture user_data temp_id ;;
  user_data <- ensure_firebase_uid user_data create_auth_user email ;;
  user <- lift (User_new
                  (list_to_map
                     [("email", PStr email);
                      ("first_name", get_value user_data "first_name" PNone);
                      ("last_name", get_value user_data "last_name" PNone);
                      ("role", get_value user_data "role" (PStr "user"));
                      ("profile_picture", get_value user_data "profile_picture" PNone);
                      ("phone_number", of_opt phone_number);
                      ("created_at", PTime now);
                      ("updated_at", PTime now);
                      ("firebase_uid", get_value user_data "firebase_uid" PNone)])
                  now now) ;;
  fun w =>
    match UserRepo.create (users w) user with
    | Ok (created_user, c) => (Ok created_user, {| users := c; provider := provider w |})
    | Raise e => (Raise e, w)
    end.

End WithEnv.
End UserService.

(** ** models/password_reset.py and repositories/firestore/password_reset_repo.py

    The collection maps a document id to the record whose dictionary form
    the repository stored under it. [create] stores the dictionary of
    [to_dict], in which the dates [expires_at] and [created_at] are ISO
    texts; [from_dict] parses them when a document is read, so that a
    record read back carries the instants it was stored with. *)

Module ResetRepo.
Import Py.

Record PasswordReset : Type := {
  email : string;
  user_id : string;
  token : string;
  expires_at : Z;
  created_at : Z;
  used : bool;
  used_at : option Z;
  id : option string
}.

Definition with_id (r : PasswordReset) (i : option string) : PasswordReset :=
  {| email := email r; user_id := user_id r; token := token r;
     expires_at := expires_at r; created_at := created_at r;
     used := used r; used_at := used_at r; id := i |}.

(** [PasswordReset.is_expired]: [datetime.now(timezone.utc) > self.expires_at]. *)
Definition is_expired (r : PasswordReset) (now : Z) : bool := (expires_at r <? now)%Z.

(** The fields written by the repository's [mark_as_used]. *)
Definition set_used (r : PasswordReset) (now : Z) : PasswordReset :=
  {| email := email r; user_id := user_id r; token := token r;
     expires_at := expires_at r; created_at := created_at r;
     used := true; used_at := Some now; id := id r |}.

Abbreviation collection := (gmap string PasswordReset).

(** A document read back: [data['id'] = doc.id]. *)
Definition read (kd : string * PasswordReset) : PasswordReset :=
  with_id kd.2 (Some kd.1).

(** [create]: the store picks the id [new_id] of the new document. *)
Definition create (c : collection) (password_reset : PasswordReset) (new_id : string)
  : PasswordReset * collection :=
  let stored := with_id password_reset (Some new_id) in
  (stored, <[new_id := stored]> c).

(** [get_by_token]: [where token == token], [limit(1)]. *)
Definition get_by_token (c : collection) (tok : string) : option PasswordReset :=
  match List.filter (fun kd => String.eqb (token kd.2) tok) (map_to_list c) with
  | kd :: _ => Some (read kd)
  | [] => None
  end.

Section WithEnv.
Context `{Env}.

(** The value the repository holds in the field [expires_at] of a stored
    record: [to_dict] writes a [datetime] as [self.expires_at.isoformat()],
    [create] stores that dictionary as it is, and no other operation of the
    repository writes the field. *)
Definition stored_expires_at (r : PasswordReset) : pyval :=
  PStr (isoformat (expires_at r)).

(** Firestore's [FieldFilter(field, '>', now)] for a [datetime] bound.
    Firestore orders values by their type first, and a range filter
    selects only values of the type of its bound: a timestamp later than
    the bound is selected; a text, a number, a boolean, a map or null is
    not. *)
Definition later_than (v : pyval) (now : Z) : bool :=
  match v with
  | PTime t => (now <? t)%Z
  | _ => false
  end.

(** The filters of [get_active_reset_by_email] on a stored record:
    [email == email], [used == False] and [expires_at > now]. *)
Definition selected (mail : string) (now : Z) (r : PasswordReset) : bool :=
  String.eqb (email r) mail && negb (used r) && later_than (stored_expires_at r) now.

(** The text stored in the field [created_at], written by [to_dict] like
    [expires_at]. *)
Definition stored_created_at (r : PasswordReset) : string := isoformat (created_at r).

(** [order_by('created_at', DESCENDING)], [limit(1)]: a match whose stored
    [created_at] is the greatest, texts being ordered byte by byte. *)
Fixpoint latest (best : option (string * PasswordReset))
  (l : list (string * PasswordReset)) : option (string * PasswordReset) :=
  match l with
  | [] => best
  | kd :: l' =>
      match best with
      | Some b => if String.ltb (stored_created_at b.2) (stored_created_at kd.2)
                  then latest (Some kd) l' else latest best l'
      | None => latest (Some kd) l'
      end
  end.

(** [get_active_reset_by_email]: the three filters, then the newest
    match. *)
Definition get_active_reset_by_email (c : collection) (mail : string) (now : Z)
  : option PasswordReset :=
  read <$> latest None (List.filter (fun kd => selected mail now kd.2) (map_to_list c)).

End WithEnv.

(** [mark_as_used]: [doc_ref.update] raises on a missing document, and the
    repository turns the exception into [False]. *)
Definition mark_as_used (c : collection) (reset_id : string) (now : Z) : bool * collection :=
  match c !! reset_id with
  | Some r => (true, <[reset_id := set_used r now]> c)
  | None => (false, c)
  end.

Definition delete (c : collection) (reset_id : string) : bool * collection :=
  (true, base.delete reset_id c).

End ResetRepo.

(** ** services/password_service.py *)

Module PasswordService.
Import Py ResetRepo.

Section WithEnv.
Context `{Env}.

Record world : Type := { resets : collection; provider : idp }.

Definition token_expiry_hours : Z := 1.
Definition hour : Z := 3600000000.

Definition msg_generic : string :=
  "If an account exists with this email, a reset link has been sent.".
Definition msg_error : string := "An error occurred. Please try again.".
Definition msg_mail_failed : string := "Failed to send reset email. Please try again.".
Definition msg_invalid_token : string := "Invalid or expired reset token.".
Definition msg_expired : string := "Reset token has expired. Please request a new one.".
Definition msg_used : string := "This reset token has already been used.".
Definition msg_update_failed : string := "Failed to update password. Please try again.".
Definition msg_reset_ok : string := "Password has been reset successfully.".
Definition msg_same : string := "New password must be different from current password.".
Definition msg_no_user : string := "User not found.".
Definition msg_changed : string := "Password changed successfully.".

(** [if password_reset.id:]. *)
Definition id_set (r : PasswordReset) : option string :=
  match id r with
  | Some (String _ _ as i) => Some i
  | _ => None
  end.

(** [request_password_reset]. [tok] is the token drawn by
    [generate_reset_token], [new_id] the id the store gives the document,
    [now_query] the clock read by the repository query and [now] the one
    read when the record is built. *)
Definition request_password_reset (mail reset_base_url tok new_id : string)
  (now_query now : Z) (w : world) : (bool * string) * world :=
  match idp_get_user_by_email (provider w) mail with
  | UserNotFound => ((true, msg_generic), w)
  | LookupFailed => ((false, msg_error), w)
  | UserFound uid display_name =>
      match get_active_reset_by_email (resets w) mail now_query with
      | Some _ => ((true, msg_generic), w)
      | None =>
          let password_reset :=
            {| email := mail; user_id := uid; token := tok;
               expires_at := (now + token_expiry_hours * hour)%Z;
               created_at := now; used := false; used_at := None; id := None |} in
          let '(password_reset, c) := create (resets w) password_reset new_id in
          let reset_link := reset_base_url ++ "?token=" ++ tok in
          match send_password_reset_email mail reset_link display_name with
          | Sent => ((true, msg_generic), {| resets := c; provider := provider w |})
          | NotSent =>
              let c := match id_set password_reset with
                       | Some i => (delete c i).2
                       | None => c
                       end in
              ((false, msg_mail_failed), {| resets := c; provider := provider w |})
          | MailRaised => ((false, msg_error), {| resets := c; provider := provider w |})
          end
      end
  end.

(** [reset_password]. *)
Definition reset_password (tok new_password : string) (now : Z) (w : world)
  : (bool * string) * world :=
  if (String.length new_password <? Strength.min_password_length)%nat
  then ((false, Strength.msg_length), w)
  else
    match get_by_token (resets w) tok with
    | None => ((false, msg_invalid_token), w)
    | Some password_reset =>
        if is_expired password_reset now then ((false, msg_expired), w)
        else if used password_reset then ((false, msg_used), w)
        else
          match idp_update_password (provider w) (user_id password_reset) new_password with
          | None => ((false, msg_update_failed), w)
          | Some st =>
              let c := match id_set password_reset with
                       | Some i => (mark_as_used (resets w) i now).2
                       | None => resets w
                       end in
              ((true, msg_reset_ok), {| resets := c; provider := st |})
          end
    end.

(** [change_password]. *)
Definition change_password (uid current_password new_password : string) (w : world)
  : (bool * string) * world :=
  if (String.length new_password <? Strength.min_password_length)%nat
  then ((false, Strength.msg_length), w)
  else if String.eqb current_password new_password then ((false, msg_same), w)
  else
    match idp_get_user (provider w) uid with
    | UserNotFound => ((false, msg_no_user), w)
    | LookupFailed => ((false, msg_error), w)
    | UserFound _ _ =>
        match idp_update_password (provider w) uid new_password with
        | None => ((false, msg_update_failed), w)
        | Some st => ((true, msg_changed), {| resets := resets w; provider := st |})
        end
    end.

End WithEnv.
End PasswordService.

(** ** api/v1/password.py: the request handlers *)

Module PasswordApi.
Import Py PasswordService.

(** A request whose body is a JSON object with string or null values: the
    uid set by the authentication middleware, if any, and the dictionary
    that [request.get_json()] returns. The handlers below are the handlers
    of the source on such a request; [PasswordRoutes] gives them on any
    JSON body. *)
Record request : Type := { user : option string; json : Validators.payload }.

(** The response of [create_response], without its [data] entry. *)
Record response : Type := {
  status : nat;
  success : bool;
  message : option string;
  error : option string
}.

Definition create_response (message : string) (status : nat) (error : option string)
  : response :=
  {| status := status;
     success := (200 <=? status)%nat && (status <? 300)%nat;
     message := match message with EmptyString => None | _ => Some message end;
     error := error |}.

Section WithEnv.
Context `{Env}.

Definition body (req : request) (key : string) : option string :=
  match json req !! key with Some v => v | None => None end.

(** The handler [reset_password]. *)
Definition reset_password (req : request) (now : Z) (w : world) : response * world :=
  match body req "token" with
  | Some (String _ _ as tok) =>
      match body req "new_password" with
      | Some (String _ _ as new_password) =>
          match Strength.validate_password_strength new_password with
          | (false, error_msg) =>
              (create_response (default "" error_msg) 400 (Some "Invalid password"), w)
          | (true, _) =>
              match PasswordService.reset_password tok new_password now w with
              | ((true, msg), w') => (create_response msg 200 None, w')
              | ((false, msg), w') =>
                  (create_response msg 400 (Some "Failed to reset password"), w')
              end
          end
      | _ => (create_response "New password is required" 400 (Some "Missing new_password"), w)
      end
  | _ => (create_response "Reset token is required" 400 (Some "Missing token"), w)
  end.

(** The handler [change_password]. *)
Definition change_password (req : request) (w : world) : response * world :=
  match user req with
  | None => (create_response "Authentication required" 401 (Some "User not authenticated"), w)
  | Some uid =>
      match body req "current_password" with
      | Some (String _ _ as current_password) =>
          match body req "new_password" with
          | Some (String _ _ as new_password) =>
              match Strength.validate_password_strength new_password with
              | (false, error_msg) =>
                  (create_response (default "" error_msg) 400 (Some "Invalid password"), w)
              | (true, _) =>
                  match PasswordService.change_password uid current_password new_password w with
                  | ((true, msg), w') => (create_response msg 200 None, w')
                  | ((false, msg), w') =>
                      (create_response msg 400 (Some "Failed to change password"), w')
                  end
              end
          | _ =>
              (create_response "New password is required" 400 (Some "Missing new_password"), w)
          end
      | _ =>
          (create_response "Current password is required" 400
             (Some "Missing current_password"), w)
      end
  end.

End WithEnv.
End PasswordApi.

(** ** More collaborators: the identity provider and the document store

    [firebase_admin.auth.update_user(uid, email=...)] and
    [firebase_admin.auth.delete_user(uid)], used when a user is updated or
    deleted; a call that raises leaves the provider as it was. And
    [DocumentReference.update(field_updates)] of the Firestore client,
    which reads every key as a field path: a simple field name (a letter or
    an underscore, then letters, digits and underscores) is the path of that
    top-level field, while a key with a dot, a backtick or another
    character is parsed, may address a nested field and may be refused. *)

Module Accounts.
Import Py.

(** A simple field name of Firestore, [[_a-zA-Z][_a-zA-Z0-9]*]. *)
Definition simple_name (k : string) : bool :=
  match k with
  | EmptyString => false
  | String c rest =>
      (PyStr.isalpha c || Ascii.eqb c "_")
      && forallb (fun c => PyStr.isalnum c || Ascii.eqb c "_") (PyStr.chars rest)
  end.

(** Every key of the dictionary is a simple field name. *)
Definition simple_keys {A : Type} (m : gmap string A) : Prop :=
  map_Forall (fun k _ => simple_name k = true) m.

Class Admin `{Env} : Type := {
  (** the provider after the update, or [str] of the exception raised *)
  idp_update_email : idp -> string -> string -> string + idp;
  (** the provider after the deletion, or nothing when the call raised *)
  idp_delete_user : idp -> string -> option idp;
  (** [doc_ref.update(field_updates)] on an existing document: the document
      after the update, or the exception raised (the store refuses an
      update without fields, a reserved field name, a document that grows
      too large) *)
  doc_update : dict -> dict -> result dict;
  (** an update under simple field names that the store accepts overwrites
      the fields it is given and keeps the others *)
  doc_update_simple : forall doc field_updates doc' : dict,
    simple_keys field_updates ->
    doc_update doc field_updates = Ok doc' -> doc' = field_updates ∪ doc
}.

End Accounts.

(** ** repositories/firestore/user_repo.py: reading, updating, deleting

    The document ids handed to the repository are Firestore document ids
    (not empty, without a slash). *)

Module UserDocs.
Import Py UserModel.

Section WithEnv.
Context `{Env}.

(** [FirestoreUserRepository.get_by_firebase_uid]. *)
Definition get_by_firebase_uid (c : UserRepo.collection) (firebase_uid : string) (now : Z)
  : result (option User) :=
  match c !! firebase_uid with
  | Some doc_data => UserRepo.found (from_dict doc_data (Some firebase_uid) now)
  | None => Ok None
  end.

(** [FirestoreUserRepository.get_by_id]. *)
Definition get_by_id (c : UserRepo.collection) (user_id : string) (now : Z)
  : result (option User) :=
  get_by_firebase_uid c user_id now.

(** The loop of [get_all] over the streamed documents. *)
Fixpoint read_all (docs : list (string * dict)) (now : Z) : result (list User) :=
  match docs with
  | [] => Ok []
  | (doc_id, doc_data) :: rest =>
      match from_dict doc_data (Some doc_id) now with
      | Raise e => Raise e
      | Ok user =>
          match read_all rest now with
          | Raise e => Raise e
          | Ok users => Ok (user :: users)
          end
      end
  end.

(** [FirestoreUserRepository.get_all]. *)
Definition get_all (c : UserRepo.collection) (now : Z) : result (list User) :=
  read_all (map_to_list c) now.

(** [FirestoreUserRepository.delete]. *)
Definition delete (c : UserRepo.collection) (firebase_uid : string)
  : bool * UserRepo.collection :=
  match c !! firebase_uid with
  | Some _ => (true, base.delete firebase_uid c)
  | None => (false, c)
  end.

(** [user_data["email"] = user_data["email"].lower()], when the email is
    given and truthy. *)
Definition lower_email (user_data : dict) : result dict :=
  match user_data !! "email" with
  | Some v =>
      if truthy v then
        match v with
        | PStr s => Ok (<["email" := PStr (PyStr.lower s)]> user_data)
        | _ => Raise (AttributeError "lower")
        end
      else Ok user_data
  | None => Ok user_data
  end.

End WithEnv.

Section WithAdmin.
Context `{Accounts.Admin}.

(** [FirestoreUserRepository.update]: the user read back after the update
    and the collection; [None] and the collection as it was when there is
    no document. An exception of [doc_ref.update] is raised again, and
    the document is as it was. *)
Definition update (c : UserRepo.collection) (firebase_uid : string) (user_data : dict)
  (now : Z) : result (option User) * UserRepo.collection :=
  match c !! firebase_uid with
  | None => (Ok None, c)
  | Some doc =>
      let user_data := base.delete "id" user_data in
      match lower_email user_data with
      | Raise e => (Raise e, c)
      | Ok user_data =>
          match Accounts.doc_update doc user_data with
          | Raise e => (Raise e, c)
          | Ok doc_data =>
              (UserRepo.found (from_dict doc_data (Some firebase_uid) now),
               <[firebase_uid := doc_data]> c)
          end
      end
  end.

End WithAdmin.
End UserDocs.

(** ** services/user_service.py: reading, updating, deleting *)

Module UserAdmin.
Import Py UserModel Validators UserService Accounts.

Section WithEnv.
Context `{Admin}.

Notation "x <- m ;; k" := (bind m (fun x => k))
  (at level 100, m at next level, right associativity).
Notation "'check' b 'else' e ;; k" := (if b then k else raise e)
  (at level 100, b at next level, e at next level, right associativity).

(** [UserService.get_user_by_firebase_uid]. *)
Definition get_user_by_firebase_uid (firebase_uid : string) (now : Z) : M (option User) :=
  check negb (String.eqb firebase_uid "")
    else ValueError "Firebase UID cannot be empty" ;;
  fun w => (UserDocs.get_by_firebase_uid (users w) firebase_uid now, w).

(** [UserService.get_user_by_id]. *)
Definition get_user_by_id (user_id : string) (now : Z) : M (option User) :=
  check negb (String.eqb user_id "") else ValueError "User ID cannot be empty" ;;
  get_user_by_firebase_uid user_id now.

(** [UserService.get_all_users]. *)
Definition get_all_users (now : Z) : M (list User) :=
  fun w => (UserDocs.get_all (users w) now, w).

(** [UserService.delete_user]: the flag and the cleanup counts, which are
    always [None]. A failure of the identity provider is logged only. *)
Definition delete_user (firebase_uid : string) (now : Z)
  : M (bool * option (list (string * Z))) :=
  user <- get_user_by_firebase_uid firebase_uid now ;;
  match user with
  | None => ret (false, None)
  | Some _ =>
      fun w =>
        let '(result, c) := UserDocs.delete (users w) firebase_uid in
        let st :=
          if result then
            match idp_delete_user (provider w) firebase_uid with
            | Some st => st
            | None => provider w
            end
          else provider w in
        (Ok (result, None), {| users := c; provider := st |})
  end.

(** [v == s] for a string [s]. *)
Definition eq_str (v : pyval) (s : string) : bool :=
  match v with
  | PStr x => String.eqb x s
  | _ => false
  end.

(** [existing_user.email.lower()]. *)
Definition email_lower (u : User) : M string :=
  match email u with
  | PStr s => ret (PyStr.lower s)
  | _ => raise (AttributeError "lower")
  end.

(** The email block of [update_user]: the payload with its email in lower
    case, after the check that no other user holds it and the update of
    the identity provider. *)
Definition change_email (firebase_uid : string) (existing_user : User)
  (user_data : payload) (now : Z) : M payload :=
  match user_data !! "email" with
  | None => ret user_data
  | Some email =>
      check validate_email email else ValueError "Invalid email format" ;;
      let email := PyStr.lower (default "" email) in
      let user_data := <["email" := Some email]> user_data in
      current <- email_lower existing_user ;;
      if String.eqb email current then ret user_data
      else
        email_check <- get_user_by_email email now ;;
        check negb (match email_check with
                    | Some other =>
                        negb (eq_str (UserModel.firebase_uid other) firebase_uid)
                    | None => false
                    end)
          else ValueError ("Email " ++ email ++ " is already in use") ;;
        fun w =>
          match idp_update_email (provider w) firebase_uid email with
          | inr st => (Ok user_data, {| users := users w; provider := st |})
          | inl msg =>
              (Raise (ValueError ("Error updating email in Firebase Authentication: "
                                  ++ msg)), w)
          end
  end.

(** [if key in user_data]: sanitize the name and undo an all-capitals
    spelling. *)
Definition clean_name (key : string) (user_data : payload) : payload :=
  match user_data !! key with
  | Some name => <[key := capitalise (sanitize_input name)]> user_data
  | None => user_data
  end.

(** [UserService.update_user] on a payload whose values are strings or
    null, the values the model declares for the fields the service reads.
    [file_id] is the uuid drawn for an uploaded picture; [now1], [now2] and
    [now3] are the clock readings of the three reads of the collection,
    [now] the one stored in [updated_at]. *)
Definition update_user (firebase_uid : string) (user_data : payload)
  (file_id : string) (now1 now2 now now3 : Z) : M (option User) :=
  existing_user <- get_user_by_firebase_uid firebase_uid now1 ;;
  match existing_user with
  | None => ret None
  | Some existing_user =>
      user_data <- change_email firebase_uid existing_user user_data now2 ;;
      let phone_number := get user_data "phone_number" in
      check negb (truthy phone_number && negb (validate_phone_number phone_number))
        else ValueError "Invalid phone number format" ;;
      let user_data := clean_name "first_name" user_data in
      let user_data := clean_name "last_name" user_data in
      user_data <- store_profile_picture user_data (firebase_uid ++ "_" ++ file_id) ;;
      let update_data := <["updated_at" := PTime now]> (of_opt <$> user_data) in
      fun w =>
        let '(updated_user, c) := UserDocs.update (users w) firebase_uid update_data now3 in
        (updated_user, {| users := c; provider := provider w |})
  end.

End WithEnv.
End UserAdmin.

(** ** utils/helpers/api.py *)

Module Api.
Import Py.

(** The text of an [error] entry: a literal of the source, or [str(e)] of
    an exception. *)
Inductive error_text : Type :=
| Text (s : string)
| StrOf (e : exn).

(** [str(e)]: the message of a [ValueError] raised with one; the text of
    the exceptions raised by the runtime is left symbolic, and is never
    empty. *)
Definition str (e : exn) : error_text :=
  match e with
  | ValueError msg => Text msg
  | _ => StrOf e
  end.

(** An entry of the [data] object of a response: a value, or a
    dictionary. *)
Inductive entry : Type :=
| Value (v : pyval)
| Object (d : dict).

(** The status and the JSON body of a response (the CORS headers are
    constants of the configuration). *)
Record response : Type := {
  status : nat;
  success : bool;
  message : option string;
  data : option (gmap string entry);
  error : option error_text
}.

(** [create_response(data, message, status, error)]. Every value of
    [pyval] is serialised by [json.dumps] with the [DateTimeEncoder], so
    the fallback of a failed serialisation is never taken. *)
Definition create_response (data : option (gmap string entry)) (message : option string)
  (status : nat) (error : option error_text) : response :=
  {| status := status;
     success := (200 <=? status)%nat && (status <? 300)%nat;
     message := match message with Some (String _ _) => message | _ => None end;
     data := data;
     error := match error with Some (Text EmptyString) => None | _ => error end |}.

(** [s.split(sep)] for a one-character separator. *)
Fixpoint split (sep : ascii) (s : string) : list string :=
  match s with
  | EmptyString => [EmptyString]
  | String c s' =>
      if Ascii.eqb c sep then EmptyString :: split sep s'
      else match split sep s' with
           | part :: parts => String c part :: parts
           | [] => [String c EmptyString]
           end
  end.

(** [[part for part in path.split('/') if part]]. *)
Definition clean_parts (path : string) : list string :=
  List.filter (fun part => negb (String.eqb part "")) (split "/" path).

(** [extract_id_from_request]: [args] are the query parameters of the
    request and [path] its path; [default_name] is used in the log only. *)
Definition extract_id_from_request (args : gmap string string) (path : string)
  (arg_name : option string) : option string :=
  let extracted_id :=
    match arg_name with
    | Some (String _ _ as name) =>
        if bool_decide (args = ∅) then None else args !! name
    | _ => None
    end in
  match extracted_id with
  | Some (String _ _) => extracted_id
  | _ =>
      match last (clean_parts path) with
      | Some part => Some part
      | None => extracted_id
      end
  end.

End Api.

(** ** api/v1/password.py: requesting a reset, and the handlers on any body

    [request.get_json()] returns the value of a body that parses as JSON:
    the dictionary of a JSON object, here with string or null values, or a
    value of another type, on which [data.get] raises [AttributeError]. *)

Module PasswordRoutes.
Import Py Api.

(** The types of the JSON values that are no object. *)
Inductive other_json : Type := JNull | JBool | JInt | JFloat | JStr | JList.

(** [type(data).__name__]. *)
Definition type_name (k : other_json) : string :=
  match k with
  | JNull => "NoneType"
  | JBool => "bool"
  | JInt => "int"
  | JFloat => "float"
  | JStr => "str"
  | JList => "list"
  end.

(** What [request.get_json()] returns. *)
Inductive body : Type :=
| Fields (data : Validators.payload)
| Other (k : other_json).

(** A request: the uid set by the authentication middleware, if any, and
    the parsed body. *)
Record request : Type := { user : option string; json : body }.

(** [str(e)] of the [AttributeError] that [data.get] raises. *)
Definition no_get (k : other_json) : string :=
  "'" ++ type_name k ++ "' object has no attribute 'get'".

(** A handler answers, or lets an exception escape that none of its
    [except] clauses lists. *)
Inductive outcome (R : Type) : Type :=
| Answered (r : R)
| Uncaught (e : exn).
Arguments Answered {R} r.
Arguments Uncaught {R} e.

(** The request with the dictionary [data] for its body. *)
Definition on_fields (req : request) (data : Validators.payload) : PasswordApi.request :=
  {| PasswordApi.user := user req; PasswordApi.json := data |}.

Section WithEnv.
Context `{Env}.

Definition default_reset_url : string := "https://app.plek.com/reset-password".

(** [data.get('reset_base_url', default)], as the text the link is built
    from. *)
Definition reset_base_url (req : PasswordApi.request) : string :=
  match PasswordApi.json req !! "reset_base_url" with
  | Some v => str_of v
  | None => default_reset_url
  end.

(** The handler [request_reset] on a body that is a JSON object. *)
Definition request_reset_on (req : PasswordApi.request) (tok new_id : string)
  (now_query now : Z) (w : PasswordService.world) : response * PasswordService.world :=
  match PasswordApi.body req "email" with
  | Some (String _ _ as email) =>
      match PasswordService.request_password_reset email (reset_base_url req) tok new_id
              now_query now w with
      | ((true, message), w') =>
          (create_response (Some {[ "email" := Value (PStr email) ]}) (Some message) 200 None,
           w')
      | ((false, message), w') =>
          (create_response None (Some message) 400 (Some (Text "Failed to process request")),
           w')
      end
  | _ => (create_response None (Some "Email is required") 400 (Some (Text "Missing email")), w)
  end.

(** The handler [request_reset]. Its [except] clauses list [TypeError],
    [KeyError], [FirebaseError] and [ConnectionError]: the
    [AttributeError] of [data.get] escapes. *)
Definition request_reset (req : request) (tok new_id : string) (now_query now : Z)
  (w : PasswordService.world) : outcome response * PasswordService.world :=
  match json req with
  | Fields data =>
      let '(r, w') := request_reset_on (on_fields req data) tok new_id now_query now w in
      (Answered r, w')
  | Other k => (Uncaught (AttributeError "get"), w)
  end.

(** The handler [reset_password], whose [except] clauses are those of
    [request_reset]. *)
Definition reset_password (req : request) (now : Z) (w : PasswordService.world)
  : outcome PasswordApi.response * PasswordService.world :=
  match json req with
  | Fields data =>
      let '(r, w') := PasswordApi.reset_password (on_fields req data) now w in
      (Answered r, w')
  | Other k => (Uncaught (AttributeError "get"), w)
  end.

(** The handler [change_password]. [get_user_id_from_request] is called
    before the body is read, and the first [except] clause turns every
    [AttributeError], also the one of [data.get], into the answer 401. *)
Definition change_password (req : request) (w : PasswordService.world)
  : PasswordApi.response * PasswordService.world :=
  match user req with
  | None =>
      (PasswordApi.create_response "Authentication required" 401
         (Some "User not authenticated"), w)
  | Some _ =>
      match json req with
      | Fields data => PasswordApi.change_password (on_fields req data) w
      | Other k =>
          (PasswordApi.create_response "Authentication required" 401 (Some (no_get k)), w)
      end
  end.

End WithEnv.
End PasswordRoutes.

(** ** api/v1/users.py: creating a user *)

Module UsersApi.
Import Py Api.

(** A request: its method and its JSON body, an object whose values are
    strings or null. *)
Record request : Type := { method : string; json : Validators.payload }.

Section WithEnv.
Context `{Env}.

(** The handler [create_user]; the service is called with its default
    [create_auth_user=True]. *)
Definition create_user (req : request) (temp_id : string) (now : Z)
  (w : UserService.world) : response * UserService.world :=
  if negb (String.eqb (method req) "POST")
  then (create_response None (Some "Only POST method is allowed for this endpoint") 405
          (Some (Text "Method not allowed")), w)
  else
    match UserService.create_user (json req) true temp_id now w with
    | (Ok user, w') =>
        (create_response (Some {[ "user" := Object (UserModel.to_dict user) ]})
           (Some "User created successfully") 201 None, w')
    | (Raise (ValueError msg), w') =>
        (create_response None (Some "Invalid user data") 400 (Some (Text msg)), w')
    | (Raise e, w') =>
        (create_response None (Some "An error occurred while creating the user") 500
           (Some (str e)), w')
    end.

End WithEnv.
End UsersApi.

(** ** models/password_reset.py: the dictionary form

    A [PasswordReset] object as Python holds it: nothing constrains the
    values of its fields at run time. *)

Module ResetModel.
Import Py.

Record PasswordReset : Type := {
  email : pyval;
  user_id : pyval;
  token : pyval;
  expires_at : pyval;
  created_at : pyval;
  used : pyval;
  used_at : pyval;
  id : pyval
}.

(** The object whose fields have the types the model declares. *)
Definition of_record (r : ResetRepo.PasswordReset) : PasswordReset :=
  {| email := PStr (ResetRepo.email r);
     user_id := PStr (ResetRepo.user_id r);
     token := PStr (ResetRepo.token r);
     expires_at := PTime (ResetRepo.expires_at r);
     created_at := PTime (ResetRepo.created_at r);
     used := PBool (ResetRepo.used r);
     used_at := match ResetRepo.used_at r with Some t => PTime t | None => PNone end;
     id := of_opt (ResetRepo.id r) |}.

Section WithEnv.
Context `{Env}.

(** [v.isoformat() if isinstance(v, datetime) else v]. *)
Definition iso_if_datetime (v : pyval) : pyval :=
  match v with PTime t => PStr (isoformat t) | _ => v end.

(** [PasswordReset.to_dict]. A truthy [used_at] that is no [datetime] has
    no [isoformat]. *)
Definition to_dict (r : PasswordReset) : result dict :=
  match (if truthy (used_at r)
         then match used_at r with
              | PTime t => Ok (PStr (isoformat t))
              | _ => Raise (AttributeError "isoformat")
              end
         else Ok PNone) with
  | Raise e => Raise e
  | Ok used_at_text =>
      Ok (list_to_map
            [("id", id r); ("email", email r); ("user_id", user_id r);
             ("token", token r);
             ("expires_at", iso_if_datetime (expires_at r));
             ("created_at", iso_if_datetime (created_at r));
             ("used", used r); ("used_at", used_at_text)])
  end.

(** [data.get(key)]. *)
Definition get (data : dict) (key : string) : pyval :=
  match data !! key with Some v => v | None => PNone end.

(** [data.get(key) or '']. *)
Definition get_or_empty (data : dict) (key : string) : pyval :=
  if truthy (get data key) then get data key else PStr "".

(** A date of [from_dict]: a string is parsed, and [fromisoformat] raises
    [ValueError] on one it cannot read; a value that is neither a string
    nor a [datetime] is replaced by the clock reading [now]. Nothing is
    returned when [fromisoformat] raised. *)
Definition date_or_now (v : pyval) (now : Z) : option pyval :=
  match v with
  | PStr s => PTime <$> fromisoformat (PyStr.replace_char "Z" "+00:00" s)
  | PTime t => Some (PTime t)
  | _ => Some (PTime now)
  end.

Definition date_if_text (v : pyval) : option pyval :=
  match v with
  | PStr s => PTime <$> fromisoformat (PyStr.replace_char "Z" "+00:00" s)
  | _ => Some v
  end.

(** [PasswordReset.from_dict]; [None] when [fromisoformat] raised
    [ValueError]. [now_c] and [now_e] are the clock readings that replace
    a missing [created_at] and a missing [expires_at]. *)
Definition from_dict (data : dict) (now_c now_e : Z) : option PasswordReset :=
  created_at ← date_or_now (get data "created_at") now_c;
  expires_at ← date_or_now (get data "expires_at") now_e;
  used_at ← date_if_text (get data "used_at");
  Some {| id := get data "id";
          email := get_or_empty data "email";
          user_id := get_or_empty data "user_id";
          token := get_or_empty data "token";
          expires_at := expires_at;
          created_at := created_at;
          used := match data !! "used" with Some v => v | None => PBool false end;
          used_at := used_at |}.

End WithEnv.
End ResetModel.

(** ** repositories/firestore/password_reset_repo.py: the documents

    The collection as Firestore holds it: a document is the dictionary
    [create] wrote, with the fields [mark_as_used] overwrote. *)

Module ResetStore.
Import Py.

Abbreviation collection := (gmap string dict).

Section WithEnv.
Context `{Env}.

(** [create]: [new_id] is the id Firestore gives the document. The
    object returned is the argument with its [id] set. *)
Definition with_id (r : ResetModel.PasswordReset) (i : pyval) : ResetModel.PasswordReset :=
  {| ResetModel.email := ResetModel.email r; ResetModel.user_id := ResetModel.user_id r;
     ResetModel.token := ResetModel.token r;
     ResetModel.expires_at := ResetModel.expires_at r;
     ResetModel.created_at := ResetModel.created_at r;
     ResetModel.used := ResetModel.used r; ResetModel.used_at := ResetModel.used_at r;
     ResetModel.id := i |}.

Definition create (c : collection) (password_reset : ResetModel.PasswordReset)
  (new_id : string) : result (ResetModel.PasswordReset * collection) :=
  match ResetModel.to_dict password_reset with
  | Raise e => Raise e
  | Ok data =>
      let data := base.delete "id" data in
      let data := <["id" := PStr new_id]> data in
      Ok (with_id password_reset (PStr new_id), <[new_id := data]> c)
  end.

(** A document read: [data['id'] = doc.id], then [from_dict]. The outer
    [None] stands for the [ValueError] of an unreadable date. *)
Definition read (doc_id : string) (data : dict) (now_c now_e : Z)
  : option ResetModel.PasswordReset :=
  ResetModel.from_dict (<["id" := PStr doc_id]> data) now_c now_e.

(** [get_by_id]. *)
Definition get_by_id (c : collection) (reset_id : string) (now_c now_e : Z)
  : option (option ResetModel.PasswordReset) :=
  match c !! reset_id with
  | Some data => Some <$> read reset_id data now_c now_e
  | None => Some None
  end.

(** [mark_as_used]: [doc_ref.update] raises on a missing document, and
    the repository answers [False]. *)
Definition mark_as_used (c : collection) (reset_id : string) (now : Z) : bool * collection :=
  match c !! reset_id with
  | Some data =>
      (true, <[reset_id := <["used_at" := PTime now]> (<["used" := PBool true]> data)]> c)
  | None => (false, c)
  end.

End WithEnv.
End ResetStore.

(** ** services/password_service.py: drawing a token *)

Module Tokens.

(** [string.ascii_letters + string.digits]. *)
Definition alphabet : string :=
  "abcdefghijklmnopqrstuvwxyzABCDEFGHIJKLMNOPQRSTUVWXYZ0123456789".

(** [secrets.choice(seq)]: the element at the index drawn below
    [len(seq)]; [draw] is the number the generator gives. *)
Definition choice (seq : string) (draw : nat) : ascii :=
  nth (draw mod String.length seq) (PyStr.chars seq) "000"%char.

(** [generate_reset_token(length)]: one draw for each character. *)
Fixpoint generate_reset_token (draws : nat -> nat) (length : nat) : string :=
  match length with
  | O => EmptyString
  | S n => String (choice alphabet (draws O)) (generate_reset_token (fun i => draws (S i)) n)
  end.

End Tokens.

(** * Notions of the specification

    The properties below are stated with these notions. They follow the
    words of the specification, not the code. *)

(** The five requirements the specification lists for a password, and the
    message that names each. These follow the words of the specification;
    the theorems below compare them with the validators of the code. *)
Inductive requirement : Type := Length | Uppercase | Lowercase | Number | Special.

Definition meets (k : requirement) (p : string) : bool :=
  match k with
  | Length => (8 <=? String.length p)%nat
  | Uppercase => PyStr.any PyStr.isupper p
  | Lowercase => PyStr.any PyStr.islower p
  | Number => PyStr.any PyStr.isdigit p
  | Special => PyStr.any (PyStr.char_in PyStr.punctuation) p
  end.

Definition naming (k : requirement) : string :=
  match k with
  | Length => "Password must be at least 8 characters long."
  | Uppercase => "Password must contain at least one uppercase letter."
  | Lowercase => "Password must contain at least one lowercase letter."
  | Number => "Password must contain at least one number."
  | Special => "Password must contain at least one special character."
  end.

(** No document of the collection has the empty id. *)
Definition ids_nonempty (c : ResetRepo.collection) : Prop := c !! "" = None.

(** At most one document of the collection carries the token. *)
Definition token_unique (c : ResetRepo.collection) (tok : string) : Prop :=
  forall k1 k2 r1 r2,
    c !! k1 = Some r1 -> c !! k2 = Some r2 ->
    ResetRepo.token r1 = tok -> ResetRepo.token r2 = tok -> k1 = k2.

(** A record is active for an email at a time, in the words of the
    specification: it is a record of the email, unused and unexpired. *)
Definition active_for (mail : string) (t : Z) (r : ResetRepo.PasswordReset) : bool :=
  String.eqb (ResetRepo.email r) mail && negb (ResetRepo.used r)
  && negb (ResetRepo.is_expired r t).

(** The records of one email, and the invariant of the specification: at
    most one record of an email is active at a given time. *)
Definition records_for (mail : string) (c : ResetRepo.collection) : ResetRepo.collection :=
  filter (fun kr => ResetRepo.email kr.2 = mail) c.

Definition at_most_one_active (c : ResetRepo.collection) (t : Z) : Prop :=
  forall mail k1 k2 r1 r2,
    c !! k1 = Some r1 -> c !! k2 = Some r2 ->
    active_for mail t r1 = true ->
    active_for mail t r2 = true ->
    k1 = k2.

(** The record a request stores under the id [new_id]. *)
Definition issued (mail uid tok new_id : string) (now : Z) : ResetRepo.PasswordReset :=
  ResetRepo.with_id
    {| ResetRepo.email := mail; ResetRepo.user_id := uid; ResetRepo.token := tok;
       ResetRepo.expires_at :=
         (now + PasswordService.token_expiry_hours * PasswordService.hour)%Z;
       ResetRepo.created_at := now; ResetRepo.used := false;
       ResetRepo.used_at := None; ResetRepo.id := None |}
    (Some new_id).

(** The arguments of the [User] constructor, with the types the model
    declares: every field annotated [Optional] is an option. *)
Record user_fields : Type := {
  f_email : string;
  f_first_name : string;
  f_last_name : string;
  f_role : string;
  f_created_at : option Z;
  f_updated_at : option Z;
  f_profile_picture : option string;
  f_phone_number : option string;
  f_is_active : bool;
  f_firebase_uid : option string;
  f_onboarding_completed : bool;
  f_language : option string;
  f_location : option (list (string * Py.pyval));
  f_email_notifications : bool;
  f_push_notification : bool;
  f_photo_url : option string;
  f_bio : option string;
  f_lang : option string;
  f_id : option string
}.

Definition opt_time (t : option Z) : Py.pyval :=
  match t with Some t => Py.PTime t | None => Py.PNone end.
Definition opt_dict (d : option (list (string * Py.pyval))) : Py.pyval :=
  match d with Some d => Py.PDict d | None => Py.PNone end.

(** The keyword arguments of a well-typed construction. *)
Definition kwargs_of (a : user_fields) : Py.dict :=
  list_to_map
    [("email", Py.PStr (f_email a)); ("first_name", Py.PStr (f_first_name a));
     ("last_name", Py.PStr (f_last_name a)); ("role", Py.PStr (f_role a));
     ("created_at", opt_time (f_created_at a));
     ("updated_at", opt_time (f_updated_at a));
     ("profile_picture", Py.of_opt (f_profile_picture a));
     ("phone_number", Py.of_opt (f_phone_number a));
     ("is_active", Py.PBool (f_is_active a));
     ("firebase_uid", Py.of_opt (f_firebase_uid a));
     ("onboarding_completed", Py.PBool (f_onboarding_completed a));
     ("language", Py.of_opt (f_language a));
     ("location", opt_dict (f_location a));
     ("email_notifications", Py.PBool (f_email_notifications a));
     ("push_notification", Py.PBool (f_push_notification a));
     ("photo_url", Py.of_opt (f_photo_url a)); ("bio", Py.of_opt (f_bio a));
     ("lang", Py.of_opt (f_lang a)); ("id", Py.of_opt (f_id a))].

(** Every character class of the expression contains a letter exactly
    when it contains its lower-case form. *)
Fixpoint case_closed (r : Regex.regex) : Prop :=
  match r with
  | Regex.Void | Regex.Eps => True
  | Regex.Class p => forall c, p (PyStr.lower_char c) = p c
  | Regex.Cat r1 r2 | Regex.Alt r1 r2 => case_closed r1 /\ case_closed r2
  | Regex.Star r1 => case_closed r1
  end.

(** The checks [create_user] makes before it looks the email up: the
    required fields, and the format of the phone number when one is
    given. *)
Definition required_fields (create_auth_user : bool) : list string :=
  (["email"; "first_name"] ++ (if create_auth_user then ["password"] else []))%list.

Definition missing (d : Validators.payload) (create_auth_user : bool) : list string :=
  Validators.missing_fields
    (Validators.validate_required_fields d (required_fields create_auth_user)).

Definition phone_accepted (d : Validators.payload) : bool :=
  negb (Validators.truthy (UserService.get d "phone_number")
        && negb (Validators.validate_phone_number (UserService.get d "phone_number"))).

(** * Notions of the further properties

    Invariants of the user collection and the languages of the validators'
    patterns. These are read off the code: what [create] and [update]
    write, and the words the patterns of utils/validators.py match. *)

(** Every email of the collection is written in lower case, and no two
    documents hold the same email. *)
Definition emails_lower (c : UserRepo.collection) : Prop :=
  forall k doc s,
    c !! k = Some doc -> doc !! "email" = Some (Py.PStr s) -> PyStr.lower s = s.

Definition emails_distinct (c : UserRepo.collection) : Prop :=
  forall k1 k2 d1 d2 s,
    c !! k1 = Some d1 -> c !! k2 = Some d2 ->
    d1 !! "email" = Some (Py.PStr s) -> d2 !! "email" = Some (Py.PStr s) ->
    k1 = k2.

(** A date that [from_dict] reads without a call to [fromtimestamp]:
    the field is missing, or holds no number. *)
Definition date_readable (doc : Py.dict) (field : string) : bool :=
  match doc !! field with
  | Some (Py.PNum _) | Some (Py.PBool _) => false
  | _ => true
  end.

(** Every document is stored under its [firebase_uid], holds an email
    that is a non-empty string, and holds dates that can be read: what
    [create] writes. *)
Definition well_kept (c : UserRepo.collection) : Prop :=
  forall k doc,
    c !! k = Some doc ->
    doc !! "firebase_uid" = Some (Py.PStr k)
    /\ (exists e, doc !! "email" = Some (Py.PStr e) /\ e <> "")
    /\ date_readable doc "created_at" = true
    /\ date_readable doc "updated_at" = true.

(** The language of a regular expression: the words it matches in
    full. *)
Fixpoint lang (r : Regex.regex) : list ascii -> Prop :=
  match r with
  | Regex.Void => fun _ => False
  | Regex.Eps => fun l => l = []
  | Regex.Class p => fun l => exists c, l = [c] /\ p c = true
  | Regex.Cat r1 r2 => fun l => exists l1 l2, l = (l1 ++ l2)%list /\ lang r1 l1 /\ lang r2 l2
  | Regex.Alt r1 r2 => fun l => lang r1 l \/ lang r2 l
  | Regex.Star r1 => fun l => exists ls, l = concat ls /\ Forall (lang r1) ls
  end.

(** The characters of the words of an expression. *)
Fixpoint alphabet (r : Regex.regex) (c : ascii) : bool :=
  match r with
  | Regex.Void | Regex.Eps => false
  | Regex.Class p => p c
  | Regex.Cat r1 r2 | Regex.Alt r1 r2 => alphabet r1 c || alphabet r2 c
  | Regex.Star r1 => alphabet r1 c
  end.

(** The characters of the local part and of the domain of an address. *)
Definition local_ok (c : ascii) : bool := PyStr.isalnum c || PyStr.char_in "._%+-" c.
Definition domain_ok (c : ascii) : bool := PyStr.isalnum c || PyStr.char_in ".-" c.

(** The characters of a phone number, and the number of its digits. *)
Definition phone_ok (c : ascii) : bool :=
  PyStr.isdigit c || PyStr.isspace c || PyStr.char_in "+().-" c.
Definition digits (l : list ascii) : nat := List.length (List.filter PyStr.isdigit l).

(** [counts f r lo hi]: every word of [r] holds between [lo] and [hi]
    characters of the class [f]. *)
Inductive counts (f : ascii -> bool) : Regex.regex -> nat -> nat -> Prop :=
| counts_eps : counts f Regex.Eps 0 0
| counts_in (p : ascii -> bool) :
    (forall c, p c = true -> f c = true) -> counts f (Regex.Class p) 1 1
| counts_out (p : ascii -> bool) :
    (forall c, p c = true -> f c = false) -> counts f (Regex.Class p) 0 0
| counts_cat (r1 r2 : Regex.regex) (lo1 hi1 lo2 hi2 : nat) :
    counts f r1 lo1 hi1 -> counts f r2 lo2 hi2 ->
    counts f (Regex.Cat r1 r2) (lo1 + lo2) (hi1 + hi2)
| counts_alt (r1 r2 : Regex.regex) (lo hi : nat) :
    counts f r1 lo hi -> counts f r2 lo hi -> counts f (Regex.Alt r1 r2) lo hi
| counts_weaken (r : Regex.regex) (lo hi lo' hi' : nat) :
    counts f r lo hi -> (lo' <= lo)%nat -> (hi <= hi')%nat -> counts f r lo' hi'.

(** * A reference environment

    An environment in memory, used to run the operations on examples: the
    identity provider is a table from uid to email and password, instants
    are written as decimal numerals, every mail is delivered and every
    upload succeeds. *)

Module Reference.
Import Py.

Definition iso (t : Z) : string := NilZero.string_of_int (Z.to_int t).
Definition of_iso (s : string) : option Z := Z.of_int <$> NilZero.int_of_string s.

Definition accounts := gmap string (string * string).

Definition uid_of (email : string) : string := "uid:" ++ email.

Definition create_account (st : accounts) (email password : string)
  (display_name : option string) : idp_create_result * accounts :=
  match st !! uid_of email with
  | Some _ => (EmailAlreadyExists, st)
  | None => (Created (uid_of email), <[uid_of email := (email, password)]> st)
  end.

Definition get_account (st : accounts) (uid : string) : idp_lookup :=
  match st !! uid with
  | Some _ => UserFound uid None
  | None => UserNotFound
  end.

Definition get_account_by_email (st : accounts) (email : string) : idp_lookup :=
  get_account st (uid_of email).

Definition update_account (st : accounts) (uid password : string) : option accounts :=
  match st !! uid with
  | Some (email, _) => Some (<[uid := (email, password)]> st)
  | None => None
  end.

Lemma uint_no_Z (d : Decimal.uint) :
  PyStr.char_in (NilEmpty.string_of_uint d) "Z" = false.
Proof. induction d; simpl; auto. Qed.

Lemma nz_uint_no_Z (d : Decimal.uint) :
  PyStr.char_in (NilZero.string_of_uint d) "Z" = false.
Proof. destruct d; try reflexivity; apply (uint_no_Z (_ d)). Qed.

Lemma iso_no_Z (t : Z) : PyStr.char_in (iso t) "Z" = false.
Proof.
  unfold iso, NilZero.string_of_int.
  destruct (Z.to_int t) as [d|d].
  - apply nz_uint_no_Z.
  - exact (nz_uint_no_Z d).
Qed.

Lemma of_iso_iso (t : Z) : of_iso (iso t) = Some t.
Proof.
  unfold of_iso, iso.
  rewrite NilZero.isi.
  - simpl. f_equal. apply DecimalZ.of_to.
  - destruct t; simpl; try discriminate.
    intros E; injection E as E. exact (DecimalPos.Unsigned.to_uint_nonnil _ E).
  - destruct t; simpl; try discriminate.
    intros E; injection E as E. exact (DecimalPos.Unsigned.to_uint_nonnil _ E).
Qed.

#[export] Instance memory_env : Env := {|
  isoformat := iso;
  fromisoformat := of_iso;
  fromtimestamp := fun n => Some (n * 1000000)%Z;
  fromisoformat_isoformat := of_iso_iso;
  isoformat_no_Z := iso_no_Z;
  sanitize_markup := fun s => s;
  upload_file := fun _ file_name folder =>
                   Uploaded (Some ("https://blobs.example/" ++ folder ++ "/" ++ file_name));
  send_password_reset_email := fun _ _ _ => Sent;
  idp := accounts;
  idp_create_user := create_account;
  idp_get_user := get_account;
  idp_get_user_by_email := get_account_by_email;
  idp_update_password := update_account
|}.

End Reference.

(** ** Example data

    Records, accounts and payloads on which the operations are run in the
    reference environment. *)

Definition demo_reset : ResetRepo.PasswordReset :=
  {| ResetRepo.email := "x@y.com"; ResetRepo.user_id := "uid:x@y.com";
     ResetRepo.token := "T0KEN"; ResetRepo.expires_at := 100;
     ResetRepo.created_at := 0; ResetRepo.used := false;
     ResetRepo.used_at := None; ResetRepo.id := Some "r1" |}.

Definition demo_accounts : Reference.accounts :=
  {[ "uid:x@y.com" := ("x@y.com", "0ld!Passw0rd") ]}.

(** One record; the identity provider does not know its owner, so that
    every credential update fails. *)
Definition world_down : PasswordService.world :=
  @PasswordService.Build_world Reference.memory_env
    {[ "r1" := demo_reset ]} (∅ : Reference.accounts).

(** The same record, and a provider that knows its owner. *)
Definition world_up : PasswordService.world :=
  @PasswordService.Build_world Reference.memory_env
    {[ "r1" := demo_reset ]} demo_accounts.

(** No record yet, and a provider that knows [x@y.com]. *)
Definition world_fresh : PasswordService.world :=
  @PasswordService.Build_world Reference.memory_env ∅ demo_accounts.

(** A user with every optional field given, and one with none. *)
Definition full_fields : user_fields :=
  {| f_email := "a@b.com"; f_first_name := "Jo"; f_last_name := "Doe";
     f_role := "admin"; f_created_at := Some 1000%Z; f_updated_at := Some 2000%Z;
     f_profile_picture := Some "https://blobs.example/p.jpg";
     f_phone_number := Some "123-456-7890"; f_is_active := false;
     f_firebase_uid := Some "uid:a@b.com"; f_onboarding_completed := true;
     f_language := Some "en"; f_location := Some [("city", Py.PStr "Oslo")];
     f_email_notifications := false; f_push_notification := false;
     f_photo_url := Some "https://blobs.example/q.jpg"; f_bio := Some "bio";
     f_lang := Some "en"; f_id := Some "doc-1" |}.

Definition bare_fields (email : string) : user_fields :=
  {| f_email := email; f_first_name := "Jo"; f_last_name := "Doe";
     f_role := "user"; f_created_at := None; f_updated_at := None;
     f_profile_picture := None; f_phone_number := None; f_is_active := true;
     f_firebase_uid := None; f_onboarding_completed := false;
     f_language := None; f_location := None;
     f_email_notifications := true; f_push_notification := true;
     f_photo_url := None; f_bio := None; f_lang := None; f_id := None |}.

(** The round trip in the reference environment. *)
Definition round_trips (a : user_fields) : Prop :=
  exists u,
    UserModel.User_new (kwargs_of a) 10 20 = Py.Ok u
    /\ UserModel.from_dict (H := Reference.memory_env)
         (UserModel.to_dict (H := Reference.memory_env) u) None 30 = Py.Ok u
    /\ (forall (k : string) v,
          UserModel.to_dict (H := Reference.memory_env) u !! k = Some v ->
          Py.is_none v = false).

(** A directory without users, and a sign-up payload. *)
Definition directory_empty : UserService.world :=
  @UserService.Build_world Reference.memory_env ∅ (∅ : Reference.accounts).

Definition signup (email : string) : Validators.payload :=
  <["email" := Some email]>
    (<["first_name" := Some "jo"]>
       (<["last_name" := Some "DOE"]> (<["password" := Some "Str0ng!Pw"]> ∅))).

(** ** The reference identity provider, continued *)

Module ReferenceAdmin.
Import Py.

Definition update_email (st : Reference.accounts) (uid email : string)
  : string + Reference.accounts :=
  match st !! uid with
  | Some (_, password) => inr (<[uid := (email, password)]> st)
  | None => inl "No user record found for the provided user ID."
  end.

Definition delete_account (st : Reference.accounts) (uid : string)
  : option Reference.accounts :=
  match st !! uid with
  | Some _ => Some (delete uid st)
  | None => None
  end.

(** The reference store reads every key as the name of a field. *)
Definition update_fields (doc field_updates : dict) : result dict :=
  Ok (field_updates ∪ doc).

#[export] Instance memory_admin : @Accounts.Admin Reference.memory_env :=
  @Accounts.Build_Admin Reference.memory_env update_email delete_account update_fields
    (fun doc field_updates doc' _ E =>
       eq_sym (f_equal (fun r => match r with Ok d => d | Raise _ => doc' end) E)).

End ReferenceAdmin.

(** The directory after [A@B.com] signed up, and after [c@d.org] did. *)
Definition directory_one : UserService.world :=
  (UserService.create_user (signup "A@B.com") true "t1" 1000 directory_empty).2.

Definition directory_two : UserService.world :=
  (UserService.create_user (signup "c@d.org") true "t2" 2000 directory_one).2.

(** The reference environment with a mail service that reports a
    failure, and a world in it: no record, and a provider that knows
    [x@y.com]. *)
Definition mail_down : Py.Env :=
  {| Py.isoformat := Reference.iso;
     Py.fromisoformat := Reference.of_iso;
     Py.fromtimestamp := fun n => Some (n * 1000000)%Z;
     Py.fromisoformat_isoformat := Reference.of_iso_iso;
     Py.isoformat_no_Z := Reference.iso_no_Z;
     Py.sanitize_markup := fun s => s;
     Py.upload_file := fun _ _ _ => Py.UploadFailed None;
     Py.send_password_reset_email := fun _ _ _ => Py.NotSent;
     Py.idp := Reference.accounts;
     Py.idp_create_user := Reference.create_account;
     Py.idp_get_user := Reference.get_account;
     Py.idp_get_user_by_email := Reference.get_account_by_email;
     Py.idp_update_password := Reference.update_account |}.

Definition world_unsent : PasswordService.world :=
  @PasswordService.Build_world mail_down ∅ demo_accounts.

(** What the endpoint answers when the service reports success. *)
Definition reset_requested (email : string) : Api.response :=
  Api.create_response (Some {[ "email" := Api.Value (Py.PStr email) ]})
    (Some PasswordService.msg_generic) 200 None.

(** A request for a reset of [email], and requests with the body [null]. *)
Definition ask (email : string) : PasswordRoutes.request :=
  {| PasswordRoutes.user := None;
     PasswordRoutes.json := PasswordRoutes.Fields {[ "email" := Some email ]} |}.

Definition null_body (user : option string) : PasswordRoutes.request :=
  {| PasswordRoutes.user := user;
     PasswordRoutes.json := PasswordRoutes.Other PasswordRoutes.JNull |}.

(** * Properties *)

(** ** The password validators *)

Lemma special_class_punctuation (c : ascii) :
  PyStr.char_in Auth.special_class c = true ->
  PyStr.char_in PyStr.punctuation c = true.
Proof.
  destruct c as [[] [] [] [] [] [] [] []]; vm_compute; congruence.
Qed.

Lemma any_mono (f g : ascii -> bool) (s : string) :
  (forall c, f c = true -> g c = true) ->
  PyStr.any f s = true -> PyStr.any g s = true.
Proof.
  unfold PyStr.any. intros Hfg Hf.
  apply existsb_exists in Hf as (c & Hin & Hc).
  apply existsb_exists. exists c. auto.
Qed.

Lemma validate_password_valid (p : string) :
  Auth.valid (Auth.validate_password p) =
  negb (String.length p <? 8)%nat
  && PyStr.any PyStr.isupper p && PyStr.any PyStr.islower p
  && PyStr.any PyStr.isdigit p
  && PyStr.any (PyStr.char_in Auth.special_class) p.
Proof.
  unfold Auth.validate_password, Auth.re_search_class.
  destruct (String.length p <? 8)%nat, (PyStr.any PyStr.isupper p),
    (PyStr.any PyStr.islower p), (PyStr.any PyStr.isdigit p),
    (PyStr.any (PyStr.char_in Auth.special_class) p); reflexivity.
Qed.

Lemma strength_accepts_iff (p : string) :
  Strength.validate_password_strength p = (true, None) <->
  forall k, meets k p = true.
Proof.
  unfold Strength.validate_password_strength, Strength.min_password_length.
  rewrite Nat.ltb_antisym.
  split.
  - intros Hv k.
    destruct (8 <=? String.length p)%nat eqn:E1; simpl in Hv; [|discriminate].
    destruct (PyStr.any PyStr.isupper p) eqn:E2; simpl in Hv; [|discriminate].
    destruct (PyStr.any PyStr.islower p) eqn:E3; simpl in Hv; [|discriminate].
    destruct (PyStr.any PyStr.isdigit p) eqn:E4; simpl in Hv; [|discriminate].
    destruct (PyStr.any (PyStr.char_in PyStr.punctuation) p) eqn:E5;
      simpl in Hv; [|discriminate].
    destruct k; simpl; assumption.
  - intros Hall.
    pose proof (Hall Length) as H1. pose proof (Hall Uppercase) as H2.
    pose proof (Hall Lowercase) as H3. pose proof (Hall Number) as H4.
    pose proof (Hall Special) as H5. unfold meets in H1, H2, H3, H4, H5.
    rewrite H1, H2, H3, H4, H5. reflexivity.
Qed.

Lemma auth_valid_meets (p : string) :
  Auth.valid (Auth.validate_password p) = true -> forall k, meets k p = true.
Proof.
  rewrite validate_password_valid, Nat.ltb_antisym, negb_involutive.
  intros Hv k.
  repeat (apply andb_prop in Hv as [Hv ?]).
  destruct k; unfold meets; try assumption.
  eapply any_mono; [apply special_class_punctuation|assumption].
Qed.

(** C5. The strength validator accepts a password exactly when it has at
    least 8 characters, an uppercase letter, a lowercase letter, a digit
    and a punctuation character; a password that misses one of the five is
    rejected with the message naming a requirement it misses (the first in
    the order length, uppercase, lowercase, number, special character);
    and the validator of user creation accepts only passwords that meet
    the five requirements as well. *)
Theorem strength_validator_requirements (p : string) :
  (Strength.validate_password_strength p = (true, None) <->
     forall k, meets k p = true)
  /\ (forall k, meets k p = false ->
        exists k', meets k' p = false
                   /\ Strength.validate_password_strength p = (false, Some (naming k')))
  /\ (Auth.valid (Auth.validate_password p) = true -> forall k, meets k p = true).
Proof.
  split; [apply strength_accepts_iff|]. split; [|apply auth_valid_meets].
  intros k Hk.
  assert (Hne : exists k0, meets k0 p = false) by eauto. clear k Hk.
  unfold Strength.validate_password_strength, Strength.min_password_length.
  rewrite Nat.ltb_antisym.
  change (8 <=? String.length p)%nat with (meets Length p).
  change (PyStr.any PyStr.isupper p) with (meets Uppercase p).
  change (PyStr.any PyStr.islower p) with (meets Lowercase p).
  change (PyStr.any PyStr.isdigit p) with (meets Number p).
  change (PyStr.any (PyStr.char_in PyStr.punctuation) p) with (meets Special p).
  destruct (meets Length p) eqn:E1; [|exists Length; auto].
  destruct (meets Uppercase p) eqn:E2; [|exists Uppercase; auto].
  destruct (meets Lowercase p) eqn:E3; [|exists Lowercase; auto].
  destruct (meets Number p) eqn:E4; [|exists Number; auto].
  destruct (meets Special p) eqn:E5; [|exists Special; auto].
  destruct Hne as [k0 Hk0]. destruct k0; congruence.
Qed.

(** C10. The two validators differ: every character of the special class
    of [validate_password] is a punctuation character, the underscore is a
    punctuation character outside that class, and the password
    [Abcdef1_] is accepted by [validate_password_strength] and rejected by
    [validate_password], hence by [create_firebase_user], for want of a
    special character. Every password [validate_password] accepts is
    accepted by [validate_password_strength]. *)
Theorem validators_not_equivalent :
  (forall c, PyStr.char_in Auth.special_class c = true ->
             PyStr.char_in PyStr.punctuation c = true)
  /\ PyStr.char_in PyStr.punctuation "_" = true
  /\ PyStr.char_in Auth.special_class "_" = false
  /\ Strength.validate_password_strength "Abcdef1_" = (true, None)
  /\ Auth.validate_password "Abcdef1_"
     = {| Auth.valid := false; Auth.errors := [Auth.msg_special] |}
  /\ (forall (E : Py.Env) (st : Py.idp) (email : string) (name : option string),
        Firebase.create_firebase_user st email "Abcdef1_" name
        = (Py.Raise (Py.ValueError Auth.msg_special), st))
  /\ (forall p, Auth.valid (Auth.validate_password p) = true ->
                Strength.validate_password_strength p = (true, None)).
Proof.
  split; [exact special_class_punctuation|].
  repeat split; try reflexivity.
  intros p Hv. apply strength_accepts_iff.
  apply auth_valid_meets. exact Hv.
Qed.

(** ** Queries of the password-reset repository *)

Lemma filter_head {A} (f : A -> bool) (l : list A) (x : A) (t : list A) :
  List.filter f l = x :: t -> In x l /\ f x = true.
Proof.
  intros E. apply filter_In. rewrite E. left. reflexivity.
Qed.

Lemma filter_none {A} (f : A -> bool) (l : list A) (x : A) :
  List.filter f l = [] -> In x l -> f x = false.
Proof.
  intros E Hin. destruct (f x) eqn:Efx; [|reflexivity].
  assert (Hx : In x (List.filter f l)) by (apply filter_In; auto).
  rewrite E in Hx. destruct Hx.
Qed.

Lemma in_map_to_list {A} (c : gmap string A) (k : string) (r : A) :
  In (k, r) (map_to_list c) <-> c !! k = Some r.
Proof. rewrite <- list_elem_of_In. apply elem_of_map_to_list. Qed.

Lemma get_by_token_Some (c : ResetRepo.collection) (tok : string) (r : ResetRepo.PasswordReset) :
  ResetRepo.get_by_token c tok = Some r ->
  exists k r0, c !! k = Some r0 /\ ResetRepo.token r0 = tok
               /\ r = ResetRepo.with_id r0 (Some k).
Proof.
  unfold ResetRepo.get_by_token.
  destruct (List.filter _ (map_to_list c)) as [|[k r0] t] eqn:E; [discriminate|].
  intros [= <-]. apply filter_head in E as [Hin Htok].
  exists k, r0. split; [apply in_map_to_list, Hin|].
  split; [apply String.eqb_eq, Htok|reflexivity].
Qed.

Lemma get_by_token_None (c : ResetRepo.collection) (tok k : string) (r0 : ResetRepo.PasswordReset) :
  ResetRepo.get_by_token c tok = None ->
  c !! k = Some r0 -> ResetRepo.token r0 <> tok.
Proof.
  unfold ResetRepo.get_by_token.
  destruct (List.filter _ (map_to_list c)) as [|kd t] eqn:E; [|discriminate].
  intros _ Hk Htok.
  apply (filter_none _ _ (k, r0)) in E; [|apply in_map_to_list, Hk].
  simpl in E. apply String.eqb_neq in E. contradiction.
Qed.

Lemma id_set_read (k : string) (r0 : ResetRepo.PasswordReset) :
  k <> "" ->
  PasswordService.id_set (ResetRepo.with_id r0 (Some k)) = Some k.
Proof. destruct k; [congruence|reflexivity]. Qed.

(** ** Consuming a reset token *)

(** A call that fails leaves the records and the identity provider as they
    were. *)
Lemma reset_password_failure_frame `{Py.Env} (tok p : string) (now : Z)
  (w : PasswordService.world) :
  (PasswordService.reset_password tok p now w).1.1 = false ->
  (PasswordService.reset_password tok p now w).2 = w.
Proof.
  unfold PasswordService.reset_password.
  destruct (String.length p <? _)%nat; [reflexivity|].
  destruct (ResetRepo.get_by_token _ tok) as [r|]; [|reflexivity].
  destruct (ResetRepo.is_expired r now); [reflexivity|].
  destruct (ResetRepo.used r); [reflexivity|].
  destruct (Py.idp_update_password _ _ p); [discriminate|reflexivity].
Qed.

(** What a call answers when the token resolves to a used record. *)
Lemma reset_password_used `{Py.Env} (tok p : string) (now : Z)
  (w : PasswordService.world) (r : ResetRepo.PasswordReset) :
  ResetRepo.get_by_token (PasswordService.resets w) tok = Some r ->
  ResetRepo.used r = true ->
  PasswordService.reset_password tok p now w =
  ((false,
    if (String.length p <? 8)%nat then Strength.msg_length
    else if (ResetRepo.expires_at r <? now)%Z then PasswordService.msg_expired
    else PasswordService.msg_used), w).
Proof.
  intros Hget Hused. unfold PasswordService.reset_password.
  change Strength.min_password_length with 8%nat.
  destruct (String.length p <? 8)%nat; [reflexivity|].
  rewrite Hget. unfold ResetRepo.is_expired.
  destruct (ResetRepo.expires_at r <? now)%Z; [reflexivity|].
  rewrite Hused. reflexivity.
Qed.

(** C3. When the token resolves to a record whose expiry is strictly
    before the current time, [reset_password] with a password of at least
    8 characters answers with the expired message, whatever the [used]
    flag of the record, and changes neither the records nor the identity
    provider. *)
Theorem expired_token_rejected `{Py.Env} (w : PasswordService.world)
  (tok p : string) (now : Z) (r : ResetRepo.PasswordReset) :
  ResetRepo.get_by_token (PasswordService.resets w) tok = Some r ->
  (ResetRepo.expires_at r < now)%Z ->
  (8 <= String.length p)%nat ->
  PasswordService.reset_password tok p now w
  = ((false, PasswordService.msg_expired), w).
Proof.
  intros Hget Hexp Hlen. unfold PasswordService.reset_password.
  change Strength.min_password_length with 8%nat.
  destruct (Nat.ltb_spec (String.length p) 8) as [Hlt|_]; [lia|].
  rewrite Hget. unfold ResetRepo.is_expired.
  destruct (Z.ltb_spec (ResetRepo.expires_at r) now) as [_|Hge]; [reflexivity|lia].
Qed.

(** C4. When the token resolves to an active record (unused, not expired)
    and the credential update of the identity provider fails,
    [reset_password] answers with a failure and changes nothing: the
    record is still unused, and a retry with the same token on the same
    records, made before the expiry once the provider accepts the update,
    succeeds. A call that does not succeed never changes a record. *)
Theorem failed_update_keeps_token `{Py.Env} (w : PasswordService.world)
  (tok p : string) (now : Z) (r : ResetRepo.PasswordReset) :
  ResetRepo.get_by_token (PasswordService.resets w) tok = Some r ->
  ResetRepo.used r = false ->
  (now <= ResetRepo.expires_at r)%Z ->
  (8 <= String.length p)%nat ->
  Py.idp_update_password (PasswordService.provider w) (ResetRepo.user_id r) p = None ->
  PasswordService.reset_password tok p now w
  = ((false, PasswordService.msg_update_failed), w)
  /\ ResetRepo.get_by_token (PasswordService.resets w) tok = Some r
  /\ (forall (w2 : PasswordService.world) (p2 : string) (now2 : Z) (st : Py.idp),
        PasswordService.resets w2 = PasswordService.resets w ->
        (now2 <= ResetRepo.expires_at r)%Z ->
        (8 <= String.length p2)%nat ->
        Py.idp_update_password (PasswordService.provider w2) (ResetRepo.user_id r) p2
        = Some st ->
        (PasswordService.reset_password tok p2 now2 w2).1
        = (true, PasswordService.msg_reset_ok))
  /\ (forall (tok' p' : string) (now' : Z),
        (PasswordService.reset_password tok' p' now' w).1.1 = false ->
        (PasswordService.reset_password tok' p' now' w).2 = w).
Proof.
  intros Hget Hused Hexp Hlen Hfail.
  split; [|split; [exact Hget|split]].
  - unfold PasswordService.reset_password.
    change Strength.min_password_length with 8%nat.
    destruct (Nat.ltb_spec (String.length p) 8) as [Hlt|_]; [lia|].
    rewrite Hget. unfold ResetRepo.is_expired.
    destruct (Z.ltb_spec (ResetRepo.expires_at r) now) as [Hlt|_]; [lia|].
    rewrite Hused, Hfail. reflexivity.
  - intros w2 p2 now2 st Hsame Hexp2 Hlen2 Hok.
    unfold PasswordService.reset_password.
    change Strength.min_password_length with 8%nat.
    destruct (Nat.ltb_spec (String.length p2) 8) as [Hlt|_]; [lia|].
    rewrite Hsame, Hget. unfold ResetRepo.is_expired.
    destruct (Z.ltb_spec (ResetRepo.expires_at r) now2) as [Hlt|_]; [lia|].
    rewrite Hused, Hok. reflexivity.
  - intros tok' p' now'. apply reset_password_failure_frame.
Qed.

Lemma expired_token_rejected_witness :
  PasswordService.reset_password "T0KEN" "N3w!Passw0rd" 101 world_up
  = ((false, PasswordService.msg_expired), world_up).
Proof.
  apply (expired_token_rejected world_up "T0KEN" "N3w!Passw0rd" 101 demo_reset).
  - vm_compute. reflexivity.
  - simpl. lia.
  - simpl. lia.
Defined.

Lemma failed_update_keeps_token_witness :
  PasswordService.reset_password "T0KEN" "N3w!Passw0rd" 50 world_down
  = ((false, PasswordService.msg_update_failed), world_down)
  /\ (PasswordService.reset_password "T0KEN" "N3w!Passw0rd" 60 world_up).1
     = (true, PasswordService.msg_reset_ok).
Proof.
  destruct (failed_update_keeps_token world_down "T0KEN" "N3w!Passw0rd" 50 demo_reset)
    as (Hfail & _ & Hretry & _).
  - vm_compute. reflexivity.
  - reflexivity.
  - simpl. lia.
  - simpl. lia.
  - reflexivity.
  - split; [exact Hfail|].
    apply (Hretry world_up "N3w!Passw0rd" 60%Z
             (<["uid:x@y.com" := ("x@y.com", "N3w!Passw0rd")]> demo_accounts)).
    + reflexivity.
    + simpl. lia.
    + simpl. lia.
    + vm_compute. reflexivity.
Defined.

(** What a successful call does: the token resolved to the document [k],
    unused and not expired, the provider accepted the update, and the
    document is rewritten as used. *)
Lemma reset_password_success `{Py.Env} (w w' : PasswordService.world)
  (tok p msg : string) (now : Z) :
  PasswordService.reset_password tok p now w = ((true, msg), w') ->
  ids_nonempty (PasswordService.resets w) ->
  exists k r0,
    PasswordService.resets w !! k = Some r0
    /\ ResetRepo.token r0 = tok
    /\ PasswordService.resets w'
       = <[k := ResetRepo.set_used r0 now]> (PasswordService.resets w).
Proof.
  unfold PasswordService.reset_password. intros Hrun Hids.
  destruct (String.length p <? _)%nat; [discriminate|].
  destruct (ResetRepo.get_by_token _ tok) as [r|] eqn:Hget; [|discriminate].
  destruct (ResetRepo.is_expired r now); [discriminate|].
  destruct (ResetRepo.used r); [discriminate|].
  destruct (Py.idp_update_password _ _ p) as [st|]; [|discriminate].
  apply get_by_token_Some in Hget as (k & r0 & Hk & Htok & ->).
  assert (Hne : k <> "") by (intros ->; unfold ids_nonempty in Hids; congruence).
  rewrite (id_set_read k r0 Hne) in Hrun.
  unfold ResetRepo.mark_as_used in Hrun. rewrite Hk in Hrun.
  injection Hrun as _ <-. exists k, r0. auto.
Qed.

Lemma get_by_token_unique (c : ResetRepo.collection) (tok k : string)
  (r0 : ResetRepo.PasswordReset) :
  token_unique c tok ->
  c !! k = Some r0 -> ResetRepo.token r0 = tok ->
  ResetRepo.get_by_token c tok = Some (ResetRepo.with_id r0 (Some k)).
Proof.
  intros Huniq Hk Htok.
  destruct (ResetRepo.get_by_token c tok) as [r|] eqn:Hget.
  - apply get_by_token_Some in Hget as (k' & r' & Hk' & Htok' & ->).
    assert (k' = k) as -> by (eapply Huniq; eauto).
    congruence.
  - exfalso. exact (get_by_token_None c tok k r0 Hget Hk Htok).
Qed.

Lemma token_unique_update (c : ResetRepo.collection) (tok k : string)
  (r0 r1 : ResetRepo.PasswordReset) :
  token_unique c tok -> c !! k = Some r0 ->
  ResetRepo.token r1 = ResetRepo.token r0 ->
  token_unique (<[k := r1]> c) tok.
Proof.
  intros Huniq Hk Htok k1 k2 r1' r2' H1 H2 T1 T2.
  destruct (decide (k1 = k)) as [->|N1]; destruct (decide (k2 = k)) as [->|N2];
    try reflexivity.
  - rewrite lookup_insert_eq in H1. rewrite lookup_insert_ne in H2 by congruence.
    injection H1 as <-. symmetry. eapply Huniq; eauto. congruence.
  - rewrite lookup_insert_eq in H2. rewrite lookup_insert_ne in H1 by congruence.
    injection H2 as <-. eapply Huniq; eauto. congruence.
  - rewrite lookup_insert_ne in H1 by congruence.
    rewrite lookup_insert_ne in H2 by congruence.
    eapply Huniq; eauto.
Qed.

(** C2, amended. After a successful [reset_password] the token resolves
    to a record with [used = true] and [used_at] set, and from then on
    every call presenting the token, in any world where the token still
    resolves to that record, fails and changes nothing. It fails with the
    already-used message when the new password has at least 8 characters
    and the record has not expired, with the expired message when the
    record has expired, and with the length message when the password is
    too short. The already-used message differs from the not-found and
    the expired messages. *)
Theorem consumed_token_is_spent `{Py.Env} (w w' : PasswordService.world)
  (tok p msg : string) (now : Z) :
  PasswordService.reset_password tok p now w = ((true, msg), w') ->
  ids_nonempty (PasswordService.resets w) ->
  token_unique (PasswordService.resets w) tok ->
  exists r,
    ResetRepo.get_by_token (PasswordService.resets w') tok = Some r
    /\ ResetRepo.used r = true
    /\ ResetRepo.used_at r = Some now
    /\ (forall (w2 : PasswordService.world) (p2 : string) (now2 : Z),
          ResetRepo.get_by_token (PasswordService.resets w2) tok = Some r ->
          PasswordService.reset_password tok p2 now2 w2 =
          ((false,
            if (String.length p2 <? 8)%nat then Strength.msg_length
            else if (ResetRepo.expires_at r <? now2)%Z then PasswordService.msg_expired
            else PasswordService.msg_used), w2))
    /\ String.eqb PasswordService.msg_used PasswordService.msg_invalid_token = false
    /\ String.eqb PasswordService.msg_used PasswordService.msg_expired = false.
Proof.
  intros Hrun Hids Huniq.
  destruct (reset_password_success w w' tok p msg now Hrun Hids)
    as (k & r0 & Hk & Htok & Hres).
  exists (ResetRepo.with_id (ResetRepo.set_used r0 now) (Some k)).
  split.
  - rewrite Hres. apply get_by_token_unique.
    + eapply token_unique_update; eauto.
    + apply lookup_insert_eq.
    + exact Htok.
  - repeat split; try reflexivity.
    intros w2 p2 now2 Hget2.
    apply (reset_password_used tok p2 now2 w2 _ Hget2). reflexivity.
Qed.

Lemma consumed_token_is_spent_witness :
  (PasswordService.reset_password "T0KEN" "An0ther!Passw0rd" 60
     (PasswordService.reset_password "T0KEN" "N3w!Passw0rd" 50 world_up).2).1
  = (false, PasswordService.msg_used).
Proof.
  destruct (consumed_token_is_spent world_up
              (PasswordService.reset_password "T0KEN" "N3w!Passw0rd" 50 world_up).2
              "T0KEN" "N3w!Passw0rd" PasswordService.msg_reset_ok 50)
    as (r & Hget & _ & _ & Hlater & _).
  - vm_compute. reflexivity.
  - vm_compute. reflexivity.
  - intros k1 k2 r1 r2 H1 H2 _ _.
    change (PasswordService.resets world_up)
      with ({[ "r1" := demo_reset ]} : ResetRepo.collection) in H1, H2.
    apply lookup_singleton_Some in H1 as [<- _].
    apply lookup_singleton_Some in H2 as [<- _]. reflexivity.
  - rewrite (Hlater _ "An0ther!Passw0rd" 60%Z Hget).
    assert (Hr : ResetRepo.expires_at r = 100%Z).
    { vm_compute in Hget. injection Hget as <-. reflexivity. }
    rewrite Hr. reflexivity.
Defined.

(** C2 as stated fails: a consumed token presented after its expiry is
    answered with the expired message, not the already-used one. *)
Lemma used_token_after_expiry :
  (PasswordService.reset_password "T0KEN" "N3w!Passw0rd" 50 world_up).1
  = (true, PasswordService.msg_reset_ok)
  /\ (PasswordService.reset_password "T0KEN" "An0ther!Passw0rd" 101
        (PasswordService.reset_password "T0KEN" "N3w!Passw0rd" 50 world_up).2).1
     = (false, PasswordService.msg_expired)
  /\ String.eqb PasswordService.msg_expired PasswordService.msg_used = false.
Proof. vm_compute. auto. Qed.

(** ** Requesting a reset *)

(** The query for an active record selects no stored record: the stored
    [expires_at] is a text and the bound of the filter is a [datetime]. *)
Lemma selected_never `{Py.Env} (mail : string) (now : Z) (r : ResetRepo.PasswordReset) :
  ResetRepo.selected mail now r = false.
Proof.
  unfold ResetRepo.selected, ResetRepo.stored_expires_at, ResetRepo.later_than.
  apply andb_false_r.
Qed.

Lemma get_active_finds_nothing `{Py.Env} (c : ResetRepo.collection) (mail : string)
  (now : Z) :
  ResetRepo.get_active_reset_by_email c mail now = None.
Proof.
  unfold ResetRepo.get_active_reset_by_email.
  assert (E : List.filter (fun kd => ResetRepo.selected mail now kd.2) (map_to_list c)
              = []).
  { induction (map_to_list c) as [|kd l IH]; [reflexivity|].
    simpl. rewrite selected_never. exact IH. }
  rewrite E. reflexivity.
Qed.

(** The record a request issues is active until its expiry, one hour after
    it was built. *)
Lemma issued_active (mail uid tok new_id : string) (now t : Z) :
  (t <= now + PasswordService.hour)%Z ->
  active_for mail t (issued mail uid tok new_id now) = true.
Proof.
  intros Hle. unfold active_for, issued, ResetRepo.is_expired. simpl.
  rewrite String.eqb_refl. simpl.
  apply negb_true_iff, Z.ltb_ge. unfold PasswordService.token_expiry_hours. lia.
Qed.

(** A request for a registered email whose mail is delivered stores the
    issued record, whatever the collection holds. *)
Lemma request_issues `{Py.Env} (w : PasswordService.world)
  (mail url uid tok new_id : string) (display_name : option string) (now_query now : Z) :
  Py.idp_get_user_by_email (PasswordService.provider w) mail
  = Py.UserFound uid display_name ->
  Py.send_password_reset_email mail (url ++ "?token=" ++ tok) display_name = Py.Sent ->
  PasswordService.request_password_reset mail url tok new_id now_query now w
  = ((true, PasswordService.msg_generic),
     {| PasswordService.resets :=
          <[new_id := issued mail uid tok new_id now]> (PasswordService.resets w);
        PasswordService.provider := PasswordService.provider w |}).
Proof.
  intros Hreg Hsent. unfold PasswordService.request_password_reset.
  rewrite Hreg, get_active_finds_nothing. unfold ResetRepo.create. rewrite Hsent.
  reflexivity.
Qed.

(** C6. The claim fails on the code. The repository stores [expires_at] as
    the ISO text that [to_dict] writes and bounds it with a [datetime] in
    the query for an active record, which therefore selects nothing. So,
    for an email with a registered identity, a request whose mail is
    delivered stores a new record also when an active record of the email
    exists; and after two delivered requests in sequence, starting from no
    record of the email, the second made before the first token expires,
    two records of the email exist, both unused and unexpired: the
    invariant of at most one active record per email is broken. *)
Theorem second_request_issues_second_record `{Py.Env} (w : PasswordService.world)
  (mail url uid : string) (display_name : option string) :
  Py.idp_get_user_by_email (PasswordService.provider w) mail
  = Py.UserFound uid display_name ->
  (forall (tok new_id k : string) (now_query now : Z) (r : ResetRepo.PasswordReset),
      PasswordService.resets w !! k = Some r ->
      active_for mail now_query r = true ->
      PasswordService.resets w !! new_id = None ->
      Py.send_password_reset_email mail (url ++ "?token=" ++ tok) display_name
      = Py.Sent ->
      let after :=
        PasswordService.request_password_reset mail url tok new_id now_query now w in
      after.1 = (true, PasswordService.msg_generic)
      /\ PasswordService.resets after.2
         = <[new_id := issued mail uid tok new_id now]> (PasswordService.resets w)
      /\ size (PasswordService.resets after.2) = S (size (PasswordService.resets w)))
  /\ (forall (tok1 id1 tok2 id2 : string) (q1 now1 q2 now2 : Z),
        records_for mail (PasswordService.resets w) = ∅ ->
        Py.send_password_reset_email mail (url ++ "?token=" ++ tok1) display_name
        = Py.Sent ->
        Py.send_password_reset_email mail (url ++ "?token=" ++ tok2) display_name
        = Py.Sent ->
        id1 <> id2 ->
        (q2 <= now1 + PasswordService.hour)%Z ->
        (q2 <= now2)%Z ->
        let first := PasswordService.request_password_reset mail url tok1 id1 q1 now1 w in
        let second :=
          PasswordService.request_password_reset mail url tok2 id2 q2 now2 first.2 in
        first.1 = (true, PasswordService.msg_generic)
        /\ second.1 = (true, PasswordService.msg_generic)
        /\ PasswordService.resets second.2
           = <[id2 := issued mail uid tok2 id2 now2]>
               (<[id1 := issued mail uid tok1 id1 now1]> (PasswordService.resets w))
        /\ size (records_for mail (PasswordService.resets second.2)) = 2
        /\ ~ at_most_one_active (PasswordService.resets second.2) q2).
Proof.
  intros Hreg. split.
  - intros tok new_id k now_query now r _ _ Hfresh Hsent. cbv zeta.
    rewrite (request_issues w mail url uid tok new_id display_name now_query now
               Hreg Hsent).
    cbn [fst snd PasswordService.resets].
    split; [reflexivity|]. split; [reflexivity|].
    apply map_size_insert_None, Hfresh.
  - intros tok1 id1 tok2 id2 q1 now1 q2 now2 Hempty Hsent1 Hsent2 Hids Hbefore Hq.
    cbv zeta.
    rewrite (request_issues w mail url uid tok1 id1 display_name q1 now1 Hreg Hsent1).
    cbn [fst snd].
    rewrite (request_issues
               {| PasswordService.resets :=
                    <[id1 := issued mail uid tok1 id1 now1]> (PasswordService.resets w);
                  PasswordService.provider := PasswordService.provider w |}
               mail url uid tok2 id2 display_name q2 now2 Hreg Hsent2).
    cbn [fst snd PasswordService.resets].
    split; [reflexivity|]. split; [reflexivity|]. split; [reflexivity|]. split.
    + unfold records_for.
      rewrite !map_filter_insert_True by reflexivity.
      fold (records_for mail (PasswordService.resets w)). rewrite Hempty.
      rewrite map_size_insert_None
        by (rewrite lookup_insert_ne by congruence; apply lookup_empty).
      rewrite map_size_insert_None by apply lookup_empty.
      rewrite map_size_empty. reflexivity.
    + intros Hinv. apply Hids.
      apply (Hinv mail id1 id2 (issued mail uid tok1 id1 now1)
               (issued mail uid tok2 id2 now2)).
      * rewrite lookup_insert_ne by congruence. apply lookup_insert_eq.
      * apply lookup_insert_eq.
      * apply issued_active. exact Hbefore.
      * apply issued_active. unfold PasswordService.hour. lia.
Qed.

Lemma second_request_issues_second_record_witness :
  size (records_for "x@y.com"
          (PasswordService.resets
             (PasswordService.request_password_reset "x@y.com" "https://app/reset"
                "t0ken2" "r2" 1500 1500
                (PasswordService.request_password_reset "x@y.com" "https://app/reset"
                   "t0ken1" "r1" 1000 1000 world_fresh).2).2)) = 2.
Proof.
  destruct (second_request_issues_second_record world_fresh "x@y.com"
              "https://app/reset" "uid:x@y.com" None) as [_ Hscenario].
  - vm_compute. reflexivity.
  - apply (Hscenario "t0ken1" "r1" "t0ken2" "r2" 1000%Z 1000%Z 1500%Z 1500%Z).
    + apply map_filter_empty.
    + reflexivity.
    + reflexivity.
    + discriminate.
    + unfold PasswordService.hour. lia.
    + lia.
Defined.

(** ** Changing a password *)

(** C8, amended. The core [change_password] checks the new password for
    its length only and rejects one equal to the current password: a new
    password of at least 8 characters that differs from the current one
    is accepted whatever its character classes. The full strength check
    is made by the request handler, which answers 400 with the
    validator's message, without calling the core operation, for every
    new password [validate_password_strength] rejects. *)
Theorem change_password_checks `{Py.Env} (w : PasswordService.world)
  (uid current new : string) :
  ((String.length new < 8)%nat ->
     PasswordService.change_password uid current new w
     = ((false, Strength.msg_length), w))
  /\ ((8 <= String.length new)%nat -> current = new ->
        PasswordService.change_password uid current new w
        = ((false, PasswordService.msg_same), w))
  /\ (forall (u : string) (name : option string) (st : Py.idp),
        (8 <= String.length new)%nat -> current <> new ->
        Py.idp_get_user (PasswordService.provider w) uid = Py.UserFound u name ->
        Py.idp_update_password (PasswordService.provider w) uid new = Some st ->
        PasswordService.change_password uid current new w
        = ((true, PasswordService.msg_changed),
           {| PasswordService.resets := PasswordService.resets w;
              PasswordService.provider := st |}))
  /\ (forall (req : PasswordApi.request) (msg : string),
        PasswordApi.user req = Some uid ->
        PasswordApi.body req "current_password" = Some current -> current <> "" ->
        PasswordApi.body req "new_password" = Some new -> new <> "" ->
        Strength.validate_password_strength new = (false, Some msg) ->
        PasswordApi.change_password req w
        = (PasswordApi.create_response msg 400 (Some "Invalid password"), w)).
Proof.
  unfold PasswordService.change_password.
  change Strength.min_password_length with 8%nat.
  repeat split.
  - intros Hlen. destruct (Nat.ltb_spec (String.length new) 8); [reflexivity|lia].
  - intros Hlen ->. destruct (Nat.ltb_spec (String.length new) 8); [lia|].
    rewrite String.eqb_refl. reflexivity.
  - intros u name st Hlen Hne Hfound Hok.
    destruct (Nat.ltb_spec (String.length new) 8); [lia|].
    apply String.eqb_neq in Hne. rewrite Hne, Hfound, Hok. reflexivity.
  - intros req msg Huser Hcur Hcur_ne Hnew Hnew_ne Hweak.
    unfold PasswordApi.change_password. rewrite Huser, Hcur, Hnew.
    destruct current; [congruence|]. destruct new; [congruence|].
    rewrite Hweak. reflexivity.
Qed.

Lemma change_password_checks_witness :
  PasswordApi.change_password
    {| PasswordApi.user := Some "uid:x@y.com";
       PasswordApi.json := <["current_password" := Some "0ld!Passw0rd"]>
                             (<["new_password" := Some "abcdefgh"]> ∅) |}
    world_up
  = (PasswordApi.create_response Strength.msg_upper 400 (Some "Invalid password"),
     world_up).
Proof.
  destruct (change_password_checks world_up "uid:x@y.com" "0ld!Passw0rd" "abcdefgh")
    as (_ & _ & _ & Hhandler).
  apply Hhandler.
  - reflexivity.
  - vm_compute. reflexivity.
  - discriminate.
  - vm_compute. reflexivity.
  - discriminate.
  - reflexivity.
Defined.

(** C8 as stated fails: the core operation accepts a new password of
    eight lowercase letters, which the strength validator rejects. *)
Lemma core_change_password_accepts_weak :
  (PasswordService.change_password "uid:x@y.com" "0ld!Passw0rd" "abcdefgh" world_up).1
  = (true, PasswordService.msg_changed)
  /\ Strength.validate_password_strength "abcdefgh" = (false, Some Strength.msg_upper).
Proof. vm_compute. auto. Qed.

(** ** The dictionary form of a user *)

Lemma filter_not_none_lookup (m : Py.dict) (k : string) :
  filter UserModel.not_none m !! k
  = match m !! k with
    | Some v => if Py.is_none v then None else Some v
    | None => None
    end.
Proof.
  rewrite map_lookup_filter. destruct (m !! k) as [v|]; [|reflexivity].
  simpl. unfold UserModel.not_none. simpl.
  destruct (Py.is_none v); case_guard; simpl; congruence.
Qed.

Lemma filter_valid_lookup (m : Py.dict) (k : string) :
  k ∈ UserModel.valid_fields ->
  filter UserModel.is_valid_field m !! k = m !! k.
Proof.
  intros Hk. rewrite map_lookup_filter. destruct (m !! k) as [v|]; [|reflexivity].
  simpl. case_guard; [reflexivity|]. unfold UserModel.is_valid_field in *. contradiction.
Qed.

Ltac valid_field := unfold UserModel.valid_fields; repeat constructor.

(** Lookups of literal keys through [insert]. *)
Ltac through_inserts :=
  repeat first [ rewrite lookup_insert_eq
               | rewrite lookup_insert_ne by discriminate
               | rewrite lookup_empty ].

Lemma replace_absent (c : ascii) (r s : string) :
  PyStr.char_in s c = false -> PyStr.replace_char c r s = s.
Proof.
  unfold PyStr.char_in, PyStr.chars.
  induction s as [|d s IH]; [reflexivity|].
  cbn [list_ascii_of_string existsb PyStr.replace_char]. intros Hno.
  apply orb_false_elim in Hno as [Hc Hs].
  rewrite Ascii.eqb_sym, Hc. f_equal. apply IH, Hs.
Qed.

Lemma parse_isoformat `{Py.Env} (t : Z) :
  Py.fromisoformat (PyStr.replace_char "Z" "+00:00" (Py.isoformat t)) = Some t.
Proof.
  rewrite replace_absent by apply Py.isoformat_no_Z.
  apply Py.fromisoformat_isoformat.
Qed.

(** What [from_dict] builds from a document whose dates are ISO strings
    and whose email and first name are non-empty strings. *)
Lemma from_dict_stored `{Py.Env} (d : Py.dict) (now tc tu : Z) (e f l : string) :
  d !! "created_at" = Some (Py.PStr (Py.isoformat tc)) ->
  d !! "updated_at" = Some (Py.PStr (Py.isoformat tu)) ->
  d !! "email" = Some (Py.PStr e) -> e <> "" ->
  d !! "first_name" = Some (Py.PStr f) -> f <> "" ->
  d !! "last_name" = Some (Py.PStr l) ->
  UserModel.from_dict d None now =
  Py.Ok
    {| UserModel.email := Py.PStr e;
       UserModel.first_name := Py.PStr f;
       UserModel.last_name := Py.PStr l;
       UserModel.role := UserModel.kwarg d "role" (Py.PStr "user");
       UserModel.created_at := Py.PTime tc;
       UserModel.updated_at := Py.PTime tu;
       UserModel.profile_picture := UserModel.kwarg d "profile_picture" Py.PNone;
       UserModel.phone_number := UserModel.kwarg d "phone_number" Py.PNone;
       UserModel.is_active := UserModel.kwarg d "is_active" (Py.PBool true);
       UserModel.firebase_uid := UserModel.kwarg d "firebase_uid" Py.PNone;
       UserModel.onboarding_completed :=
         UserModel.kwarg d "onboarding_completed" (Py.PBool false);
       UserModel.language := UserModel.kwarg d "language" Py.PNone;
       UserModel.location :=
         UserModel.if_none (UserModel.kwarg d "location" Py.PNone)
           UserModel.default_location;
       UserModel.email_notifications :=
         UserModel.kwarg d "email_notifications" (Py.PBool true);
       UserModel.push_notification :=
         UserModel.kwarg d "push_notification" (Py.PBool true);
       UserModel.photo_url := UserModel.kwarg d "photo_url" Py.PNone;
       UserModel.bio := UserModel.kwarg d "bio" Py.PNone;
       UserModel.lang := UserModel.kwarg d "lang" Py.PNone;
       UserModel.id :=
         if Py.truthy (UserModel.kwarg d "firebase_uid" Py.PNone)
            && negb (Py.truthy (UserModel.kwarg d "id" Py.PNone))
         then UserModel.kwarg d "firebase_uid" Py.PNone
         else UserModel.kwarg d "id" Py.PNone |}.
Proof.
  intros Hc Hu He Hne Hf Hnf Hl.
  unfold UserModel.from_dict, UserModel.parse_date.
  rewrite Hc, parse_isoformat.
  rewrite lookup_insert_ne by discriminate. rewrite Hu, parse_isoformat.
  unfold UserModel.default_field.
  through_inserts. rewrite He.
  destruct e as [|e0 e']; [congruence|]. cbn [Py.truthy].
  through_inserts. rewrite Hf.
  destruct f as [|f0 f']; [congruence|]. cbn [Py.truthy].
  through_inserts. rewrite Hl.
  unfold UserModel.User_new, UserModel.kwarg, UserModel.if_none.
  destruct l as [|l0 l']; cbn [Py.truthy];
    rewrite !filter_valid_lookup by valid_field;
    through_inserts; rewrite ?He, ?Hf, ?Hl;
    cbn [Py.is_none]; reflexivity.
Qed.

Ltac to_dict_lookup :=
  unfold UserModel.to_dict, UserModel.asdict;
  rewrite ?filter_not_none_lookup;
  cbn [list_to_map foldr fst snd];
  through_inserts.

(** C9, amended. For every user built by the constructor from well-typed
    arguments whose email and first name are not empty, whichever optional
    fields are given, [from_dict] of [to_dict] gives the user back;
    [to_dict] holds no [None] value. *)
Theorem user_dict_round_trip `{Py.Env} (a : user_fields) (now_c now_u now : Z) :
  f_email a <> "" -> f_first_name a <> "" ->
  exists u,
    UserModel.User_new (kwargs_of a) now_c now_u = Py.Ok u
    /\ UserModel.from_dict (UserModel.to_dict u) None now = Py.Ok u
    /\ (forall k v, UserModel.to_dict u !! k = Some v -> Py.is_none v = false).
Proof.
  intros He Hf. eexists. split; [|split].
  - unfold UserModel.User_new, kwargs_of, UserModel.kwarg.
    cbn [list_to_map foldr fst snd]. through_inserts. reflexivity.
  - destruct a as [e f l r tc tu pp ph act fu onb lg loc en pn pu bio lng i].
    cbn [f_email f_first_name f_last_name f_role f_created_at f_updated_at
         f_profile_picture f_phone_number f_is_active f_firebase_uid
         f_onboarding_completed f_language f_location f_email_notifications
         f_push_notification f_photo_url f_bio f_lang f_id] in *.
    erewrite (from_dict_stored _ now (default now_c tc) (default now_u tu) e f l);
      try assumption;
      try (to_dict_lookup; cbn [UserModel.email UserModel.first_name
             UserModel.last_name UserModel.created_at UserModel.updated_at];
           try destruct tc; try destruct tu; reflexivity).
    f_equal. f_equal.
    all: unfold UserModel.kwarg; to_dict_lookup.
    all: cbn [UserModel.role UserModel.profile_picture UserModel.phone_number
           UserModel.is_active UserModel.firebase_uid UserModel.onboarding_completed
           UserModel.language UserModel.location UserModel.email_notifications
           UserModel.push_notification UserModel.photo_url UserModel.bio
           UserModel.lang UserModel.id UserModel.created_at UserModel.updated_at].
    all: try reflexivity.
    all: try (destruct tc; reflexivity).
    all: try (destruct tu; reflexivity).
    all: try (destruct pp; reflexivity).
    all: try (destruct ph; reflexivity).
    all: try (destruct lg; reflexivity).
    all: try (destruct loc; reflexivity).
    all: try (destruct pu; reflexivity).
    all: try (destruct bio; reflexivity).
    all: try (destruct lng; reflexivity).
    all: destruct fu as [[|c0 s0]|]; destruct i as [[|c1 s1]|]; reflexivity.
  - intros k v. unfold UserModel.to_dict. rewrite filter_not_none_lookup.
    destruct (_ !! k) as [x|]; [|discriminate].
    destruct (Py.is_none x) eqn:E; [discriminate|]. intros [= <-]. exact E.
Qed.

Lemma user_dict_round_trip_witness :
  round_trips full_fields /\ round_trips (bare_fields "a@b.com").
Proof.
  split.
  - apply (user_dict_round_trip (H := Reference.memory_env) full_fields); discriminate.
  - apply (user_dict_round_trip (H := Reference.memory_env) (bare_fields "a@b.com"));
      discriminate.
Defined.

(** C9 as stated fails: a user whose email is the empty string comes back
    with the default email of [from_dict]. *)
Lemma empty_email_not_restored :
  exists u u',
    UserModel.User_new (kwargs_of (bare_fields "")) 10 20 = Py.Ok u
    /\ UserModel.from_dict (H := Reference.memory_env)
         (UserModel.to_dict (H := Reference.memory_env) u) None 30 = Py.Ok u'
    /\ UserModel.email u = Py.PStr ""
    /\ UserModel.email u' = Py.PStr "default@example.com".
Proof.
  eexists. eexists. split; [vm_compute; reflexivity|].
  split; [vm_compute; reflexivity|]. split; reflexivity.
Qed.

(** ** Letter case and the email pattern *)

Ltac by_cases_on_char c := destruct c as [[] [] [] [] [] [] [] []]; reflexivity.

Lemma lower_char_idem (c : ascii) :
  PyStr.lower_char (PyStr.lower_char c) = PyStr.lower_char c.
Proof. by_cases_on_char c. Qed.

Lemma lower_idem (s : string) : PyStr.lower (PyStr.lower s) = PyStr.lower s.
Proof.
  induction s as [|c s IH]; [reflexivity|].
  simpl. rewrite lower_char_idem, IH. reflexivity.
Qed.

Lemma chars_lower (s : string) :
  PyStr.chars (PyStr.lower s) = List.map PyStr.lower_char (PyStr.chars s).
Proof.
  unfold PyStr.chars. induction s as [|c s IH]; [reflexivity|].
  simpl. rewrite IH. reflexivity.
Qed.

Lemma deriv_lower (r : Regex.regex) (c : ascii) :
  case_closed r -> Regex.deriv (PyStr.lower_char c) r = Regex.deriv c r.
Proof.
  induction r as [| |p|r1 IH1 r2 IH2|r1 IH1 r2 IH2|r1 IH1]; simpl; intros Hc;
    try reflexivity.
  - rewrite Hc. reflexivity.
  - destruct Hc as [H1 H2]. rewrite IH1, IH2 by assumption. reflexivity.
  - destruct Hc as [H1 H2]. rewrite IH1, IH2 by assumption. reflexivity.
  - rewrite IH1 by assumption. reflexivity.
Qed.

Lemma deriv_closed (r : Regex.regex) (c : ascii) :
  case_closed r -> case_closed (Regex.deriv c r).
Proof.
  induction r as [| |p|r1 IH1 r2 IH2|r1 IH1 r2 IH2|r1 IH1]; simpl; intros Hc;
    try exact I.
  - destruct (p c); exact I.
  - destruct Hc as [H1 H2]. repeat split; auto.
    destruct (Regex.nullable r1); simpl; auto.
  - destruct Hc as [H1 H2]. split; auto.
  - split; auto.
Qed.

Lemma derivs_lower (l : list ascii) (r : Regex.regex) :
  case_closed r ->
  Regex.derivs (List.map PyStr.lower_char l) r = Regex.derivs l r.
Proof.
  revert r. induction l as [|c l IH]; intros r Hc; [reflexivity|].
  simpl. rewrite deriv_lower by assumption. apply IH, deriv_closed, Hc.
Qed.

Lemma fullmatch_lower (r : Regex.regex) (s : string) :
  case_closed r -> Regex.fullmatch r (PyStr.lower s) = Regex.fullmatch r s.
Proof.
  intros Hc. unfold Regex.fullmatch. rewrite chars_lower, derivs_lower by assumption.
  reflexivity.
Qed.

Lemma lower_char_newline (c : ascii) :
  Ascii.eqb (PyStr.lower_char c) Regex.newline = Ascii.eqb c Regex.newline.
Proof. by_cases_on_char c. Qed.

Lemma strip_newline_lower (s : string) :
  Regex.strip_newline (PyStr.lower s) = option_map PyStr.lower (Regex.strip_newline s).
Proof.
  induction s as [|c s IH]; [reflexivity|].
  destruct s as [|d s'].
  - simpl. rewrite lower_char_newline. destruct (Ascii.eqb c Regex.newline); reflexivity.
  - change (PyStr.lower (String c (String d s')))
      with (String (PyStr.lower_char c) (PyStr.lower (String d s'))).
    change (Regex.strip_newline (String c (String d s')))
      with (option_map (String c) (Regex.strip_newline (String d s'))).
    change (PyStr.lower (String d s'))
      with (String (PyStr.lower_char d) (PyStr.lower s')) at 1.
    change (Regex.strip_newline
              (String (PyStr.lower_char c) (String (PyStr.lower_char d) (PyStr.lower s'))))
      with (option_map (String (PyStr.lower_char c))
              (Regex.strip_newline (String (PyStr.lower_char d) (PyStr.lower s')))).
    change (String (PyStr.lower_char d) (PyStr.lower s'))
      with (PyStr.lower (String d s')).
    rewrite IH. destruct (Regex.strip_newline (String d s')); reflexivity.
Qed.

Lemma match_anchored_lower (r : Regex.regex) (s : string) :
  case_closed r -> Regex.match_anchored r (PyStr.lower s) = Regex.match_anchored r s.
Proof.
  intros Hc. unfold Regex.match_anchored.
  rewrite fullmatch_lower, strip_newline_lower by assumption.
  destruct (Regex.strip_newline s) as [s'|]; simpl; [|reflexivity].
  rewrite fullmatch_lower by assumption. reflexivity.
Qed.

Lemma email_pattern_closed : case_closed Validators.email_pattern.
Proof.
  unfold Validators.email_pattern, Regex.AtLeast, Regex.Plus, Regex.Opt, Regex.Rep,
    Regex.Chr, Validators.alnum, Validators.alpha, Validators.local_char,
    Validators.label_char.
  simpl. repeat split; intros c; by_cases_on_char c.
Qed.

(** [validate_email] does not depend on the case of the letters. *)
Lemma validate_email_lower (e : string) :
  Validators.validate_email (Some (PyStr.lower e)) = Validators.validate_email (Some e).
Proof.
  destruct e as [|c e]; [reflexivity|].
  change (PyStr.lower (String c e)) with (String (PyStr.lower_char c) (PyStr.lower e)).
  unfold Validators.validate_email.
  change (String (PyStr.lower_char c) (PyStr.lower e)) with (PyStr.lower (String c e)).
  apply match_anchored_lower, email_pattern_closed.
Qed.

(** ** Creating a user: what a successful call commits *)

Lemma get_user_by_email_frame `{Py.Env} (e : string) (now : Z) (w : UserService.world) :
  (UserService.get_user_by_email e now w).2 = w.
Proof.
  unfold UserService.get_user_by_email, UserService.raise.
  destruct (Validators.validate_email (Some e)); reflexivity.
Qed.

Lemma store_profile_picture_frame `{Py.Env} (ud : Validators.payload) (t : string)
  (w : UserService.world) :
  (UserService.store_profile_picture ud t w).2 = w.
Proof.
  unfold UserService.store_profile_picture, UserService.ret, UserService.raise.
  destruct (ud !! "profile_picture") as [[[|c s]|]|]; try reflexivity.
  destruct (UserService.is_url _); [reflexivity|].
  destruct (Py.upload_file _ _ _); reflexivity.
Qed.

Lemma ensure_firebase_uid_users `{Py.Env} (ud : Validators.payload) (b : bool)
  (e : string) (w : UserService.world) :
  UserService.users (UserService.ensure_firebase_uid ud b e w).2 = UserService.users w.
Proof.
  unfold UserService.ensure_firebase_uid, UserService.ret, UserService.raise,
    UserService.bind, UserService.getitem.
  destruct (Validators.truthy _); [reflexivity|].
  destruct b; [|reflexivity].
  destruct (ud !! "password") as [pw|]; [|reflexivity].
  destruct (delete "password" ud !! "first_name") as [fn|]; [|reflexivity].
  destruct (delete "password" ud !! "last_name") as [ln|]; [|reflexivity].
  destruct pw as [pw|]; [|reflexivity].
  cbv beta iota zeta delta [UserService.ret UserService.bind UserService.raise].
  match goal with
  | |- context [Firebase.create_firebase_user ?st ?a ?p ?n] =>
      destruct (Firebase.create_firebase_user st a p n) as [[uid|ex] st']
  end; reflexivity.
Qed.

(** The document [create] stores for a user whose email is a string and
    whose dates are instants. *)
Lemma repo_create_stores `{Py.Env} (c c' : UserRepo.collection)
  (user created : UserModel.User) (s : string) (t1 t2 : Z) :
  UserRepo.create c user = Py.Ok (created, c') ->
  UserModel.email user = Py.PStr s ->
  UserModel.created_at user = Py.PTime t1 ->
  UserModel.updated_at user = Py.PTime t2 ->
  exists uid doc,
    c' = <[uid := doc]> c
    /\ doc !! "email" = Some (Py.PStr (PyStr.lower s))
    /\ doc !! "created_at" = Some (Py.PStr (Py.isoformat t1))
    /\ doc !! "updated_at" = Some (Py.PStr (Py.isoformat t2)).
Proof.
  unfold UserRepo.create. intros Hrun He Hc Hu. rewrite He in Hrun.
  set (user' := if Py.truthy (Py.PStr s)
                then UserModel.set_email user (Py.PStr (PyStr.lower s)) else user).
  assert (Hlow : (if Py.truthy (Py.PStr s)
                  then Py.Ok (UserModel.set_email user (Py.PStr (PyStr.lower s)))
                  else Py.Ok user) = Py.Ok user')
    by (unfold user'; destruct (Py.truthy _); reflexivity).
  rewrite Hlow in Hrun. clear Hlow.
  assert (He' : UserModel.email user' = Py.PStr (PyStr.lower s)).
  { unfold user'. destruct s; simpl; [exact He|reflexivity]. }
  assert (Hc' : UserModel.created_at user' = Py.PTime t1)
    by (unfold user'; destruct (Py.truthy _); simpl; assumption).
  assert (Hu' : UserModel.updated_at user' = Py.PTime t2)
    by (unfold user'; destruct (Py.truthy _); simpl; assumption).
  clearbody user'.
  destruct (negb (Py.truthy (UserModel.firebase_uid user'))); [discriminate|].
  destruct (UserModel.firebase_uid user') as [| | |uid| |]; try discriminate.
  apply (f_equal (fun r => match r with Py.Ok x => x.2 | Py.Raise _ => c' end)) in Hrun.
  cbn [snd] in Hrun.
  exists uid, (delete "id" (UserModel.to_dict user')).
  split; [symmetry; exact Hrun|].
  repeat split; rewrite lookup_delete_ne by discriminate;
    to_dict_lookup; rewrite ?He', ?Hc', ?Hu'; reflexivity.
Qed.

Lemma run_ok {A S : Type} (a a' : A) (s s' : S) :
  (Py.Ok a, s) = (Py.Ok a', s') -> a = a' /\ s = s'.
Proof.
  intros E. split.
  - apply (f_equal (fun p => match p.1 with Py.Ok x => x | Py.Raise _ => a end)) in E.
    exact E.
  - apply (f_equal snd) in E. exact E.
Qed.

Lemma get_by_email_None `{Py.Env} (c : UserRepo.collection) (e : string) (now : Z) :
  UserRepo.get_by_email c e now = Py.Ok None ->
  UserRepo.where_eq "email" (PyStr.lower e) c = [].
Proof.
  unfold UserRepo.get_by_email.
  destruct (UserRepo.where_eq "email" (PyStr.lower e) c) as [|[i doc] t]; [reflexivity|].
  unfold UserRepo.found. destruct (UserModel.from_dict doc (Some i) now); discriminate.
Qed.

Lemma User_new_fields (kw : Py.dict) (now_c now_u : Z) (u : UserModel.User)
  (e : Py.pyval) (tc tu : Z) :
  UserModel.User_new kw now_c now_u = Py.Ok u ->
  kw !! "email" = Some e ->
  kw !! "created_at" = Some (Py.PTime tc) ->
  kw !! "updated_at" = Some (Py.PTime tu) ->
  UserModel.email u = e
  /\ UserModel.created_at u = Py.PTime tc
  /\ UserModel.updated_at u = Py.PTime tu.
Proof.
  unfold UserModel.User_new, UserModel.kwarg. intros Hnew He Hc Hu.
  rewrite He, Hc, Hu in Hnew.
  destruct (kw !! "first_name"); [|discriminate].
  destruct (kw !! "last_name"); [|discriminate].
  apply (f_equal (fun r => match r with Py.Ok x => x | Py.Raise _ => u end)) in Hnew.
  subst u. repeat split.
Qed.

(** A branch that raised cannot have returned a user. *)
Ltac raised H :=
  cbv beta iota zeta in H; apply (f_equal fst) in H; cbn [fst] in H; discriminate H.

(** A passed check: the branch that raises is excluded. *)
Ltac passed H :=
  match type of H with
  | (if ?c then _ else _) _ = _ =>
      let E := fresh "Hcheck" in destruct c eqn:E; [|raised H]
  end.

Lemma create_user_commits `{Py.Env} (d : Validators.payload) (b : bool) (t : string)
  (now : Z) (w w1 : UserService.world) (u : UserModel.User) :
  UserService.create_user d b t now w = (Py.Ok u, w1) ->
  exists e uid doc,
    d !! "email" = Some (Some e)
    /\ Validators.validate_email (Some e) = true
    /\ UserRepo.where_eq "email" (PyStr.lower e) (UserService.users w) = []
    /\ UserService.users w1 = <[uid := doc]> (UserService.users w)
    /\ doc !! "email" = Some (Py.PStr (PyStr.lower e))
    /\ doc !! "created_at" = Some (Py.PStr (Py.isoformat now))
    /\ doc !! "updated_at" = Some (Py.PStr (Py.isoformat now)).
Proof.
  unfold UserService.create_user. intros Hrun.
  unfold UserService.raise, UserService.ret in Hrun.
  passed Hrun.
  unfold UserService.bind at 1 in Hrun. unfold UserService.getitem at 1 in Hrun.
  unfold UserService.raise, UserService.ret in Hrun.
  destruct (d !! "email") as [email|] eqn:Hemail; cbv beta iota zeta in Hrun;
    [|raised Hrun].
  destruct (Validators.validate_email email) eqn:Hvalid; [|raised Hrun].
  destruct email as [e|]; [|discriminate Hvalid].
  cbn [default from_option] in Hrun. unfold id in Hrun.
  passed Hrun.
  unfold UserService.bind at 1 in Hrun.
  pose proof (get_user_by_email_frame (PyStr.lower e) now w) as Hframe.
  destruct (UserService.get_user_by_email (PyStr.lower e) now w) as [[existing|ex] w0] eqn:Hget;
    [|raised Hrun].
  cbn [snd] in Hframe. subst w0.
  passed Hrun.
  destruct existing as [existing|]; [discriminate Hcheck1|].
  assert (Hnone : UserRepo.where_eq "email" (PyStr.lower e) (UserService.users w) = []).
  { unfold UserService.get_user_by_email, UserService.raise in Hget.
    destruct (Validators.validate_email (Some (PyStr.lower e))); [|raised Hget].
    apply (f_equal fst) in Hget. cbn [fst] in Hget.
    apply get_by_email_None in Hget. rewrite lower_idem in Hget. exact Hget. }
  unfold UserService.bind at 1 in Hrun. unfold UserService.getitem at 1 in Hrun.
  unfold UserService.raise, UserService.ret in Hrun.
  destruct (_ !! "first_name") as [first_name|]; cbv beta iota zeta in Hrun;
    [|raised Hrun].
  unfold UserService.bind at 1 in Hrun. unfold UserService.getitem at 1 in Hrun.
  unfold UserService.raise, UserService.ret in Hrun.
  destruct (_ !! "last_name") as [last_name|]; cbv beta iota zeta in Hrun;
    [|raised Hrun].
  unfold UserService.bind at 1 in Hrun.
  match type of Hrun with
  | context [UserService.store_profile_picture ?ud t w] =>
      pose proof (store_profile_picture_frame ud t w) as Hframe;
      destruct (UserService.store_profile_picture ud t w) as [[user_data|ex] w0];
      [|raised Hrun]
  end.
  cbn [snd] in Hframe. subst w0.
  unfold UserService.bind at 1 in Hrun.
  pose proof (ensure_firebase_uid_users user_data b (PyStr.lower e) w) as Husers.
  destruct (UserService.ensure_firebase_uid user_data b (PyStr.lower e) w)
    as [[user_data2|ex] w2]; [|raised Hrun].
  cbn [snd] in Husers.
  unfold UserService.bind at 1, UserService.lift at 1 in Hrun.
  match type of Hrun with
  | context [UserModel.User_new ?kw now now] =>
      destruct (UserModel.User_new kw now now) as [user|ex] eqn:Hnew; [|raised Hrun]
  end.
  apply User_new_fields with (e := Py.PStr (PyStr.lower e)) (tc := now) (tu := now)
    in Hnew as (Hue & Huc & Huu);
    try (cbn [list_to_map foldr fst snd]; through_inserts; reflexivity).
  cbv beta iota zeta in Hrun.
  destruct (UserRepo.create (UserService.users w2) user) as [[created c]|ex] eqn:Hcreate;
    [|raised Hrun].
  apply run_ok in Hrun as [_ Hw1].
  destruct (repo_create_stores _ _ _ _ _ _ _ Hcreate Hue Huc Huu)
    as (uid & doc & Hc & Hdoc_e & Hdoc_c & Hdoc_u).
  exists e, uid, doc. rewrite lower_idem in Hdoc_e.
  repeat split; try assumption.
  rewrite <- Hw1. cbn [UserService.users]. rewrite Hc, Husers. reflexivity.
Qed.

(** ** Looking a user up by email *)

Lemma default_field_lookup (k : string) (v : Py.pyval) (m : Py.dict) :
  is_Some (UserModel.default_field k v m !! k).
Proof.
  unfold UserModel.default_field.
  destruct (m !! k) as [x|] eqn:E.
  - destruct (Py.truthy x); [rewrite E; eauto|rewrite lookup_insert_eq; eauto].
  - rewrite lookup_insert_eq. eauto.
Qed.

Lemma default_field_lookup_ne (k k' : string) (v : Py.pyval) (m : Py.dict) :
  k <> k' -> UserModel.default_field k v m !! k' = m !! k'.
Proof.
  intros Hne. unfold UserModel.default_field.
  destruct (m !! k) as [x|]; [destruct (Py.truthy x)|];
    try reflexivity; apply lookup_insert_ne, Hne.
Qed.

(** [from_dict] returns a user for every document whose required fields
    can be defaulted and whose dates need no [fromtimestamp]. *)
Lemma User_new_total (d : Py.dict) (now : Z) :
  is_Some (d !! "email") -> is_Some (d !! "first_name") -> is_Some (d !! "last_name") ->
  exists u, UserModel.User_new d now now = Py.Ok u.
Proof.
  intros [e He] [f Hf] [l Hl]. unfold UserModel.User_new. rewrite He, Hf, Hl. eauto.
Qed.

Lemma from_dict_string_dates `{Py.Env} (d : Py.dict) (i : option string) (now : Z)
  (s1 s2 : string) :
  d !! "created_at" = Some (Py.PStr s1) ->
  d !! "updated_at" = Some (Py.PStr s2) ->
  exists u, UserModel.from_dict d i now = Py.Ok u.
Proof.
  intros Hc Hu. unfold UserModel.from_dict.
  assert (Hp1 : exists d1, UserModel.parse_date "created_at" d = Py.Ok d1
                           /\ d1 !! "updated_at" = Some (Py.PStr s2)).
  { unfold UserModel.parse_date. rewrite Hc.
    destruct (Py.fromisoformat _); eexists; split; try reflexivity; [|exact Hu].
    rewrite lookup_insert_ne by discriminate. exact Hu. }
  destruct Hp1 as (d1 & -> & Hu1).
  assert (Hp2 : exists d2, UserModel.parse_date "updated_at" d1 = Py.Ok d2).
  { unfold UserModel.parse_date. rewrite Hu1. destruct (Py.fromisoformat _); eauto. }
  destruct Hp2 as (d2 & ->).
  match goal with
  | |- context [UserModel.User_new ?kw now now] =>
      destruct (User_new_total kw now) as [u ->]
  end.
  - rewrite filter_valid_lookup by valid_field.
    rewrite !default_field_lookup_ne by discriminate. apply default_field_lookup.
  - rewrite filter_valid_lookup by valid_field.
    rewrite default_field_lookup_ne by discriminate. apply default_field_lookup.
  - rewrite filter_valid_lookup by valid_field. apply default_field_lookup.
  - destruct i as [[|c s]|]; eauto.
Qed.

(** After a document matching the query is stored in a collection that
    held no match, the query returns that document first. *)
Lemma where_eq_first (field value uid : string) (doc : Py.dict) (c : UserRepo.collection) :
  UserRepo.where_eq field value c = [] ->
  UserRepo.field_is field value doc = true ->
  exists rest, UserRepo.where_eq field value (<[uid := doc]> c) = (uid, doc) :: rest.
Proof.
  intros Hnone Hdoc. unfold UserRepo.where_eq in *.
  destruct (List.filter _ (map_to_list (<[uid := doc]> c))) as [|[k d] rest] eqn:E.
  - exfalso. apply (filter_none _ _ (uid, doc)) in E.
    + simpl in E. congruence.
    + apply in_map_to_list, lookup_insert_eq.
  - exists rest. apply filter_head in E as [Hin Hk]. apply in_map_to_list in Hin.
    destruct (decide (k = uid)) as [->|Hne].
    + rewrite lookup_insert_eq in Hin. congruence.
    + rewrite lookup_insert_ne in Hin by congruence.
      apply (filter_none _ _ (k, d)) in Hnone; [|apply in_map_to_list, Hin].
      simpl in *. congruence.
Qed.

Lemma field_is_email (doc : Py.dict) (e : string) :
  doc !! "email" = Some (Py.PStr e) -> UserRepo.field_is "email" e doc = true.
Proof. intros He. unfold UserRepo.field_is. rewrite He. apply String.eqb_refl. Qed.

(** The lookup of the service finds a committed user under every casing of
    its email. *)
Lemma get_user_by_email_finds `{Py.Env} (w : UserService.world) (c : UserRepo.collection)
  (e uid : string) (doc : Py.dict) (now : Z) :
  Validators.validate_email (Some e) = true ->
  UserRepo.where_eq "email" (PyStr.lower e) c = [] ->
  UserService.users w = <[uid := doc]> c ->
  doc !! "email" = Some (Py.PStr (PyStr.lower e)) ->
  doc !! "created_at" = Some (Py.PStr (Py.isoformat now)) ->
  doc !! "updated_at" = Some (Py.PStr (Py.isoformat now)) ->
  forall now2, exists u,
    UserService.get_user_by_email (PyStr.lower e) now2 w = (Py.Ok (Some u), w).
Proof.
  intros Hvalid Hnone Husers He Hc Hu now2.
  unfold UserService.get_user_by_email. rewrite validate_email_lower, Hvalid.
  unfold UserRepo.get_by_email. rewrite lower_idem, Husers.
  destruct (where_eq_first "email" (PyStr.lower e) uid doc c Hnone (field_is_email _ _ He))
    as [rest ->].
  destruct (from_dict_string_dates doc (Some uid) now2 _ _ Hc Hu) as [u ->].
  exists u. reflexivity.
Qed.

(** ** Two users with one email *)

(** C1, amended. After a [create_user] call has committed its document,
    which holds the email in lower case, every later call whose email is
    the same up to letter case fails and leaves the collection and the
    identity provider as they were. The error is the duplicate-email one
    whenever the payload passes the two checks made before the lookup,
    and the error of the failed check otherwise. *)
Theorem duplicate_email_rejected `{Py.Env} (w w1 : UserService.world)
  (d1 d2 : Validators.payload) (b1 b2 : bool) (t1 t2 : string) (now1 now2 : Z)
  (u1 : UserModel.User) (e1 e2 : string) :
  UserService.create_user d1 b1 t1 now1 w = (Py.Ok u1, w1) ->
  d1 !! "email" = Some (Some e1) ->
  d2 !! "email" = Some (Some e2) ->
  PyStr.lower e1 = PyStr.lower e2 ->
  (exists uid doc,
      UserService.users w1 !! uid = Some doc
      /\ doc !! "email" = Some (Py.PStr (PyStr.lower e1)))
  /\ UserService.create_user d2 b2 t2 now2 w1
     = (Py.Raise
          (Py.ValueError
             (match missing d2 b2 with
              | _ :: _ => "Missing required fields: " ++ PyStr.join ", " (missing d2 b2)
              | [] =>
                  if phone_accepted d2
                  then "User with email " ++ PyStr.lower e2 ++ " already exists"
                  else "Invalid phone number format"
              end)),
        w1).
Proof.
  intros Hfirst Hd1 Hd2 Hsame.
  destruct (create_user_commits d1 b1 t1 now1 w w1 u1 Hfirst)
    as (e & uid & doc & He & Hvalid & Hnone & Husers & Hdoc_e & Hdoc_c & Hdoc_u).
  assert (e = e1) as -> by congruence.
  split.
  - exists uid, doc. split; [|exact Hdoc_e]. rewrite Husers. apply lookup_insert_eq.
  - unfold UserService.create_user, UserService.raise, UserService.ret.
    fold (required_fields b2). unfold Validators.validate_required_fields at 1.
    cbn [Validators.valid]. unfold missing.
    unfold Validators.validate_required_fields at 2 3. cbn [Validators.missing_fields].
    unfold Validators.validate_required_fields. cbn [Validators.missing_fields].
    destruct (List.filter (Validators.is_missing d2) (required_fields b2)) as [|m ms];
      [|reflexivity].
    unfold UserService.bind at 1. unfold UserService.getitem at 1.
    rewrite Hd2. unfold UserService.ret. cbv beta iota zeta.
    assert (Hv2 : Validators.validate_email (Some e2) = true).
    { rewrite <- validate_email_lower, <- Hsame, validate_email_lower. exact Hvalid. }
    rewrite Hv2. cbn [default from_option]. unfold id.
    unfold phone_accepted, UserService.get.
    rewrite lookup_insert_ne by discriminate.
    destruct (negb _); [|reflexivity].
    unfold UserService.bind at 1.
    destruct (get_user_by_email_finds w1 (UserService.users w) e1 uid doc now1
                Hvalid Hnone Husers Hdoc_e Hdoc_c Hdoc_u now2) as [u Hfound].
    rewrite <- Hsame, Hfound. reflexivity.
Qed.

Lemma duplicate_email_rejected_witness :
  (UserService.create_user (signup "a@B.COM") true "t2" 2000
     (UserService.create_user (signup "A@B.com") true "t1" 1000 directory_empty).2).1
  = Py.Raise (Py.ValueError "User with email a@b.com already exists").
Proof.
  destruct (UserService.create_user (signup "A@B.com") true "t1" 1000 directory_empty)
    as [[u1|ex] w1] eqn:Hfirst;
    [|apply (f_equal fst) in Hfirst; vm_compute in Hfirst; discriminate Hfirst].
  destruct (duplicate_email_rejected directory_empty w1 (signup "A@B.com")
              (signup "a@B.COM") true true "t1" "t2" 1000 2000 u1 "A@B.com" "a@B.COM"
              Hfirst) as [_ Hsecond].
  - vm_compute. reflexivity.
  - vm_compute. reflexivity.
  - reflexivity.
  - cbn [snd]. rewrite Hsecond. reflexivity.
Defined.

(** C1 as stated fails: a second call that lacks a required field is
    answered with the missing-field error, not the duplicate-email one. *)
Lemma duplicate_without_first_name :
  Py.is_ok
    (UserService.create_user (signup "A@B.com") true "t1" 1000 directory_empty).1 = true
  /\ (UserService.create_user (<["email" := Some "a@B.COM"]> ∅) true "t2" 2000
        (UserService.create_user (signup "A@B.com") true "t1" 1000 directory_empty).2).1
     = Py.Raise (Py.ValueError "Missing required fields: first_name, password").
Proof. vm_compute. auto. Qed.

(** ** The fields a payload must hold *)

Lemma create_user_reads_last_name `{Py.Env} (d : Validators.payload) (b : bool)
  (t : string) (now : Z) (w w1 : UserService.world) (u : UserModel.User) :
  UserService.create_user d b t now w = (Py.Ok u, w1) -> is_Some (d !! "last_name").
Proof.
  unfold UserService.create_user. intros Hrun.
  unfold UserService.raise, UserService.ret in Hrun.
  passed Hrun.
  unfold UserService.bind at 1 in Hrun. unfold UserService.getitem at 1 in Hrun.
  unfold UserService.raise, UserService.ret in Hrun.
  destruct (d !! "email") as [email|] eqn:Hemail; cbv beta iota zeta in Hrun;
    [|raised Hrun].
  passed Hrun. passed Hrun.
  unfold UserService.bind at 1 in Hrun.
  match type of Hrun with
  | context [UserService.get_user_by_email ?e now w] =>
      destruct (UserService.get_user_by_email e now w) as [[existing|ex] w0];
      [|raised Hrun]
  end.
  passed Hrun.
  unfold UserService.bind at 1 in Hrun. unfold UserService.getitem at 1 in Hrun.
  unfold UserService.raise, UserService.ret in Hrun.
  destruct (_ !! "first_name") as [first_name|]; cbv beta iota zeta in Hrun;
    [|raised Hrun].
  unfold UserService.bind at 1 in Hrun. unfold UserService.getitem at 1 in Hrun.
  unfold UserService.raise, UserService.ret in Hrun.
  rewrite lookup_insert_ne in Hrun by discriminate.
  destruct (d !! "last_name") as [last_name|]; [eauto|raised Hrun].
Qed.

(** C7, as the code has it. A payload without [last_name] never yields a
    user; in particular the payload that holds exactly a well-formed email,
    a first name and a strong password, sent to a directory without
    users, raises [KeyError] for [last_name] and creates nothing. *)
Theorem create_user_needs_last_name :
  (forall (E : Py.Env) (d : Validators.payload) (b : bool) (t : string) (now : Z)
          (w : UserService.world),
      d !! "last_name" = None ->
      Py.is_ok (UserService.create_user d b t now w).1 = false)
  /\ (forall (E : Py.Env) (st : Py.idp) (t : string) (now : Z),
        UserService.create_user
          (<["email" := Some "a@b.com"]>
             (<["first_name" := Some "Jo"]> (<["password" := Some "Str0ng!Pw"]> ∅)))
          true t now {| UserService.users := ∅; UserService.provider := st |}
        = (Py.Raise (Py.KeyError "last_name"),
           {| UserService.users := ∅; UserService.provider := st |})).
Proof.
  split.
  - intros E d b t now w Hnone.
    destruct (UserService.create_user d b t now w) as [[u|ex] w1] eqn:Hrun;
      [|reflexivity].
    apply create_user_reads_last_name in Hrun. rewrite Hnone in Hrun.
    destruct Hrun as [x Hx]. discriminate Hx.
  - intros E st t now. vm_compute. reflexivity.
Qed.

(** * Further properties of the code

    Properties of the endpoints, the service, the repositories and the
    validators, read off the code. *)

(** ** The endpoints that set a password *)

Lemma strength_true (p : string) (m : option string) :
  Strength.validate_password_strength p = (true, m) ->
  Strength.validate_password_strength p = (true, None).
Proof.
  unfold Strength.validate_password_strength.
  repeat match goal with |- context [if ?c then _ else _] => destruct c end;
    intros E; try discriminate E; reflexivity.
Qed.

Lemma reset_password_accepts `{Py.Env} (tok p msg : string) (now : Z)
  (w w' : PasswordService.world) :
  PasswordService.reset_password tok p now w = ((true, msg), w') ->
  exists r,
    ResetRepo.get_by_token (PasswordService.resets w) tok = Some r
    /\ ResetRepo.used r = false
    /\ (now <= ResetRepo.expires_at r)%Z
    /\ Py.idp_update_password (PasswordService.provider w) (ResetRepo.user_id r) p
       = Some (PasswordService.provider w').
Proof.
  unfold PasswordService.reset_password.
  destruct (_ <? _)%nat; [intros E; apply (f_equal (fun x => x.1.1)) in E; discriminate E|].
  destruct (ResetRepo.get_by_token _ tok) as [r|];
    [|intros E; apply (f_equal (fun x => x.1.1)) in E; discriminate E].
  unfold ResetRepo.is_expired.
  destruct (Z.ltb_spec (ResetRepo.expires_at r) now);
    [intros E; apply (f_equal (fun x => x.1.1)) in E; discriminate E|].
  destruct (ResetRepo.used r) eqn:Hused;
    [intros E; apply (f_equal (fun x => x.1.1)) in E; discriminate E|].
  destruct (Py.idp_update_password _ _ p) as [st|] eqn:Hup;
    [|intros E; apply (f_equal (fun x => x.1.1)) in E; discriminate E].
  intros E. apply (f_equal snd) in E. cbn [snd] in E. subst w'.
  exists r. repeat split; try assumption.
Qed.

(** The handler [reset_password] on a body that is a JSON object. *)
Lemma reset_handler_on_object `{Py.Env} (req : PasswordApi.request) (now : Z)
  (w : PasswordService.world) :
  (PasswordApi.status (PasswordApi.reset_password req now w).1 = 200%nat
   \/ PasswordApi.status (PasswordApi.reset_password req now w).1 = 400%nat)
  /\ (PasswordApi.status (PasswordApi.reset_password req now w).1 = 400%nat ->
      (PasswordApi.reset_password req now w).2 = w)
  /\ (PasswordApi.status (PasswordApi.reset_password req now w).1 = 200%nat ->
      exists tok p r,
        PasswordApi.body req "token" = Some tok
        /\ PasswordApi.body req "new_password" = Some p
        /\ Strength.validate_password_strength p = (true, None)
        /\ ResetRepo.get_by_token (PasswordService.resets w) tok = Some r
        /\ ResetRepo.used r = false
        /\ (now <= ResetRepo.expires_at r)%Z
        /\ Py.idp_update_password (PasswordService.provider w) (ResetRepo.user_id r) p
           = Some (PasswordService.provider (PasswordApi.reset_password req now w).2)).
Proof.
  unfold PasswordApi.reset_password.
  destruct (PasswordApi.body req "token") as [[|c tok]|] eqn:Htok;
    try (cbn; repeat split; [right; reflexivity | discriminate]).
  destruct (PasswordApi.body req "new_password") as [[|c' p]|] eqn:Hp;
    try (cbn; repeat split; [right; reflexivity | discriminate]).
  destruct (Strength.validate_password_strength (String c' p)) as [[|] m] eqn:Hs;
    [|cbn; repeat split; [right; reflexivity | discriminate]].
  apply strength_true in Hs.
  destruct (PasswordService.reset_password (String c tok) (String c' p) now w)
    as [[[|] msg] w'] eqn:Hrun.
  - cbn. repeat split; [left; reflexivity | discriminate |].
    intros _. apply reset_password_accepts in Hrun as (r & ? & ? & ? & ?).
    exists (String c tok), (String c' p), r. repeat split; assumption.
  - cbn. repeat split; [right; reflexivity | | discriminate].
    intros _.
    pose proof (reset_password_failure_frame (String c tok) (String c' p) now w) as Hf.
    rewrite Hrun in Hf. apply Hf. reflexivity.
Qed.

Lemma body_lookup `{Py.Env} (req : PasswordApi.request) (key v : string) :
  PasswordApi.body req key = Some v -> PasswordApi.json req !! key = Some (Some v).
Proof.
  unfold PasswordApi.body. destruct (PasswordApi.json req !! key) as [o|]; [|discriminate].
  intros ->. reflexivity.
Qed.

(** X1. The reset endpoint on a request whose body parsed as JSON. When
    the body is no JSON object (null, a list, a text, a number, a boolean)
    [data.get] raises [AttributeError], which the handler does not catch:
    no answer is given and the stores are as before. When the body is an
    object of strings or nulls the endpoint answers 200 or 400 and nothing
    else; with 400 the stores are as before; with 200 the body held a
    token and a new password, the password passes the strength validator,
    the token belongs to a stored record that was unused and not expired,
    and the identity provider accepted the new password for the record's
    user. *)
Theorem reset_endpoint_sets_only_strong `{Py.Env} (req : PasswordRoutes.request)
  (now : Z) (w : PasswordService.world) :
  (forall k, PasswordRoutes.json req = PasswordRoutes.Other k ->
     PasswordRoutes.reset_password req now w
     = (PasswordRoutes.Uncaught (Py.AttributeError "get"), w))
  /\ (forall data, PasswordRoutes.json req = PasswordRoutes.Fields data ->
        exists r,
          (PasswordRoutes.reset_password req now w).1 = PasswordRoutes.Answered r
          /\ (PasswordApi.status r = 200%nat \/ PasswordApi.status r = 400%nat)
          /\ (PasswordApi.status r = 400%nat ->
              (PasswordRoutes.reset_password req now w).2 = w)
          /\ (PasswordApi.status r = 200%nat ->
              exists tok p rec,
                data !! "token" = Some (Some tok)
                /\ data !! "new_password" = Some (Some p)
                /\ Strength.validate_password_strength p = (true, None)
                /\ ResetRepo.get_by_token (PasswordService.resets w) tok = Some rec
                /\ ResetRepo.used rec = false
                /\ (now <= ResetRepo.expires_at rec)%Z
                /\ Py.idp_update_password (PasswordService.provider w)
                     (ResetRepo.user_id rec) p
                   = Some (PasswordService.provider
                             (PasswordRoutes.reset_password req now w).2))).
Proof.
  split.
  - intros k Hk. unfold PasswordRoutes.reset_password. rewrite Hk. reflexivity.
  - intros data Hdata. unfold PasswordRoutes.reset_password. rewrite Hdata.
    pose proof (reset_handler_on_object (PasswordRoutes.on_fields req data) now w)
      as (Hstatus & Hframe & Hok).
    destruct (PasswordApi.reset_password (PasswordRoutes.on_fields req data) now w)
      as [r w'] eqn:Hrun.
    cbn [fst snd] in *. exists r. split; [reflexivity|]. split; [exact Hstatus|].
    split; [exact Hframe|].
    intros H200. destruct (Hok H200) as (tok & p & rec & Htok & Hp & Hrest).
    exists tok, p, rec. apply body_lookup in Htok. apply body_lookup in Hp.
    split; [exact Htok|]. split; [exact Hp|]. exact Hrest.
Qed.

Lemma reset_endpoint_sets_only_strong_witness :
  PasswordRoutes.reset_password (null_body None) 5 world_up
  = (PasswordRoutes.Uncaught (Py.AttributeError "get"), world_up).
Proof.
  apply (proj1 (reset_endpoint_sets_only_strong (null_body None) 5 world_up)
           PasswordRoutes.JNull).
  reflexivity.
Defined.

Lemma change_password_accepts `{Py.Env} (uid cur p msg : string)
  (w w' : PasswordService.world) :
  PasswordService.change_password uid cur p w = ((true, msg), w') ->
  cur <> p
  /\ PasswordService.resets w' = PasswordService.resets w
  /\ Py.idp_update_password (PasswordService.provider w) uid p
     = Some (PasswordService.provider w').
Proof.
  unfold PasswordService.change_password.
  destruct (_ <? _)%nat; [intros E; apply (f_equal (fun x => x.1.1)) in E; discriminate E|].
  destruct (String.eqb_spec cur p);
    [intros E; apply (f_equal (fun x => x.1.1)) in E; discriminate E|].
  destruct (Py.idp_get_user _ uid);
    try (intros E; apply (f_equal (fun x => x.1.1)) in E; discriminate E).
  destruct (Py.idp_update_password _ uid p) as [st|] eqn:Hup;
    [|intros E; apply (f_equal (fun x => x.1.1)) in E; discriminate E].
  intros E. apply (f_equal snd) in E. cbn [snd] in E. subst w'.
  repeat split; assumption.
Qed.

Lemma change_password_failure_frame `{Py.Env} (uid cur p : string)
  (w : PasswordService.world) :
  (PasswordService.change_password uid cur p w).1.1 = false ->
  (PasswordService.change_password uid cur p w).2 = w.
Proof.
  unfold PasswordService.change_password.
  destruct (_ <? _)%nat; [reflexivity|].
  destruct (String.eqb cur p); [reflexivity|].
  destruct (Py.idp_get_user _ uid); try reflexivity.
  destruct (Py.idp_update_password _ uid p); [discriminate|reflexivity].
Qed.

(** The handler [change_password] on a body that is a JSON object. *)
Lemma change_handler_on_object `{Py.Env} (req : PasswordApi.request)
  (w : PasswordService.world) :
  (PasswordApi.status (PasswordApi.change_password req w).1 = 200%nat
   \/ PasswordApi.status (PasswordApi.change_password req w).1 = 400%nat
   \/ PasswordApi.status (PasswordApi.change_password req w).1 = 401%nat)
  /\ (PasswordApi.status (PasswordApi.change_password req w).1 = 401%nat <->
      PasswordApi.user req = None)
  /\ (PasswordApi.status (PasswordApi.change_password req w).1 <> 200%nat ->
      (PasswordApi.change_password req w).2 = w)
  /\ (PasswordApi.status (PasswordApi.change_password req w).1 = 200%nat ->
      exists uid cur p,
        PasswordApi.user req = Some uid
        /\ PasswordApi.body req "current_password" = Some cur
        /\ PasswordApi.body req "new_password" = Some p
        /\ cur <> p
        /\ Strength.validate_password_strength p = (true, None)
        /\ PasswordService.resets (PasswordApi.change_password req w).2
           = PasswordService.resets w
        /\ Py.idp_update_password (PasswordService.provider w) uid p
           = Some (PasswordService.provider (PasswordApi.change_password req w).2)).
Proof.
  unfold PasswordApi.change_password.
  destruct (PasswordApi.user req) as [uid|] eqn:Hu;
    [|cbn; repeat split; auto; discriminate].
  destruct (PasswordApi.body req "current_password") as [[|c cur]|] eqn:Hc;
    try (cbn; repeat split; auto; discriminate).
  destruct (PasswordApi.body req "new_password") as [[|c' p]|] eqn:Hp;
    try (cbn; repeat split; auto; discriminate).
  destruct (Strength.validate_password_strength (String c' p)) as [[|] m] eqn:Hs;
    [|cbn; repeat split; auto; discriminate].
  apply strength_true in Hs.
  destruct (PasswordService.change_password uid (String c cur) (String c' p) w)
    as [[[|] msg] w'] eqn:Hrun.
  - cbn. repeat split; auto; try discriminate; try congruence.
    intros _. apply change_password_accepts in Hrun as (? & ? & ?).
    exists uid, (String c cur), (String c' p). repeat split; assumption.
  - cbn. repeat split; auto; try discriminate.
    intros _.
    pose proof (change_password_failure_frame uid (String c cur) (String c' p) w) as Hf.
    rewrite Hrun in Hf. apply Hf. reflexivity.
Qed.

(** X2. The change endpoint on a request whose body parsed as JSON, and
    where a body that is an object holds strings or nulls. It answers 200,
    400 or 401, and 401 exactly when the request carries no authenticated
    user or the body is no JSON object: the [AttributeError] of [data.get]
    is answered like a missing user. Any answer other than 200 leaves the
    stores as before. With 200 the body held a current and a new password
    that differ, the new one passes the strength validator, the reset
    records are untouched and the identity provider accepted the new
    password for the authenticated user. *)
Theorem change_endpoint_sets_only_strong `{Py.Env} (req : PasswordRoutes.request)
  (w : PasswordService.world) :
  (PasswordApi.status (PasswordRoutes.change_password req w).1 = 200%nat
   \/ PasswordApi.status (PasswordRoutes.change_password req w).1 = 400%nat
   \/ PasswordApi.status (PasswordRoutes.change_password req w).1 = 401%nat)
  /\ (PasswordApi.status (PasswordRoutes.change_password req w).1 = 401%nat <->
      PasswordRoutes.user req = None
      \/ exists k, PasswordRoutes.json req = PasswordRoutes.Other k)
  /\ (PasswordApi.status (PasswordRoutes.change_password req w).1 <> 200%nat ->
      (PasswordRoutes.change_password req w).2 = w)
  /\ (PasswordApi.status (PasswordRoutes.change_password req w).1 = 200%nat ->
      exists uid data cur p,
        PasswordRoutes.user req = Some uid
        /\ PasswordRoutes.json req = PasswordRoutes.Fields data
        /\ data !! "current_password" = Some (Some cur)
        /\ data !! "new_password" = Some (Some p)
        /\ cur <> p
        /\ Strength.validate_password_strength p = (true, None)
        /\ PasswordService.resets (PasswordRoutes.change_password req w).2
           = PasswordService.resets w
        /\ Py.idp_update_password (PasswordService.provider w) uid p
           = Some (PasswordService.provider (PasswordRoutes.change_password req w).2)).
Proof.
  unfold PasswordRoutes.change_password.
  destruct (PasswordRoutes.user req) as [uid|] eqn:Hu.
  2:{ cbn. split; [auto|]. split; [split; auto|]. split; [reflexivity|discriminate]. }
  destruct (PasswordRoutes.json req) as [data|k] eqn:Hj.
  2:{ cbn. split; [auto|]. split; [split; eauto|]. split; [reflexivity|discriminate]. }
  pose proof (change_handler_on_object (PasswordRoutes.on_fields req data) w)
    as (Hstatus & H401 & Hframe & Hok).
  cbn [PasswordRoutes.on_fields PasswordApi.user] in H401.
  split; [exact Hstatus|]. split; [|split; [exact Hframe|]].
  - split.
    + intros E. apply H401 in E. rewrite Hu in E. discriminate E.
    + intros [E|[k E]]; discriminate E.
  - intros H200. destruct (Hok H200) as (uid' & cur & p & Huid & Hcur & Hp & Hrest).
    cbn [PasswordRoutes.on_fields PasswordApi.user] in Huid. rewrite Hu in Huid.
    injection Huid as <-.
    exists uid, data, cur, p. apply body_lookup in Hcur. apply body_lookup in Hp.
    split; [reflexivity|]. split; [reflexivity|]. split; [exact Hcur|].
    split; [exact Hp|]. exact Hrest.
Qed.

Lemma change_endpoint_sets_only_strong_witness :
  PasswordApi.status
    (PasswordRoutes.change_password (null_body (Some "uid:x@y.com")) world_up).1
  = 401%nat.
Proof.
  destruct (change_endpoint_sets_only_strong (null_body (Some "uid:x@y.com")) world_up)
    as (_ & H401 & _).
  apply H401. right. exists PasswordRoutes.JNull. reflexivity.
Defined.

(** ** The patterns and a trailing newline *)

Lemma strip_newline_app (s : string) :
  Regex.strip_newline (s ++ String Regex.newline "") = Some s.
Proof.
  induction s as [|c s IH]; [reflexivity|].
  change (String c s ++ String Regex.newline "")
    with (String c (s ++ String Regex.newline "")).
  destruct (s ++ String Regex.newline "") as [|d t] eqn:E.
  - destruct s; discriminate E.
  - change (Regex.strip_newline (String c (String d t)))
      with (option_map (String c) (Regex.strip_newline (String d t))).
    rewrite IH. reflexivity.
Qed.

Lemma match_anchored_newline (r : Regex.regex) (s : string) :
  Regex.strip_newline s = None ->
  Regex.match_anchored r s = true ->
  Regex.match_anchored r (s ++ String Regex.newline "") = true.
Proof.
  unfold Regex.match_anchored. intros Hs. rewrite Hs, strip_newline_app.
  rewrite orb_false_r. intros ->. apply orb_true_r.
Qed.

(** X3. The validators use [re.match] with a pattern that ends in [$],
    which also matches before a final newline: an email or a phone number
    that is accepted and does not end in a newline is still accepted with
    one newline added at its end. *)
Theorem trailing_newline_accepted (s : string) :
  Regex.strip_newline s = None ->
  (Validators.validate_email (Some s) = true ->
   Validators.validate_email (Some (s ++ String Regex.newline "")) = true)
  /\ (Validators.validate_phone_number (Some s) = true ->
      Validators.validate_phone_number (Some (s ++ String Regex.newline "")) = true).
Proof.
  intros Hs. unfold Validators.validate_email, Validators.validate_phone_number.
  destruct s as [|c s]; [split; discriminate|].
  change (String c s ++ String Regex.newline "")
    with (String c (s ++ String Regex.newline "")).
  split; intros Hm;
    apply (match_anchored_newline _ (String c s) Hs Hm).
Qed.

Lemma trailing_newline_accepted_witness :
  Validators.validate_email (Some ("a@b.cc" ++ String Regex.newline "")) = true
  /\ Validators.validate_phone_number
       (Some ("123-456-7890" ++ String Regex.newline "")) = true.
Proof.
  destruct (trailing_newline_accepted "a@b.cc" eq_refl) as [He _].
  destruct (trailing_newline_accepted "123-456-7890" eq_refl) as [_ Hp].
  split; [apply He | apply Hp]; vm_compute; reflexivity.
Defined.

(** ** Creating a user: failures, the document and the identity *)

(** A branch that stopped: the state it returns. *)
Ltac stopped H :=
  cbv beta iota zeta in H; apply (f_equal snd) in H; cbn [snd] in H;
  rewrite <- H; try reflexivity; try assumption.

Ltac check_or_stop H :=
  match type of H with
  | (if ?c then _ else _) _ = _ => destruct c; [|stopped H]
  end.

Lemma create_user_raise_users `{Py.Env} (d : Validators.payload) (b : bool)
  (t : string) (now : Z) (w w1 : UserService.world) (ex : Py.exn) :
  UserService.create_user d b t now w = (Py.Raise ex, w1) ->
  UserService.users w1 = UserService.users w.
Proof.
  unfold UserService.create_user. intros Hrun.
  unfold UserService.raise, UserService.ret in Hrun.
  check_or_stop Hrun.
  unfold UserService.bind at 1 in Hrun. unfold UserService.getitem at 1 in Hrun.
  unfold UserService.raise, UserService.ret in Hrun.
  destruct (d !! "email") as [email|]; cbv beta iota zeta in Hrun; [|stopped Hrun].
  check_or_stop Hrun. check_or_stop Hrun.
  unfold UserService.bind at 1 in Hrun.
  pose proof (get_user_by_email_frame (PyStr.lower (default "" email)) now w) as Hframe.
  destruct (UserService.get_user_by_email _ now w) as [[existing|ex0] w0];
    cbn [snd] in Hframe; subst w0; [|stopped Hrun].
  check_or_stop Hrun.
  unfold UserService.bind at 1 in Hrun. unfold UserService.getitem at 1 in Hrun.
  unfold UserService.raise, UserService.ret in Hrun.
  destruct (_ !! "first_name") as [first_name|]; cbv beta iota zeta in Hrun;
    [|stopped Hrun].
  unfold UserService.bind at 1 in Hrun. unfold UserService.getitem at 1 in Hrun.
  unfold UserService.raise, UserService.ret in Hrun.
  destruct (_ !! "last_name") as [last_name|]; cbv beta iota zeta in Hrun;
    [|stopped Hrun].
  unfold UserService.bind at 1 in Hrun.
  match type of Hrun with
  | context [UserService.store_profile_picture ?ud t w] =>
      pose proof (store_profile_picture_frame ud t w) as Hframe;
      destruct (UserService.store_profile_picture ud t w) as [[user_data|ex0] w0];
      cbn [snd] in Hframe; subst w0; [|stopped Hrun]
  end.
  unfold UserService.bind at 1 in Hrun.
  match type of Hrun with
  | context [UserService.ensure_firebase_uid ?ud b ?e w] =>
      pose proof (ensure_firebase_uid_users ud b e w) as Husers;
      destruct (UserService.ensure_firebase_uid ud b e w) as [[user_data2|ex0] w2];
      cbn [snd] in Husers; [|stopped Hrun]
  end.
  unfold UserService.bind at 1, UserService.lift at 1 in Hrun.
  match type of Hrun with
  | context [UserModel.User_new ?kw now now] =>
      destruct (UserModel.User_new kw now now) as [user|ex0]; [|stopped Hrun]
  end.
  cbv beta iota zeta in Hrun.
  destruct (UserRepo.create (UserService.users w2) user) as [[created c]|ex0];
    [raised Hrun|stopped Hrun].
Qed.

(** X4. A call of [create_user] that raises writes no user document: the
    user collection is the one before the call. *)
Theorem create_user_failure_stores_nothing `{Py.Env} (d : Validators.payload) (b : bool)
  (t : string) (now : Z) (w : UserService.world) :
  Py.is_ok (UserService.create_user d b t now w).1 = false ->
  UserService.users (UserService.create_user d b t now w).2 = UserService.users w.
Proof.
  destruct (UserService.create_user d b t now w) as [[u|ex] w1] eqn:Hrun;
    [discriminate|].
  intros _. exact (create_user_raise_users _ _ _ _ _ _ _ Hrun).
Qed.

Lemma create_user_failure_stores_nothing_witness :
  UserService.users
    (UserService.create_user (signup "a@B.COM") true "t2" 2000
       (UserService.create_user (signup "A@B.com") true "t1" 1000 directory_empty).2).2
  = UserService.users
      (UserService.create_user (signup "A@B.com") true "t1" 1000 directory_empty).2.
Proof.
  apply create_user_failure_stores_nothing. vm_compute. reflexivity.
Defined.

Lemma set_email_same (u : UserModel.User) :
  UserModel.set_email u (UserModel.email u) = u.
Proof. destruct u. reflexivity. Qed.

(** What [create] of the repository returns and stores for a user whose
    email is a string. *)
Lemma repo_create_inversion `{Py.Env} (c c' : UserRepo.collection)
  (user created : UserModel.User) (s : string) :
  UserRepo.create c user = Py.Ok (created, c') ->
  UserModel.email user = Py.PStr s ->
  exists uid,
    UserModel.firebase_uid user = Py.PStr uid
    /\ uid <> ""
    /\ created = UserModel.set_id (UserModel.set_email user (Py.PStr (PyStr.lower s)))
                   (Py.PStr uid)
    /\ c' = <[uid := delete "id"
                       (UserModel.to_dict
                          (UserModel.set_email user (Py.PStr (PyStr.lower s))))]> c.
Proof.
  unfold UserRepo.create. intros Hrun He. rewrite He in Hrun.
  assert (Hl : (if Py.truthy (Py.PStr s)
                then Py.Ok (UserModel.set_email user (Py.PStr (PyStr.lower s)))
                else Py.Ok user)
               = Py.Ok (UserModel.set_email user (Py.PStr (PyStr.lower s)))).
  { destruct s; [|reflexivity]. cbn [Py.truthy PyStr.lower].
    rewrite <- He, set_email_same. reflexivity. }
  rewrite Hl in Hrun. clear Hl.
  set (user' := UserModel.set_email user (Py.PStr (PyStr.lower s))) in *.
  assert (Hf : UserModel.firebase_uid user' = UserModel.firebase_uid user) by reflexivity.
  clearbody user'.
  destruct (Py.truthy (UserModel.firebase_uid user')) eqn:Ht; [|discriminate Hrun].
  cbn [negb] in Hrun.
  destruct (UserModel.firebase_uid user') as [| | |uid| |] eqn:Hf'; try discriminate Hrun.
  exists uid.
  assert (Hc : created = UserModel.set_id user' (Py.PStr uid)).
  { apply (f_equal (fun r => match r with Py.Ok x => x.1 | Py.Raise _ => created end))
      in Hrun. symmetry. exact Hrun. }
  assert (Hc' : c' = <[uid := delete "id" (UserModel.to_dict user')]> c).
  { apply (f_equal (fun r => match r with Py.Ok x => x.2 | Py.Raise _ => c' end))
      in Hrun. symmetry. exact Hrun. }
  repeat split; try assumption.
  - congruence.
  - intros ->. discriminate Ht.
Qed.

(** The steps of a successful [create_user]. *)
Lemma create_user_inversion `{Py.Env} (d : Validators.payload) (b : bool) (t : string)
  (now : Z) (w w1 : UserService.world) (u : UserModel.User) :
  UserService.create_user d b t now w = (Py.Ok u, w1) ->
  exists e first_name last_name user_data user_data2 w2 user,
    d !! "email" = Some (Some e)
    /\ Validators.validate_email (Some e) = true
    /\ UserRepo.where_eq "email" (PyStr.lower e) (UserService.users w) = []
    /\ UserService.store_profile_picture
         (<["last_name" := UserService.capitalise (UserService.sanitize_input last_name)]>
            (<["first_name" := UserService.capitalise (UserService.sanitize_input first_name)]>
               (<["email" := Some (PyStr.lower e)]> d))) t w = (Py.Ok user_data, w)
    /\ UserService.ensure_firebase_uid user_data b (PyStr.lower e) w
       = (Py.Ok user_data2, w2)
    /\ UserModel.email user = Py.PStr (PyStr.lower e)
    /\ UserModel.created_at user = Py.PTime now
    /\ UserModel.updated_at user = Py.PTime now
    /\ UserModel.firebase_uid user = UserService.get_value user_data2 "firebase_uid" Py.PNone
    /\ UserRepo.create (UserService.users w) user = Py.Ok (u, UserService.users w1)
    /\ UserService.provider w1 = UserService.provider w2.
Proof.
  unfold UserService.create_user. intros Hrun.
  unfold UserService.raise, UserService.ret in Hrun.
  passed Hrun.
  unfold UserService.bind at 1 in Hrun. unfold UserService.getitem at 1 in Hrun.
  unfold UserService.raise, UserService.ret in Hrun.
  destruct (d !! "email") as [email|] eqn:Hemail; cbv beta iota zeta in Hrun;
    [|raised Hrun].
  destruct (Validators.validate_email email) eqn:Hvalid; [|raised Hrun].
  destruct email as [e|]; [|discriminate Hvalid].
  cbn [default from_option] in Hrun. unfold id in Hrun.
  passed Hrun.
  unfold UserService.bind at 1 in Hrun.
  pose proof (get_user_by_email_frame (PyStr.lower e) now w) as Hframe.
  destruct (UserService.get_user_by_email (PyStr.lower e) now w) as [[existing|ex] w0] eqn:Hget;
    [|raised Hrun].
  cbn [snd] in Hframe. subst w0.
  passed Hrun.
  destruct existing as [existing|]; [discriminate Hcheck1|].
  assert (Hnone : UserRepo.where_eq "email" (PyStr.lower e) (UserService.users w) = []).
  { unfold UserService.get_user_by_email, UserService.raise in Hget.
    destruct (Validators.validate_email (Some (PyStr.lower e))); [|raised Hget].
    apply (f_equal fst) in Hget. cbn [fst] in Hget.
    apply get_by_email_None in Hget. rewrite lower_idem in Hget. exact Hget. }
  unfold UserService.bind at 1 in Hrun. unfold UserService.getitem at 1 in Hrun.
  unfold UserService.raise, UserService.ret in Hrun.
  destruct (_ !! "first_name") as [first_name|]; cbv beta iota zeta in Hrun;
    [|raised Hrun].
  unfold UserService.bind at 1 in Hrun. unfold UserService.getitem at 1 in Hrun.
  unfold UserService.raise, UserService.ret in Hrun.
  destruct (_ !! "last_name") as [last_name|]; cbv beta iota zeta in Hrun;
    [|raised Hrun].
  unfold UserService.bind at 1 in Hrun.
  match type of Hrun with
  | context [UserService.store_profile_picture ?ud t w] =>
      pose proof (store_profile_picture_frame ud t w) as Hframe;
      destruct (UserService.store_profile_picture ud t w) as [[user_data|ex] w0] eqn:Hpic;
      [|raised Hrun]
  end.
  cbn [snd] in Hframe. subst w0.
  unfold UserService.bind at 1 in Hrun.
  pose proof (ensure_firebase_uid_users user_data b (PyStr.lower e) w) as Husers.
  destruct (UserService.ensure_firebase_uid user_data b (PyStr.lower e) w)
    as [[user_data2|ex] w2] eqn:Hens; [|raised Hrun].
  cbn [snd] in Husers.
  unfold UserService.bind at 1, UserService.lift at 1 in Hrun.
  match type of Hrun with
  | context [UserModel.User_new ?kw now now] =>
      destruct (UserModel.User_new kw now now) as [user|ex] eqn:Hnew; [|raised Hrun]
  end.
  assert (Hfu : UserModel.firebase_uid user
                = UserService.get_value user_data2 "firebase_uid" Py.PNone).
  { unfold UserModel.User_new, UserModel.kwarg in Hnew.
    cbn [list_to_map foldr fst snd] in Hnew.
    repeat first [ rewrite lookup_insert_eq in Hnew
                 | rewrite lookup_insert_ne in Hnew by discriminate
                 | rewrite lookup_empty in Hnew ].
    apply (f_equal (fun r => match r with Py.Ok x => UserModel.firebase_uid x
                                     | Py.Raise _ => UserModel.firebase_uid user end))
      in Hnew.
    symmetry. exact Hnew. }
  apply User_new_fields with (e := Py.PStr (PyStr.lower e)) (tc := now) (tu := now)
    in Hnew as (Hue & Huc & Huu);
    try (cbn [list_to_map foldr fst snd]; through_inserts; reflexivity).
  cbv beta iota zeta in Hrun.
  destruct (UserRepo.create (UserService.users w2) user) as [[created c]|ex] eqn:Hcreate;
    [|raised Hrun].
  apply run_ok in Hrun as [Hu Hw1]. subst created.
  exists e, first_name, last_name, user_data, user_data2, w2, user.
  rewrite <- Hw1. cbn [UserService.users UserService.provider].
  rewrite Husers in Hcreate. repeat split; try assumption.
Qed.

(** The document a successful [create_user] stores, and the user it
    returns. *)
Lemma create_user_stored `{Py.Env} (d : Validators.payload) (b : bool) (t : string)
  (now : Z) (w w1 : UserService.world) (u : UserModel.User) :
  UserService.create_user d b t now w = (Py.Ok u, w1) ->
  exists e uid doc,
    d !! "email" = Some (Some e)
    /\ Validators.validate_email (Some e) = true
    /\ UserRepo.where_eq "email" (PyStr.lower e) (UserService.users w) = []
    /\ uid <> ""
    /\ UserService.users w1 = <[uid := doc]> (UserService.users w)
    /\ UserModel.id u = Py.PStr uid
    /\ UserModel.firebase_uid u = Py.PStr uid
    /\ UserModel.email u = Py.PStr (PyStr.lower e)
    /\ doc !! "email" = Some (Py.PStr (PyStr.lower e))
    /\ doc !! "firebase_uid" = Some (Py.PStr uid)
    /\ doc !! "created_at" = Some (Py.PStr (Py.isoformat now))
    /\ doc !! "updated_at" = Some (Py.PStr (Py.isoformat now))
    /\ doc !! "password" = None
    /\ doc !! "id" = None.
Proof.
  intros Hrun.
  apply create_user_inversion in Hrun
    as (e & fn & ln & ud & ud2 & w2 & user & He & Hvalid & Hnone & _ & _
        & Hue & Huc & Huu & _ & Hcreate & _).
  apply (repo_create_inversion _ _ _ _ _ Hcreate) in Hue as Hrepo.
  destruct Hrepo as (uid & Hf & Hne & -> & Hc).
  rewrite lower_idem in Hc |- *.
  exists e, uid, (delete "id" (UserModel.to_dict
                                 (UserModel.set_email user (Py.PStr (PyStr.lower e))))).
  repeat split; try assumption.
  all: try (rewrite lookup_delete_ne by discriminate; to_dict_lookup;
            cbn [UserModel.email UserModel.firebase_uid UserModel.created_at
                 UserModel.updated_at UserModel.set_email UserModel.iso_field];
            rewrite ?Hf, ?Huc, ?Huu; reflexivity).
  apply lookup_delete_eq.
Qed.

(** X5. A successful [create_user] stores exactly one document, under a
    non-empty uid that is both the [id] and the [firebase_uid] of the user
    returned; the document holds that uid as [firebase_uid] and holds
    neither a [password] nor an [id] field. *)
Theorem create_user_document `{Py.Env} (d : Validators.payload) (b : bool) (t : string)
  (now : Z) (w w1 : UserService.world) (u : UserModel.User) :
  UserService.create_user d b t now w = (Py.Ok u, w1) ->
  exists uid doc,
    uid <> ""
    /\ UserService.users w1 = <[uid := doc]> (UserService.users w)
    /\ UserModel.id u = Py.PStr uid
    /\ UserModel.firebase_uid u = Py.PStr uid
    /\ doc !! "firebase_uid" = Some (Py.PStr uid)
    /\ doc !! "password" = None
    /\ doc !! "id" = None.
Proof.
  intros Hrun.
  apply create_user_stored in Hrun
    as (e & uid & doc & _ & _ & _ & Hne & Hw & Hid & Hf & _ & _ & Hdf & _ & _ & Hp & Hi).
  exists uid, doc. repeat split; assumption.
Qed.

Lemma create_user_document_witness :
  exists uid doc,
    UserService.users directory_one = <[uid := doc]> ∅
    /\ doc !! "password" = None.
Proof.
  unfold directory_one.
  destruct (UserService.create_user (signup "A@B.com") true "t1" 1000 directory_empty)
    as [[u|ex] w1] eqn:Hrun;
    [|apply (f_equal fst) in Hrun; vm_compute in Hrun; discriminate Hrun].
  apply create_user_document in Hrun
    as (uid & doc & _ & Hw & _ & _ & _ & Hp & _).
  exists uid, doc. split; assumption.
Defined.

Lemma store_profile_picture_other `{Py.Env} (ud ud' : Validators.payload) (t k : string)
  (w w' : UserService.world) :
  UserService.store_profile_picture ud t w = (Py.Ok ud', w') ->
  k <> "profile_picture" -> ud' !! k = ud !! k.
Proof.
  unfold UserService.store_profile_picture, UserService.ret, UserService.raise.
  intros Hrun Hk.
  assert (Hins : forall v, <["profile_picture" := v]> ud !! k = ud !! k)
    by (intros v; apply lookup_insert_ne; congruence).
  destruct (ud !! "profile_picture") as [[[|c s]|]|];
    try (apply run_ok in Hrun as [<- _]; rewrite ?Hins; reflexivity).
  destruct (UserService.is_url _);
    [apply run_ok in Hrun as [<- _]; rewrite ?Hins; reflexivity|].
  destruct (Py.upload_file _ _ _); try raised Hrun.
  apply run_ok in Hrun as [<- _]. apply Hins.
Qed.

Lemma create_firebase_user_ok `{Py.Env} (st st' : Py.idp) (e p uid : string)
  (name : option string) :
  Firebase.create_firebase_user st e p name = (Py.Ok uid, st') ->
  Auth.valid (Auth.validate_password p) = true
  /\ exists name', Py.idp_create_user st (PyStr.lower e) p name' = (Py.Created uid, st').
Proof.
  unfold Firebase.create_firebase_user.
  destruct (Auth.valid (Auth.validate_password p)); cbn [negb];
    [|intros E; apply (f_equal fst) in E; discriminate E].
  match goal with
  | |- context [Py.idp_create_user st ?a p ?n] =>
      destruct (Py.idp_create_user st a p n) as [[uid'| |msg] st''] eqn:Hc
  end; intros E; try (apply (f_equal fst) in E; discriminate E).
  apply run_ok in E as [-> ->]. split; [reflexivity|]. eauto.
Qed.

(** How [firebase_uid] gets its value. *)
Lemma ensure_firebase_uid_ok `{Py.Env} (ud ud2 : Validators.payload) (b : bool)
  (e : string) (w w2 : UserService.world) :
  UserService.ensure_firebase_uid ud b e w = (Py.Ok ud2, w2) ->
  (exists c s, ud !! "firebase_uid" = Some (Some (String c s))
               /\ ud2 = ud /\ w2 = w)
  \/ (b = true
      /\ exists p uid name,
           ud !! "password" = Some (Some p)
           /\ Auth.valid (Auth.validate_password p) = true
           /\ Py.idp_create_user (UserService.provider w) (PyStr.lower e) p name
              = (Py.Created uid, UserService.provider w2)
           /\ ud2 !! "firebase_uid" = Some (Some uid)).
Proof.
  unfold UserService.ensure_firebase_uid, UserService.ret, UserService.raise,
    UserService.bind, UserService.getitem, UserService.get.
  intros Hrun.
  destruct (ud !! "firebase_uid") as [[[|c s]|]|] eqn:Hf; cbn [Validators.truthy] in Hrun;
    try (left; apply run_ok in Hrun as [<- <-]; eauto; fail).
  all: right; destruct b; [|raised Hrun]; split; [reflexivity|].
  all: destruct (ud !! "password") as [pw|] eqn:Hpw; [|raised Hrun].
  all: destruct (delete "password" ud !! "first_name") as [fn|]; [|raised Hrun].
  all: destruct (delete "password" ud !! "last_name") as [ln|]; [|raised Hrun].
  all: destruct pw as [pw|]; [|raised Hrun].
  all: cbv beta iota zeta delta [UserService.ret UserService.bind UserService.raise] in Hrun.
  all: match type of Hrun with
       | context [Firebase.create_firebase_user ?st ?a ?p ?n] =>
           destruct (Firebase.create_firebase_user st a p n) as [[uid|ex] st'] eqn:Hc;
           [|raised Hrun]
       end.
  all: apply run_ok in Hrun as [<- <-].
  all: apply create_firebase_user_ok in Hc as (Hvalid & name' & Hidp).
  all: exists pw, uid, name'; cbn [UserService.provider];
       repeat split; try assumption; apply lookup_insert_eq.
Qed.

(** X6. Where the uid of a created user comes from: either the payload held
    a non-empty [firebase_uid], which is used and the identity provider is
    not touched, or [create_auth_user] was set, the payload held an email
    and a password that passes the validator of user creation, and the
    provider created an account for the lower-cased email whose uid is the
    user's. *)
Theorem create_user_identity `{Py.Env} (d : Validators.payload) (b : bool) (t : string)
  (now : Z) (w w1 : UserService.world) (u : UserModel.User) :
  UserService.create_user d b t now w = (Py.Ok u, w1) ->
  (exists uid, d !! "firebase_uid" = Some (Some uid) /\ uid <> ""
               /\ UserModel.firebase_uid u = Py.PStr uid
               /\ UserService.provider w1 = UserService.provider w)
  \/ (b = true
      /\ exists e p uid name,
           d !! "email" = Some (Some e)
           /\ d !! "password" = Some (Some p)
           /\ Auth.valid (Auth.validate_password p) = true
           /\ Py.idp_create_user (UserService.provider w) (PyStr.lower e) p name
              = (Py.Created uid, UserService.provider w1)
           /\ UserModel.firebase_uid u = Py.PStr uid).
Proof.
  intros Hrun.
  apply create_user_inversion in Hrun
    as (e & fn & ln & ud & ud2 & w2 & user & He & _ & _ & Hpic & Hens
        & Hue & _ & _ & Hfu & Hcreate & Hprov).
  apply (repo_create_inversion _ _ _ _ _ Hcreate) in Hue as (uid & Hf & Hne & -> & _).
  assert (Hkeep : forall k, k <> "profile_picture" -> k <> "last_name" ->
                            k <> "first_name" -> k <> "email" -> ud !! k = d !! k).
  { intros k H1 H2 H3 H4.
    rewrite (store_profile_picture_other _ _ _ k _ _ Hpic H1).
    rewrite !lookup_insert_ne by congruence. reflexivity. }
  pose proof Hf as Hfuser.
  rewrite Hfu in Hf. unfold UserService.get_value in Hf.
  apply ensure_firebase_uid_ok in Hens
    as [(c & s & Hsup & -> & ->) | (-> & p & uid' & name & Hpw & Hvalid & Hidp & Hset)].
  - left. rewrite Hsup in Hf. cbn [Py.of_opt] in Hf.
    assert (uid = String c s) by congruence. subst uid.
    exists (String c s). rewrite <- (Hkeep "firebase_uid") by discriminate.
    repeat split; try assumption.
  - right. split; [reflexivity|]. rewrite Hset in Hf. cbn [Py.of_opt] in Hf.
    assert (uid = uid') by congruence. subst uid'.
    exists e, p, uid, name. rewrite <- (Hkeep "password") by discriminate.
    rewrite lower_idem in Hidp. rewrite Hprov. repeat split; assumption.
Qed.

Lemma create_user_identity_witness :
  exists p,
    signup "A@B.com" !! "password" = Some (Some p)
    /\ Auth.valid (Auth.validate_password p) = true.
Proof.
  destruct (UserService.create_user (signup "A@B.com") true "t1" 1000 directory_empty)
    as [[u|ex] w1] eqn:Hrun;
    [|apply (f_equal fst) in Hrun; vm_compute in Hrun; discriminate Hrun].
  apply create_user_identity in Hrun
    as [(uid & Hsup & _)|(_ & e & p & uid & name & _ & Hp & Hvalid & _)].
  - vm_compute in Hsup. discriminate Hsup.
  - exists p. split; assumption.
Defined.

(** ** Creating a user keeps the collection in order *)

Lemma where_eq_nil (field value k : string) (doc : Py.dict) (c : UserRepo.collection) :
  UserRepo.where_eq field value c = [] ->
  c !! k = Some doc -> doc !! field <> Some (Py.PStr value).
Proof.
  unfold UserRepo.where_eq. intros Hnil Hk Hdoc.
  apply (filter_none _ _ (k, doc)) in Hnil; [|apply in_map_to_list, Hk].
  cbn [snd] in Hnil. unfold UserRepo.field_is in Hnil.
  rewrite Hdoc, String.eqb_refl in Hnil. discriminate.
Qed.

Lemma create_user_well_kept `{Py.Env} (d : Validators.payload) (b : bool)
  (t : string) (now : Z) (w : UserService.world) :
  well_kept (UserService.users w) ->
  well_kept (UserService.users (UserService.create_user d b t now w).2).
Proof.
  intros Hkept.
  destruct (UserService.create_user d b t now w) as [[u|ex] w1] eqn:Hrun; cbn [snd].
  - apply create_user_stored in Hrun
      as (e & uid & doc & _ & Hvalid & _ & _ & -> & _ & _ & _ & Hde & Hdf & Hdc & Hdu & _ & _).
    intros k doc' Hk.
    destruct (decide (uid = k)) as [->|Hne].
    + rewrite lookup_insert_eq in Hk. injection Hk as <-.
      unfold date_readable. rewrite Hdc, Hdu. repeat split; try assumption.
      exists (PyStr.lower e). split; [exact Hde|].
      intros Hl. destruct e; [discriminate Hvalid|discriminate Hl].
    + rewrite lookup_insert_ne in Hk by exact Hne. exact (Hkept _ _ Hk).
  - rewrite (create_user_raise_users _ _ _ _ _ _ _ Hrun). exact Hkept.
Qed.

Lemma create_user_emails `{Py.Env} (d : Validators.payload) (b : bool)
  (t : string) (now : Z) (w : UserService.world) :
  emails_lower (UserService.users w) -> emails_distinct (UserService.users w) ->
  emails_lower (UserService.users (UserService.create_user d b t now w).2)
  /\ emails_distinct (UserService.users (UserService.create_user d b t now w).2).
Proof.
  intros Hlow Hdis.
  destruct (UserService.create_user d b t now w) as [[u|ex] w1] eqn:Hrun; cbn [snd].
  - apply create_user_commits in Hrun
      as (e & uid & doc & _ & _ & Hnone & -> & Hdoc & _).
    split.
    + intros k doc' s Hk Hs.
      destruct (decide (uid = k)) as [->|Hne].
      * rewrite lookup_insert_eq in Hk. assert (doc' = doc) by congruence. subst doc'.
        rewrite Hdoc in Hs. assert (s = PyStr.lower e) by congruence. subst s.
        apply lower_idem.
      * rewrite lookup_insert_ne in Hk by exact Hne. exact (Hlow _ _ _ Hk Hs).
    + intros k1 k2 d1 d2 s H1 H2 Hs1 Hs2.
      destruct (decide (k1 = k2)) as [|Hne12]; [assumption|]. exfalso.
      destruct (decide (uid = k1)) as [->|Hne1].
      * rewrite lookup_insert_eq in H1. rewrite lookup_insert_ne in H2 by exact Hne12.
        assert (d1 = doc) by congruence. subst d1.
        rewrite Hdoc in Hs1. assert (s = PyStr.lower e) by congruence. subst s.
        exact (where_eq_nil _ _ _ _ _ Hnone H2 Hs2).
      * rewrite lookup_insert_ne in H1 by exact Hne1.
        destruct (decide (uid = k2)) as [->|Hne2].
        -- rewrite lookup_insert_eq in H2. assert (d2 = doc) by congruence. subst d2.
           rewrite Hdoc in Hs2. assert (s = PyStr.lower e) by congruence. subst s.
           exact (where_eq_nil _ _ _ _ _ Hnone H1 Hs1).
        -- rewrite lookup_insert_ne in H2 by exact Hne2.
           exact (Hne12 (Hdis _ _ _ _ _ H1 H2 Hs1 Hs2)).
  - rewrite (create_user_raise_users _ _ _ _ _ _ _ Hrun). split; assumption.
Qed.

(** X7. [create_user] keeps the user collection in order, whether it
    succeeds or raises: every document stays stored under its
    [firebase_uid] with a non-empty email and readable dates, emails stay
    in lower case, and no two documents hold the same email, also when
    letter case is ignored. *)
Theorem create_user_keeps_directory `{Py.Env} (d : Validators.payload) (b : bool)
  (t : string) (now : Z) (w : UserService.world) :
  well_kept (UserService.users w) ->
  emails_lower (UserService.users w) ->
  emails_distinct (UserService.users w) ->
  well_kept (UserService.users (UserService.create_user d b t now w).2)
  /\ emails_lower (UserService.users (UserService.create_user d b t now w).2)
  /\ emails_distinct (UserService.users (UserService.create_user d b t now w).2)
  /\ (forall k1 k2 d1 d2 s1 s2,
        UserService.users (UserService.create_user d b t now w).2 !! k1 = Some d1 ->
        UserService.users (UserService.create_user d b t now w).2 !! k2 = Some d2 ->
        d1 !! "email" = Some (Py.PStr s1) -> d2 !! "email" = Some (Py.PStr s2) ->
        PyStr.lower s1 = PyStr.lower s2 -> k1 = k2).
Proof.
  intros Hkept Hlow Hdis.
  destruct (create_user_emails d b t now w Hlow Hdis) as [Hlow' Hdis'].
  split; [apply create_user_well_kept, Hkept|].
  split; [exact Hlow'|]. split; [exact Hdis'|].
  intros k1 k2 d1 d2 s1 s2 H1 H2 Hs1 Hs2 Hsame.
  rewrite (Hlow' _ _ _ H1 Hs1), (Hlow' _ _ _ H2 Hs2) in Hsame. subst s2.
  exact (Hdis' _ _ _ _ _ H1 H2 Hs1 Hs2).
Qed.

Lemma directory_empty_kept :
  well_kept (UserService.users directory_empty)
  /\ emails_lower (UserService.users directory_empty)
  /\ emails_distinct (UserService.users directory_empty).
Proof.
  change (UserService.users directory_empty) with (∅ : UserRepo.collection).
  split; [|split].
  - intros k doc Hk. rewrite lookup_empty in Hk. discriminate Hk.
  - intros k doc s Hk. rewrite lookup_empty in Hk. discriminate Hk.
  - intros k1 k2 d1 d2 s Hk. rewrite lookup_empty in Hk. discriminate Hk.
Qed.

Lemma create_user_keeps_directory_witness :
  well_kept (UserService.users directory_one)
  /\ emails_distinct (UserService.users directory_one).
Proof.
  destruct directory_empty_kept as (Hk & Hl & Hd).
  destruct (create_user_keeps_directory (signup "A@B.com") true "t1" 1000
              directory_empty Hk Hl Hd) as (Hk' & _ & Hd' & _).
  split; assumption.
Defined.

(** ** The endpoint that requests a reset *)

(** X8. The endpoint that requests a reset, on a body that is a JSON object
    holding a non-empty email. For an email the provider does not know it
    answers 200 with the generic message and changes nothing. For an email
    the provider knows it gives the very same answer when the reset mail is
    sent, whatever records are stored; when the mail is not sent it
    answers 400, so that only then the answer tells the two apart. *)
Theorem request_reset_same_answer_when_sent `{Py.Env} (req : PasswordRoutes.request)
  (data : Validators.payload) (email tok new_id uid : string) (name : option string)
  (now_query now : Z) (w1 w2 : PasswordService.world) :
  PasswordRoutes.json req = PasswordRoutes.Fields data ->
  data !! "email" = Some (Some email) -> email <> "" ->
  Py.idp_get_user_by_email (PasswordService.provider w1) email = Py.UserNotFound ->
  Py.idp_get_user_by_email (PasswordService.provider w2) email = Py.UserFound uid name ->
  PasswordRoutes.request_reset req tok new_id now_query now w1
  = (PasswordRoutes.Answered (reset_requested email), w1)
  /\ (Py.send_password_reset_email email
        (PasswordRoutes.reset_base_url (PasswordRoutes.on_fields req data)
         ++ "?token=" ++ tok) name = Py.Sent ->
      (PasswordRoutes.request_reset req tok new_id now_query now w2).1
      = PasswordRoutes.Answered (reset_requested email))
  /\ (Py.send_password_reset_email email
        (PasswordRoutes.reset_base_url (PasswordRoutes.on_fields req data)
         ++ "?token=" ++ tok) name <> Py.Sent ->
      exists r,
        (PasswordRoutes.request_reset req tok new_id now_query now w2).1
        = PasswordRoutes.Answered r
        /\ Api.status r = 400%nat /\ Api.success r = false).
Proof.
  intros Hjson Hbody Hne Hunknown Hknown.
  unfold PasswordRoutes.request_reset. rewrite Hjson.
  unfold PasswordRoutes.request_reset_on, PasswordApi.body.
  cbn [PasswordRoutes.on_fields PasswordApi.json]. rewrite Hbody.
  destruct email as [|c email]; [congruence|].
  unfold PasswordService.request_password_reset.
  rewrite Hunknown, Hknown, get_active_finds_nothing.
  split; [reflexivity|].
  cbv beta iota zeta delta [ResetRepo.create].
  destruct (Py.send_password_reset_email _ _ name) eqn:Hmail.
  - split; [reflexivity|]. intros Hno. congruence.
  - split; [discriminate|]. intros _. eexists. cbn. repeat split.
  - split; [discriminate|]. intros _. eexists. cbn. repeat split.
Qed.

Lemma request_reset_same_answer_when_sent_witness :
  (PasswordRoutes.request_reset (ask "x@y.com") "t0ken" "r2" 10 10 world_down).1
  = (PasswordRoutes.request_reset (ask "x@y.com") "t0ken" "r2" 10 10 world_fresh).1.
Proof.
  destruct (request_reset_same_answer_when_sent (ask "x@y.com")
              {[ "email" := Some "x@y.com" ]} "x@y.com" "t0ken" "r2"
              "uid:x@y.com" None 10 10 world_down world_fresh) as (H1 & H2 & _).
  - reflexivity.
  - reflexivity.
  - discriminate.
  - vm_compute. reflexivity.
  - vm_compute. reflexivity.
  - rewrite H1, H2; reflexivity.
Defined.

(** ** The dictionary form of a reset record and its documents *)

Lemma date_or_now_iso `{Py.Env} (t now : Z) :
  ResetModel.date_or_now (Py.PStr (Py.isoformat t)) now = Some (Py.PTime t).
Proof. unfold ResetModel.date_or_now. rewrite parse_isoformat. reflexivity. Qed.

Lemma get_or_empty_str (d : Py.dict) (k s : string) :
  d !! k = Some (Py.PStr s) -> ResetModel.get_or_empty d k = Py.PStr s.
Proof.
  intros E. unfold ResetModel.get_or_empty, ResetModel.get. rewrite E.
  destruct s; reflexivity.
Qed.

(** X9. The dictionary form of a reset record holds exactly the eight
    fields of the model, and [from_dict] of [to_dict] of a record is the
    record. *)
Theorem reset_dict_round_trip `{Py.Env} (r : ResetRepo.PasswordReset) (now_c now_e : Z) :
  exists d,
    ResetModel.to_dict (ResetModel.of_record r) = Py.Ok d
    /\ (forall k, is_Some (d !! k) <->
                  k ∈ ["id"; "email"; "user_id"; "token"; "expires_at"; "created_at";
                       "used"; "used_at"])
    /\ ResetModel.from_dict d now_c now_e = Some (ResetModel.of_record r).
Proof.
  destruct r as [mail uid tok ea ca u ua i].
  unfold ResetModel.to_dict, ResetModel.of_record.
  cbn [ResetRepo.email ResetRepo.user_id ResetRepo.token ResetRepo.expires_at
       ResetRepo.created_at ResetRepo.used ResetRepo.used_at ResetRepo.id
       ResetModel.email ResetModel.user_id ResetModel.token ResetModel.expires_at
       ResetModel.created_at ResetModel.used ResetModel.used_at ResetModel.id
       ResetModel.iso_if_datetime].
  set (ua_text := match ua with Some t => Py.PStr (Py.isoformat t) | None => Py.PNone end).
  exists (list_to_map
            [("id", Py.of_opt i); ("email", Py.PStr mail); ("user_id", Py.PStr uid);
             ("token", Py.PStr tok); ("expires_at", Py.PStr (Py.isoformat ea));
             ("created_at", Py.PStr (Py.isoformat ca)); ("used", Py.PBool u);
             ("used_at", ua_text)]).
  split; [|split].
  - unfold ua_text. destruct ua; reflexivity.
  - intros k. cbn [list_to_map foldr fst snd]. split.
    + intros [v Hv].
      match goal with |- k ∈ ?l => destruct (decide (k ∈ l)) as [|Hn]; [assumption|] end.
      exfalso.
      rewrite !lookup_insert_ne in Hv by (intros <-; apply Hn; repeat constructor).
      rewrite lookup_empty in Hv. discriminate Hv.
    + intros Hin.
      repeat (apply elem_of_cons in Hin as [->|Hin]; [through_inserts; eauto|]).
      inversion Hin.
  - unfold ResetModel.from_dict, ResetModel.get.
    cbn [list_to_map foldr fst snd]. through_inserts.
    rewrite !date_or_now_iso. cbn [mbind option_bind].
    assert (Hua : ResetModel.date_if_text ua_text
                  = Some (match ua with Some t => Py.PTime t | None => Py.PNone end)).
    { unfold ua_text. destruct ua; [|reflexivity].
      unfold ResetModel.date_if_text. rewrite parse_isoformat. reflexivity. }
    rewrite Hua. cbn [mbind option_bind].
    rewrite (get_or_empty_str _ "email" mail) by (through_inserts; reflexivity).
    rewrite (get_or_empty_str _ "user_id" uid) by (through_inserts; reflexivity).
    rewrite (get_or_empty_str _ "token" tok) by (through_inserts; reflexivity).
    through_inserts. reflexivity.
Qed.

(** What [from_dict] reads from a document written by the repository. *)
Lemma from_dict_written `{Py.Env} (d : Py.dict) (mail uid tok : string) (ea ca : Z)
  (u : bool) (ua_stored ua i : Py.pyval) (now_c now_e : Z) :
  d !! "email" = Some (Py.PStr mail) -> d !! "user_id" = Some (Py.PStr uid) ->
  d !! "token" = Some (Py.PStr tok) ->
  d !! "expires_at" = Some (Py.PStr (Py.isoformat ea)) ->
  d !! "created_at" = Some (Py.PStr (Py.isoformat ca)) ->
  d !! "used" = Some (Py.PBool u) -> d !! "id" = Some i ->
  d !! "used_at" = Some ua_stored -> ResetModel.date_if_text ua_stored = Some ua ->
  ResetModel.from_dict d now_c now_e
  = Some {| ResetModel.email := Py.PStr mail; ResetModel.user_id := Py.PStr uid;
            ResetModel.token := Py.PStr tok; ResetModel.expires_at := Py.PTime ea;
            ResetModel.created_at := Py.PTime ca; ResetModel.used := Py.PBool u;
            ResetModel.used_at := ua; ResetModel.id := i |}.
Proof.
  intros He Hu Ht Hea Hca Hus Hi Hua Hd.
  unfold ResetModel.from_dict, ResetModel.get.
  rewrite Hca, Hea, Hua, Hus, Hi, !date_or_now_iso. cbn [mbind option_bind].
  rewrite Hd. cbn [mbind option_bind].
  rewrite (get_or_empty_str _ _ _ He), (get_or_empty_str _ _ _ Hu),
    (get_or_empty_str _ _ _ Ht).
  reflexivity.
Qed.

Ltac stored_field :=
  cbn [list_to_map foldr fst snd];
  repeat first [ rewrite lookup_insert_eq
               | rewrite lookup_insert_ne by discriminate
               | rewrite lookup_delete_ne by discriminate ];
  reflexivity.

(** X10. A reset record created in the repository changes no other
    document and is read back by [get_by_id] with its new id; after
    [mark_as_used], which succeeds, it is read back as used at the given
    instant. *)
Theorem stored_reset_is_read_back `{Py.Env} (c : ResetStore.collection)
  (r : ResetRepo.PasswordReset) (new_id : string) (now now_c now_e : Z) :
  exists c',
    ResetStore.create c (ResetModel.of_record r) new_id
    = Py.Ok (ResetModel.of_record (ResetRepo.create ∅ r new_id).1, c')
    /\ (forall k, k <> new_id -> c' !! k = c !! k)
    /\ ResetStore.get_by_id c' new_id now_c now_e
       = Some (Some (ResetModel.of_record (ResetRepo.with_id r (Some new_id))))
    /\ (ResetStore.mark_as_used c' new_id now).1 = true
    /\ ResetStore.get_by_id (ResetStore.mark_as_used c' new_id now).2 new_id now_c now_e
       = Some (Some (ResetModel.of_record
                       (ResetRepo.set_used (ResetRepo.with_id r (Some new_id)) now))).
Proof.
  destruct r as [mail uid tok ea ca u ua i].
  unfold ResetStore.create, ResetModel.to_dict, ResetModel.of_record.
  cbn [ResetRepo.email ResetRepo.user_id ResetRepo.token ResetRepo.expires_at
       ResetRepo.created_at ResetRepo.used ResetRepo.used_at ResetRepo.id
       ResetModel.email ResetModel.user_id ResetModel.token ResetModel.expires_at
       ResetModel.created_at ResetModel.used ResetModel.used_at ResetModel.id
       ResetModel.iso_if_datetime ResetRepo.create ResetRepo.with_id fst
       ResetRepo.set_used Py.of_opt ResetStore.with_id].
  set (ua_text := match ua with Some t => Py.PStr (Py.isoformat t) | None => Py.PNone end).
  assert (Hto : (if Py.truthy (match ua with Some t => Py.PTime t | None => Py.PNone end)
                 then match match ua with Some t => Py.PTime t | None => Py.PNone end with
                      | Py.PTime t => Py.Ok (Py.PStr (Py.isoformat t))
                      | _ => Py.Raise (Py.AttributeError "isoformat")
                      end
                 else Py.Ok Py.PNone) = Py.Ok ua_text)
    by (unfold ua_text; destruct ua; reflexivity).
  rewrite Hto. clear Hto.
  assert (Hback : ResetModel.date_if_text ua_text
                  = Some (match ua with Some t => Py.PTime t | None => Py.PNone end)).
  { unfold ua_text. destruct ua; [|reflexivity].
    unfold ResetModel.date_if_text. rewrite parse_isoformat. reflexivity. }
  clearbody ua_text.
  eexists. split; [reflexivity|].
  split; [intros k Hk; apply lookup_insert_ne; congruence|].
  unfold ResetStore.get_by_id, ResetStore.mark_as_used.
  rewrite lookup_insert_eq. cbn [fst snd]. rewrite lookup_insert_eq.
  unfold ResetStore.read.
  repeat split.
  - erewrite from_dict_written; [reflexivity|..]; try stored_field; try exact Hback.
  - erewrite from_dict_written; [reflexivity|..]; try stored_field; try reflexivity.
Qed.

(** The dates of the document that [create] stores are the texts the
    query of the repository meets: [expires_at] is the ISO text of
    [to_dict], also after [mark_as_used], and no timestamp. *)
Lemma created_document_dates `{Py.Env} (c : ResetStore.collection)
  (r : ResetRepo.PasswordReset) (new_id : string) (now : Z) :
  exists (stored : ResetModel.PasswordReset) (c' : ResetStore.collection),
    ResetStore.create c (ResetModel.of_record r) new_id = Py.Ok (stored, c')
    /\ c' !! new_id ≫= (.!! "expires_at") = Some (ResetRepo.stored_expires_at r)
    /\ c' !! new_id ≫= (.!! "created_at") = Some (Py.PStr (ResetRepo.stored_created_at r))
    /\ (ResetStore.mark_as_used c' new_id now).2 !! new_id ≫= (.!! "expires_at")
       = Some (ResetRepo.stored_expires_at r).
Proof.
  destruct r as [mail uid tok ea ca u ua i].
  unfold ResetStore.create, ResetModel.to_dict, ResetModel.of_record,
    ResetRepo.stored_expires_at, ResetRepo.stored_created_at.
  cbn [ResetRepo.email ResetRepo.user_id ResetRepo.token ResetRepo.expires_at
       ResetRepo.created_at ResetRepo.used ResetRepo.used_at ResetRepo.id
       ResetModel.email ResetModel.user_id ResetModel.token ResetModel.expires_at
       ResetModel.created_at ResetModel.used ResetModel.used_at ResetModel.id
       ResetModel.iso_if_datetime Py.of_opt].
  set (ua_text := match ua with Some t => Py.PStr (Py.isoformat t) | None => Py.PNone end).
  assert (Hto : (if Py.truthy (match ua with Some t => Py.PTime t | None => Py.PNone end)
                 then match match ua with Some t => Py.PTime t | None => Py.PNone end with
                      | Py.PTime t => Py.Ok (Py.PStr (Py.isoformat t))
                      | _ => Py.Raise (Py.AttributeError "isoformat")
                      end
                 else Py.Ok Py.PNone) = Py.Ok ua_text)
    by (unfold ua_text; destruct ua; reflexivity).
  rewrite Hto. clear Hto. clearbody ua_text.
  eexists _, _. split; [reflexivity|].
  unfold ResetStore.mark_as_used. rewrite lookup_insert_eq. cbn [fst snd].
  rewrite lookup_insert_eq. cbn [mbind option_bind].
  repeat split; stored_field.
Qed.

(** ** Reset tokens *)

Lemma choice_alphabet (draw : nat) :
  PyStr.isalnum (Tokens.choice Tokens.alphabet draw) = true.
Proof.
  unfold Tokens.choice.
  assert (Hall : forallb PyStr.isalnum (PyStr.chars Tokens.alphabet) = true)
    by (vm_compute; reflexivity).
  rewrite forallb_forall in Hall. apply Hall, nth_In.
  change (List.length (PyStr.chars Tokens.alphabet)) with 62%nat.
  change (String.length Tokens.alphabet) with 62%nat.
  apply Nat.mod_upper_bound. discriminate.
Qed.

(** X11. A generated reset token has the length asked for and holds only
    ASCII letters and digits, whatever the random draws are. *)
Theorem reset_token_shape (draws : nat -> nat) (length : nat) :
  String.length (Tokens.generate_reset_token draws length) = length
  /\ forallb PyStr.isalnum (PyStr.chars (Tokens.generate_reset_token draws length)) = true.
Proof.
  revert draws. induction length as [|n IH]; intros draws; [split; reflexivity|].
  destruct (IH (fun i => draws (S i))) as [Hlen Hall].
  cbn [Tokens.generate_reset_token String.length PyStr.chars list_ascii_of_string forallb].
  split; [f_equal; exact Hlen|].
  rewrite choice_alphabet. exact Hall.
Qed.

(** ** The identifier of a request *)

Lemma append_String (c : ascii) (s x : string) : String c s ++ x = String c (s ++ x).
Proof. reflexivity. Qed.

Lemma append_Empty (x : string) : "" ++ x = x.
Proof. reflexivity. Qed.

Lemma split_cons (sep : ascii) (s : string) :
  exists part parts, Api.split sep s = part :: parts.
Proof.
  induction s as [|c s (part & parts & IH)]; [simpl; eauto|].
  simpl. destruct (Ascii.eqb c sep); [eauto|]. rewrite IH. eauto.
Qed.

Lemma split_parts (sep : ascii) (s part : string) :
  In part (Api.split sep s) -> PyStr.char_in part sep = false.
Proof.
  revert part. induction s as [|c s IH]; intros part.
  - simpl. intros [<-|[]]. reflexivity.
  - simpl. destruct (Ascii.eqb c sep) eqn:Ec.
    + intros [<-|Hin]; [reflexivity|apply IH, Hin].
    + destruct (split_cons sep s) as (p & ps & Hs). rewrite Hs in *.
      intros [<-|Hin].
      * unfold PyStr.char_in, PyStr.chars. cbn [list_ascii_of_string existsb].
        rewrite Ascii.eqb_sym, Ec. apply (IH p). left. reflexivity.
      * apply IH. right. exact Hin.
Qed.

Lemma join_cons (sep x y : string) (l : list string) :
  PyStr.join sep (x :: y :: l) = x ++ sep ++ PyStr.join sep (y :: l).
Proof. reflexivity. Qed.

Lemma split_join (sep : ascii) (s : string) :
  PyStr.join (String sep "") (Api.split sep s) = s.
Proof.
  induction s as [|c s IH]; [reflexivity|].
  simpl Api.split. destruct (split_cons sep s) as (p & ps & Hs). rewrite Hs in *.
  destruct (Ascii.eqb_spec c sep) as [->|Hne].
  - rewrite join_cons, append_Empty, append_String, append_Empty. f_equal. exact IH.
  - destruct ps as [|q ps].
    + cbn [PyStr.join] in *. f_equal. exact IH.
    + rewrite join_cons in *. rewrite append_String. f_equal. exact IH.
Qed.

Lemma split_all_sep (sep : ascii) (s : string) :
  forallb (fun part => String.eqb part "") (Api.split sep s)
  = forallb (Ascii.eqb sep) (PyStr.chars s).
Proof.
  induction s as [|c s IH]; [reflexivity|].
  simpl Api.split. unfold PyStr.chars. cbn [list_ascii_of_string forallb].
  rewrite (Ascii.eqb_sym sep c).
  destruct (Ascii.eqb c sep); cbn [forallb andb]; [exact IH|].
  destruct (split_cons sep s) as (p & ps & Hs). rewrite Hs. reflexivity.
Qed.

Lemma filter_nil_forallb {A} (f : A -> bool) (l : list A) :
  List.filter (fun x => negb (f x)) l = [] <-> forallb f l = true.
Proof.
  induction l as [|x l IH]; [split; reflexivity|].
  cbn [List.filter forallb]. destruct (f x); cbn [negb andb]; [exact IH|].
  split; discriminate.
Qed.

(** The query argument that [extract_id_from_request] reads first. *)
Lemma extract_id_cases (args : gmap string string) (path : string)
  (name : option string) :
  exists extracted_id : option string,
    (forall i, extracted_id = Some i <->
               exists n, name = Some n /\ n <> "" /\ args !! n = Some i)
    /\ Api.extract_id_from_request args path name
       = match extracted_id with
         | Some (String _ _) => extracted_id
         | _ =>
             match last (Api.clean_parts path) with
             | Some part => Some part
             | None => extracted_id
             end
         end.
Proof.
  exists (match name with
          | Some (String _ _ as n) => if bool_decide (args = ∅) then None else args !! n
          | _ => None
          end).
  split; [|reflexivity].
  intros i. split.
  - destruct name as [[|c n]|]; try discriminate.
    destruct (bool_decide (args = ∅)); [discriminate|].
    intros E. exists (String c n). repeat split; [discriminate|exact E].
  - intros (n & -> & Hn & Hi). destruct n as [|c n]; [congruence|].
    destruct (bool_decide_reflect (args = ∅)) as [->|_]; [|exact Hi].
    rewrite lookup_empty in Hi. discriminate Hi.
Qed.

Lemma clean_parts_nil (path : string) :
  last (Api.clean_parts path) = None
  <-> forallb (Ascii.eqb "/") (PyStr.chars path) = true.
Proof.
  unfold Api.clean_parts. rewrite <- split_all_sep, <- filter_nil_forallb.
  split; [apply last_None|intros ->; reflexivity].
Qed.

Lemma clean_parts_last (path part : string) :
  last (Api.clean_parts path) = Some part ->
  part <> "" /\ PyStr.char_in part "/" = false /\ In part (Api.split "/" path).
Proof.
  unfold Api.clean_parts. intros Hlast.
  apply last_Some in Hlast as [l' Hl'].
  assert (Hin : In part (List.filter (fun part => negb (String.eqb part ""))
                           (Api.split "/" path))).
  { rewrite Hl'. apply in_or_app. right. left. reflexivity. }
  apply filter_In in Hin as [Hin Hne].
  repeat split; [|apply (split_parts _ _ _ Hin)|exact Hin].
  intros ->. discriminate Hne.
Qed.

(** X12. [extract_id_from_request]. A non-empty query argument under the
    given name is returned. A non-empty id that is returned is such an
    argument, or the last non-empty segment of the path, which holds no
    slash. The empty string is returned, and not None, exactly when the
    argument under the name is the empty string and the path has no
    segment. None is returned exactly when the path has no segment and
    there is no argument under the name. Splitting a path at the slashes
    and joining it again gives the path. *)
Theorem extract_id_is_last_segment (args : gmap string string) (path : string) :
  PyStr.join "/" (Api.split "/" path) = path
  /\ (forall name v, name <> "" -> args !! name = Some v -> v <> "" ->
        Api.extract_id_from_request args path (Some name) = Some v)
  /\ (forall name i, Api.extract_id_from_request args path name = Some i -> i <> "" ->
        (exists n, name = Some n /\ args !! n = Some i)
        \/ (PyStr.char_in i "/" = false /\ last (Api.clean_parts path) = Some i))
  /\ (forall name, Api.extract_id_from_request args path name = Some "" <->
        forallb (Ascii.eqb "/") (PyStr.chars path) = true
        /\ exists n, name = Some n /\ n <> "" /\ args !! n = Some "")
  /\ (forall name, Api.extract_id_from_request args path name = None <->
        forallb (Ascii.eqb "/") (PyStr.chars path) = true
        /\ forall n, name = Some n -> n <> "" -> args !! n = None).
Proof.
  split; [apply split_join|]. split; [|split; [|split]].
  - intros name v Hname Hv Hne.
    destruct (extract_id_cases args path (Some name)) as (x & Hx & ->).
    assert (E : x = Some v) by (apply Hx; eauto).
    rewrite E. destruct v; [congruence|reflexivity].
  - intros name i.
    destruct (extract_id_cases args path name) as (x & Hx & ->).
    intros E Hi.
    destruct (last (Api.clean_parts path)) as [part|] eqn:Hlast.
    + assert (Hcase : x = Some i \/ part = i)
        by (destruct x as [[|c s]|]; [right|left|right]; congruence).
      destruct Hcase as [Hcase| ->].
      * left. apply Hx in Hcase as (n & ? & _ & ?). eauto.
      * right. split; [|reflexivity]. apply (clean_parts_last _ _ Hlast).
    + left. assert (Hcase : x = Some i) by (destruct x as [[|c s]|]; congruence).
      apply Hx in Hcase as (n & ? & _ & ?). eauto.
  - intros name.
    destruct (extract_id_cases args path name) as (x & Hx & ->).
    rewrite <- clean_parts_nil, <- Hx.
    destruct (last (Api.clean_parts path)) as [part|] eqn:Hlast.
    + destruct (clean_parts_last _ _ Hlast) as [Hne _].
      split; [|intros [? _]; discriminate].
      destruct x as [[|c s]|]; intros E; try discriminate E; congruence.
    + split.
      * intros E. split; [reflexivity|]. destruct x as [[|c s]|]; congruence.
      * intros [_ ->]. reflexivity.
  - intros name.
    destruct (extract_id_cases args path name) as (x & Hx & ->).
    rewrite <- clean_parts_nil.
    destruct (last (Api.clean_parts path)) as [part|] eqn:Hlast.
    + split; [|intros [? _]; discriminate].
      destruct x as [[|c s]|]; discriminate.
    + split.
      * intros E. split; [reflexivity|]. intros n Hn Hne.
        destruct (args !! n) as [i|] eqn:Hi; [|reflexivity].
        assert (Hsome : x = Some i) by (apply Hx; eauto).
        rewrite Hsome in E. destruct i; discriminate E.
      * intros [_ Hnone]. destruct x as [i|] eqn:Ex; [|reflexivity].
        destruct (proj1 (Hx i) eq_refl) as (n & Hn & Hne & Hi).
        rewrite (Hnone n Hn Hne) in Hi. discriminate Hi.
Qed.

(** ** Deleting a user *)

Lemma nonempty_eqb (s : string) : s <> "" -> negb (String.eqb s "") = true.
Proof. intros Hne. destruct (String.eqb_spec s ""); [congruence|reflexivity]. Qed.

(** X13. [delete_user] with a non-empty uid: when the repository holds the
    user, the document is deleted, the provider is the one after its own
    deletion (or unchanged when that call raised), the answer is true, and
    from then on the user is not found and a second deletion answers
    false; when the repository holds no such user the answer is false and
    nothing changes; when reading the user raises, the exception is
    passed on and nothing changes. *)
Theorem delete_user_outcomes `{Accounts.Admin} (uid : string) (now : Z)
  (w : UserService.world) :
  uid <> "" ->
  match UserDocs.get_by_firebase_uid (UserService.users w) uid now with
  | Py.Ok (Some _) =>
      exists w',
        UserAdmin.delete_user uid now w = (Py.Ok (true, None), w')
        /\ UserService.users w' = delete uid (UserService.users w)
        /\ UserService.provider w'
           = match Accounts.idp_delete_user (UserService.provider w) uid with
             | Some st => st
             | None => UserService.provider w
             end
        /\ forall now',
             UserAdmin.get_user_by_firebase_uid uid now' w' = (Py.Ok None, w')
             /\ UserAdmin.delete_user uid now' w' = (Py.Ok (false, None), w')
  | Py.Ok None => UserAdmin.delete_user uid now w = (Py.Ok (false, None), w)
  | Py.Raise e => UserAdmin.delete_user uid now w = (Py.Raise e, w)
  end.
Proof.
  intros Hne.
  unfold UserAdmin.delete_user, UserAdmin.get_user_by_firebase_uid, UserService.bind,
    UserService.raise, UserService.ret.
  rewrite (nonempty_eqb _ Hne).
  destruct (UserDocs.get_by_firebase_uid (UserService.users w) uid now)
    as [[u|]|e] eqn:Hget; try reflexivity.
  unfold UserDocs.get_by_firebase_uid in Hget.
  destruct (UserService.users w !! uid) as [doc|] eqn:Hdoc; [|discriminate Hget].
  unfold UserDocs.delete. rewrite Hdoc.
  eexists. split; [reflexivity|]. cbn [UserService.users UserService.provider].
  repeat split.
  all: unfold UserDocs.get_by_firebase_uid; rewrite lookup_delete_eq; reflexivity.
Qed.

Lemma delete_user_outcomes_witness :
  exists w',
    UserAdmin.delete_user (H0 := ReferenceAdmin.memory_admin) "uid:a@b.com" 3000
      directory_two = (Py.Ok (true, None), w')
    /\ UserService.users w' = delete "uid:a@b.com" (UserService.users directory_two).
Proof.
  pose proof (delete_user_outcomes (H0 := ReferenceAdmin.memory_admin)
                "uid:a@b.com" 3000 directory_two) as Hd.
  destruct (UserDocs.get_by_firebase_uid (UserService.users directory_two)
              "uid:a@b.com" 3000) as [[u|]|e] eqn:Hget.
  - destruct Hd as (w' & Hrun & Husers & _); [discriminate|]. eauto.
  - apply (f_equal (fun r => match r with Py.Ok (Some _) => true | _ => false end))
      in Hget.
    vm_compute in Hget. discriminate Hget.
  - apply (f_equal Py.is_ok) in Hget. vm_compute in Hget. discriminate Hget.
Defined.

(** ** Reading a created user back *)

Lemma parse_date_other `{Py.Env} (field k : string) (d d' : Py.dict) :
  UserModel.parse_date field d = Py.Ok d' -> k <> field -> d' !! k = d !! k.
Proof.
  unfold UserModel.parse_date. intros Hp Hk.
  assert (Hins : forall v, <[field := v]> d !! k = d !! k)
    by (intros v; apply lookup_insert_ne; congruence).
  destruct (d !! field) as [[|b|n|s|t|l]|];
    try (injection Hp as <-; reflexivity).
  - destruct (Py.fromtimestamp _); [|discriminate Hp]. injection Hp as <-. apply Hins.
  - destruct (Py.fromtimestamp _); [|discriminate Hp]. injection Hp as <-. apply Hins.
  - destruct (Py.fromisoformat _); injection Hp as <-; [apply Hins|reflexivity].
Qed.

Lemma parse_date_readable `{Py.Env} (field : string) (d : Py.dict) :
  date_readable d field = true -> exists d', UserModel.parse_date field d = Py.Ok d'.
Proof.
  unfold date_readable, UserModel.parse_date.
  destruct (d !! field) as [[|b|n|s|t|l]|]; try discriminate; eauto.
  destruct (Py.fromisoformat _); eauto.
Qed.

(** [from_dict] returns a user for every document whose dates need no
    [fromtimestamp]. *)
Lemma from_dict_readable `{Py.Env} (d : Py.dict) (i : option string) (now : Z) :
  date_readable d "created_at" = true -> date_readable d "updated_at" = true ->
  exists u, UserModel.from_dict d i now = Py.Ok u.
Proof.
  intros Hc Hu. unfold UserModel.from_dict.
  destruct (parse_date_readable "created_at" d Hc) as [d1 H1]. rewrite H1.
  assert (Hu1 : date_readable d1 "updated_at" = true).
  { unfold date_readable in *.
    rewrite (parse_date_other _ _ _ _ H1) by discriminate. exact Hu. }
  destruct (parse_date_readable "updated_at" d1 Hu1) as [d2 H2]. rewrite H2.
  match goal with
  | |- context [UserModel.User_new ?kw now now] =>
      destruct (User_new_total kw now) as [u ->]
  end.
  - rewrite filter_valid_lookup by valid_field.
    rewrite !default_field_lookup_ne by discriminate. apply default_field_lookup.
  - rewrite filter_valid_lookup by valid_field.
    rewrite default_field_lookup_ne by discriminate. apply default_field_lookup.
  - rewrite filter_valid_lookup by valid_field. apply default_field_lookup.
  - destruct i as [[|c s]|]; eauto.
Qed.

Lemma default_field_truthy (k : string) (v x : Py.pyval) (m : Py.dict) :
  m !! k = Some x -> Py.truthy x = true -> UserModel.default_field k v m !! k = Some x.
Proof. intros Hm Ht. unfold UserModel.default_field. rewrite Hm, Ht. exact Hm. Qed.

(** The email, the uid and the id of a user read from a document. *)
Lemma from_dict_identity `{Py.Env} (d : Py.dict) (i : option string) (e : string)
  (now : Z) (u : UserModel.User) :
  UserModel.from_dict d i now = Py.Ok u ->
  d !! "email" = Some (Py.PStr e) -> e <> "" ->
  UserModel.email u = Py.PStr e
  /\ UserModel.firebase_uid u = UserModel.kwarg d "firebase_uid" Py.PNone
  /\ (forall s, i = Some s -> s <> "" -> UserModel.id u = Py.PStr s).
Proof.
  unfold UserModel.from_dict. intros Hrun He Hne.
  destruct (UserModel.parse_date "created_at" d) as [d1|] eqn:H1; [|discriminate Hrun].
  destruct (UserModel.parse_date "updated_at" d1) as [d2|] eqn:H2; [|discriminate Hrun].
  assert (Hk : forall k, k <> "created_at" -> k <> "updated_at" -> d2 !! k = d !! k).
  { intros k Hc Hu. rewrite (parse_date_other _ _ _ _ H2 Hu).
    apply (parse_date_other _ _ _ _ H1 Hc). }
  match type of Hrun with
  | context [UserModel.User_new ?kw now now] =>
      assert (Hem : kw !! "email" = Some (Py.PStr e));
      [|assert (Hfu : kw !! "firebase_uid" = d !! "firebase_uid");
        [|destruct (UserModel.User_new kw now now) as [user|] eqn:Hnew;
          [|discriminate Hrun]]]
  end.
  - rewrite filter_valid_lookup by valid_field.
    rewrite !default_field_lookup_ne by discriminate.
    apply default_field_truthy; [rewrite Hk by discriminate; exact He|].
    destruct e; [congruence|reflexivity].
  - rewrite filter_valid_lookup by valid_field.
    rewrite !default_field_lookup_ne by discriminate. apply Hk; discriminate.
  - unfold UserModel.User_new, UserModel.kwarg in Hnew.
    rewrite Hem, Hfu in Hnew.
    destruct (_ !! "first_name"); [|discriminate Hnew].
    destruct (_ !! "last_name"); [|discriminate Hnew].
    injection Hnew as <-.
    destruct i as [[|c i]|]; injection Hrun as <-; repeat split;
      intros s Hs Hsne; try congruence.
    injection Hs as <-. reflexivity.
Qed.

(** X14. A user that [create_user] returned is found afterwards by
    [get_user_by_firebase_uid] and by [get_user_by_id] under its id, with
    the same id, [firebase_uid] and email, and reading changes nothing. *)
Theorem created_user_is_found `{Py.Env} (d : Validators.payload) (b : bool) (t : string)
  (now : Z) (w w1 : UserService.world) (u : UserModel.User) :
  UserService.create_user d b t now w = (Py.Ok u, w1) ->
  exists uid,
    UserModel.id u = Py.PStr uid
    /\ forall now2, exists u',
         UserAdmin.get_user_by_firebase_uid uid now2 w1 = (Py.Ok (Some u'), w1)
         /\ UserAdmin.get_user_by_id uid now2 w1 = (Py.Ok (Some u'), w1)
         /\ UserModel.id u' = UserModel.id u
         /\ UserModel.firebase_uid u' = UserModel.firebase_uid u
         /\ UserModel.email u' = UserModel.email u.
Proof.
  intros Hrun.
  apply create_user_stored in Hrun
    as (e & uid & doc & _ & Hvalid & _ & Hne & Hw & Hid & Hf & Hue & Hde & Hdf
        & Hdc & Hdu & _ & _).
  exists uid. split; [exact Hid|]. intros now2.
  destruct (from_dict_string_dates doc (Some uid) now2 _ _ Hdc Hdu) as [u' Hu'].
  assert (He : PyStr.lower e <> "").
  { intros Hl. destruct e; [discriminate Hvalid|discriminate Hl]. }
  destruct (from_dict_identity _ _ _ _ _ Hu' Hde He) as (He' & Hf' & Hi').
  specialize (Hi' uid eq_refl Hne).
  exists u'.
  unfold UserAdmin.get_user_by_id, UserAdmin.get_user_by_firebase_uid,
    UserService.raise, UserDocs.get_by_firebase_uid.
  rewrite (nonempty_eqb _ Hne), Hw, lookup_insert_eq, Hu'.
  repeat split; try congruence.
  rewrite Hf', Hf. unfold UserModel.kwarg. rewrite Hdf. reflexivity.
Qed.

Lemma created_user_is_found_witness :
  exists uid u',
    UserAdmin.get_user_by_firebase_uid uid 5000 directory_one
    = (Py.Ok (Some u'), directory_one).
Proof.
  unfold directory_one.
  destruct (UserService.create_user (signup "A@B.com") true "t1" 1000 directory_empty)
    as [[u|ex] w1] eqn:Hrun;
    [|apply (f_equal fst) in Hrun; vm_compute in Hrun; discriminate Hrun].
  destruct (created_user_is_found _ _ _ _ _ _ _ Hrun) as (uid & _ & Hfound).
  destruct (Hfound 5000%Z) as (u' & Hget & _).
  exists uid, u'. exact Hget.
Defined.

(** ** Updating a user *)

(** A step that stopped, or went on with the state it was given. *)
Lemma change_email_users `{Accounts.Admin} (uid : string) (u : UserModel.User)
  (d : Validators.payload) (now : Z) (w : UserService.world) :
  UserService.users (UserAdmin.change_email uid u d now w).2 = UserService.users w.
Proof.
  unfold UserAdmin.change_email, UserService.ret, UserService.raise, UserService.bind,
    UserAdmin.email_lower.
  destruct (d !! "email") as [email|]; [|reflexivity].
  destruct (Validators.validate_email email); [|reflexivity].
  destruct (UserModel.email u); try reflexivity.
  unfold UserService.ret.
  destruct (String.eqb _ _); [reflexivity|].
  match goal with
  | |- context [UserService.get_user_by_email ?e now w] =>
      pose proof (get_user_by_email_frame e now w) as Hframe;
      destruct (UserService.get_user_by_email e now w) as [[other|ex] w0];
      cbn [snd] in Hframe; subst w0; [|reflexivity]
  end.
  destruct (negb _); [|reflexivity].
  destruct (Accounts.idp_update_email _ _ _); reflexivity.
Qed.

Lemma change_email_absent `{Accounts.Admin} (uid k : string) (u : UserModel.User)
  (d d' : Validators.payload) (now : Z) (w w' : UserService.world) :
  UserAdmin.change_email uid u d now w = (Py.Ok d', w') ->
  d !! k = None -> d' !! k = None.
Proof.
  unfold UserAdmin.change_email, UserService.ret, UserService.raise, UserService.bind,
    UserAdmin.email_lower.
  intros Hrun Hk.
  destruct (d !! "email") as [email|] eqn:He;
    [|apply run_ok in Hrun as [<- _]; exact Hk].
  assert (Hins : forall v, <["email" := v]> d !! k = None).
  { intros v. rewrite lookup_insert_ne by congruence. exact Hk. }
  destruct (Validators.validate_email email); [|raised Hrun].
  destruct (UserModel.email u); try raised Hrun.
  unfold UserService.ret in Hrun.
  destruct (String.eqb _ _); [apply run_ok in Hrun as [<- _]; apply Hins|].
  match type of Hrun with
  | context [UserService.get_user_by_email ?e now w] =>
      destruct (UserService.get_user_by_email e now w) as [[other|ex] w0];
      [|raised Hrun]
  end.
  destruct (negb _); [|raised Hrun].
  destruct (Accounts.idp_update_email _ _ _); [raised Hrun|].
  apply run_ok in Hrun as [<- _]. apply Hins.
Qed.

Lemma clean_name_absent `{Py.Env} (key k : string) (d : Validators.payload) :
  d !! k = None -> UserAdmin.clean_name key d !! k = None.
Proof.
  intros Hk. unfold UserAdmin.clean_name.
  destruct (d !! key) eqn:E; [|exact Hk].
  rewrite lookup_insert_ne by congruence. exact Hk.
Qed.

Lemma store_profile_picture_absent `{Py.Env} (d d' : Validators.payload) (t k : string)
  (w w' : UserService.world) :
  UserService.store_profile_picture d t w = (Py.Ok d', w') ->
  d !! k = None -> d' !! k = None.
Proof.
  intros Hrun Hk.
  destruct (decide (k = "profile_picture")) as [->|Hne].
  - unfold UserService.store_profile_picture in Hrun. rewrite Hk in Hrun.
    apply run_ok in Hrun as [<- _]. exact Hk.
  - rewrite (store_profile_picture_other _ _ _ _ _ _ Hrun Hne). exact Hk.
Qed.

(** Steps that add no key keep the keys simple. *)
Lemma simple_keys_kept {A B : Type} (d : gmap string A) (d' : gmap string B) :
  Accounts.simple_keys d ->
  (forall k, d !! k = None -> d' !! k = None) ->
  Accounts.simple_keys d'.
Proof.
  intros Hd Hk k v Hv. destruct (d !! k) as [x|] eqn:E; [exact (Hd k x E)|].
  rewrite (Hk k E) in Hv. discriminate Hv.
Qed.

Lemma lower_email_absent (data data' : Py.dict) (k : string) :
  UserDocs.lower_email data = Py.Ok data' -> data !! k = None -> data' !! k = None.
Proof.
  unfold UserDocs.lower_email. intros Hl Hk.
  destruct (data !! "email") as [v|] eqn:Hv; [|injection Hl as <-; exact Hk].
  destruct (Py.truthy v); [|injection Hl as <-; exact Hk].
  destruct v; try discriminate Hl. injection Hl as <-.
  rewrite lookup_insert_ne by congruence. exact Hk.
Qed.

(** With simple field names [update] leaves the collection as it was, or
    overwrites the fields it is given in the stored document. *)
Lemma repo_update_written `{Accounts.Admin} (c : UserRepo.collection) (uid : string)
  (data doc : Py.dict) (now : Z) :
  c !! uid = Some doc ->
  Accounts.simple_keys data ->
  (UserDocs.update c uid data now).2 = c
  \/ exists data',
       UserDocs.lower_email (delete "id" data) = Py.Ok data'
       /\ UserDocs.update c uid data now
          = (UserRepo.found (UserModel.from_dict (data' ∪ doc) (Some uid) now),
             <[uid := data' ∪ doc]> c).
Proof.
  intros Hdoc Hsimple. unfold UserDocs.update. rewrite Hdoc.
  destruct (UserDocs.lower_email (delete "id" data)) as [data'|ex] eqn:Hl;
    [|left; reflexivity].
  destruct (Accounts.doc_update doc data') as [doc'|ex] eqn:Hup; [|left; reflexivity].
  right. exists data'. split; [reflexivity|].
  apply Accounts.doc_update_simple in Hup; [subst doc'; reflexivity|].
  apply (simple_keys_kept (delete "id" data)).
  - intros k v Hk. apply lookup_delete_Some in Hk as [_ Hk]. exact (Hsimple k v Hk).
  - intros k. exact (lower_email_absent _ _ k Hl).
Qed.

Lemma repo_update_frame `{Accounts.Admin} (c : UserRepo.collection) (uid : string)
  (data : Py.dict) (now : Z) :
  (forall k, k <> uid ->
     (UserDocs.update c uid data now).2 !! k = c !! k)
  /\ (Accounts.simple_keys data ->
      forall field, data !! field = None ->
        (UserDocs.update c uid data now).2 !! uid ≫= (.!! field)
        = c !! uid ≫= (.!! field)).
Proof.
  split.
  - intros k Hk. unfold UserDocs.update.
    destruct (c !! uid) as [doc|]; [|reflexivity].
    destruct (UserDocs.lower_email _) as [data'|ex]; [|reflexivity].
    destruct (Accounts.doc_update doc data') as [doc_data|ex]; [|reflexivity].
    apply lookup_insert_ne. congruence.
  - intros Hsimple field Hf.
    destruct (c !! uid) as [doc|] eqn:Hdoc;
      [|unfold UserDocs.update; rewrite Hdoc; cbn [snd]; rewrite Hdoc; reflexivity].
    destruct (repo_update_written c uid data doc now Hdoc Hsimple)
      as [->|(data' & Hl & ->)]; [rewrite Hdoc; reflexivity|].
    cbn [snd]. rewrite lookup_insert_eq. cbn [mbind option_bind].
    assert (Hd : data' !! field = None).
    { apply (lower_email_absent _ _ field Hl).
      destruct (decide (field = "id")) as [->|Hni];
        [apply lookup_delete_eq|rewrite lookup_delete_ne by congruence; exact Hf]. }
    rewrite lookup_union_r by exact Hd. reflexivity.
Qed.

(** The dictionary [update_user] hands to the repository has simple
    keys when the payload has. *)
Lemma update_data_simple (d d2 : Validators.payload) (now : Z) :
  Accounts.simple_keys d ->
  (forall k, d !! k = None -> d2 !! k = None) ->
  Accounts.simple_keys (<["updated_at" := Py.PTime now]> (Py.of_opt <$> d2)).
Proof.
  intros Hd Hk k v Hv. destruct (decide (k = "updated_at")) as [->|Hne]; [reflexivity|].
  rewrite lookup_insert_ne in Hv by congruence. rewrite lookup_fmap in Hv.
  destruct (d2 !! k) as [x|] eqn:E; [|discriminate Hv].
  exact (simple_keys_kept d d2 Hd Hk k x E).
Qed.

Lemma update_user_frame `{Accounts.Admin} (uid : string)
  (d : Validators.payload) (file_id : string) (now1 now2 now now3 : Z)
  (w w' : UserService.world) (r : Py.result (option UserModel.User)) :
  UserAdmin.update_user uid d file_id now1 now2 now now3 w = (r, w') ->
  (forall k, k <> uid -> UserService.users w' !! k = UserService.users w !! k)
  /\ (Accounts.simple_keys d ->
      forall field, d !! field = None -> field <> "updated_at" ->
        UserService.users w' !! uid ≫= (.!! field)
        = UserService.users w !! uid ≫= (.!! field)).
Proof.
  assert (Hsame : forall w0 : UserService.world,
            UserService.users w0 = UserService.users w ->
            (forall k, k <> uid -> UserService.users w0 !! k = UserService.users w !! k)
            /\ (Accounts.simple_keys d ->
                forall field, d !! field = None -> field <> "updated_at" ->
                  UserService.users w0 !! uid ≫= (.!! field)
                  = UserService.users w !! uid ≫= (.!! field)))
    by (intros w0 ->; split; reflexivity).
  unfold UserAdmin.update_user, UserAdmin.get_user_by_firebase_uid. intros Hrun.
  unfold UserService.bind at 1 in Hrun. unfold UserService.raise at 1 in Hrun.
  destruct (negb (String.eqb uid ""));
    [|apply (f_equal snd) in Hrun; cbn [snd] in Hrun; subst w'; auto].
  destruct (UserDocs.get_by_firebase_uid (UserService.users w) uid now1)
    as [[existing|]|ex];
    try (apply (f_equal snd) in Hrun; cbn [snd] in Hrun; subst w'; auto; fail).
  unfold UserService.bind at 1 in Hrun.
  pose proof (change_email_users uid existing d now2 w) as Husers.
  destruct (UserAdmin.change_email uid existing d now2 w) as [[d1|ex] w1] eqn:Hce;
    cbn [snd] in Husers;
    [|apply (f_equal snd) in Hrun; cbn [snd] in Hrun; subst w'; auto].
  unfold UserService.raise at 1 in Hrun.
  destruct (negb _);
    [|apply (f_equal snd) in Hrun; cbn [snd] in Hrun; subst w'; auto].
  unfold UserService.bind at 1 in Hrun.
  match type of Hrun with
  | context [UserService.store_profile_picture ?ud ?t w1] =>
      pose proof (store_profile_picture_frame ud t w1) as Hframe;
      destruct (UserService.store_profile_picture ud t w1) as [[d2|ex] w2] eqn:Hpic;
      cbn [snd] in Hframe; subst w2;
      [|apply (f_equal snd) in Hrun; cbn [snd] in Hrun; subst w'; auto]
  end.
  match type of Hrun with
  | context [UserDocs.update ?c uid ?data now3] =>
      destruct (repo_update_frame c uid data now3) as [Hother Hfield];
      destruct (UserDocs.update c uid data now3) as [r' c'] eqn:Hup
  end.
  apply (f_equal snd) in Hrun. cbn [snd] in Hrun. subst w'.
  cbn [snd UserService.users] in *. rewrite Husers in *.
  split; [exact Hother|].
  assert (Hkeys : forall k, d !! k = None -> d2 !! k = None).
  { intros k Hk. apply (store_profile_picture_absent _ _ _ _ _ _ Hpic).
    apply clean_name_absent, clean_name_absent.
    apply (change_email_absent _ _ _ _ _ _ _ _ Hce Hk). }
  intros Hsimple field Hf Hne.
  apply (Hfield (update_data_simple d d2 now Hsimple Hkeys)).
  rewrite lookup_insert_ne by congruence. rewrite lookup_fmap.
  rewrite (Hkeys field Hf). reflexivity.
Qed.

(** X15. [update_user], for a payload of strings or nulls: it changes no
    document other than the one of the given uid; when every key of the
    payload is a simple field name, which the document store reads as the
    name of a top-level field, it changes in that document no field that
    the payload does not name, [updated_at] apart. An empty uid raises a
    ValueError and a uid without a document answers None, both without a
    change. *)
Theorem update_user_touches_payload_fields `{Accounts.Admin} (uid : string)
  (d : Validators.payload) (file_id : string) (now1 now2 now now3 : Z)
  (w : UserService.world) :
  (forall k, k <> uid ->
     UserService.users (UserAdmin.update_user uid d file_id now1 now2 now now3 w).2 !! k
     = UserService.users w !! k)
  /\ (Accounts.simple_keys d ->
      forall field, d !! field = None -> field <> "updated_at" ->
        UserService.users (UserAdmin.update_user uid d file_id now1 now2 now now3 w).2
          !! uid ≫= (.!! field)
        = UserService.users w !! uid ≫= (.!! field))
  /\ (uid = "" ->
      UserAdmin.update_user uid d file_id now1 now2 now now3 w
      = (Py.Raise (Py.ValueError "Firebase UID cannot be empty"), w))
  /\ (uid <> "" -> UserService.users w !! uid = None ->
      UserAdmin.update_user uid d file_id now1 now2 now now3 w = (Py.Ok None, w)).
Proof.
  split; [|split; [|split]].
  - destruct (UserAdmin.update_user uid d file_id now1 now2 now now3 w) as [r w'] eqn:Hrun.
    exact (proj1 (update_user_frame _ _ _ _ _ _ _ _ _ _ Hrun)).
  - destruct (UserAdmin.update_user uid d file_id now1 now2 now now3 w) as [r w'] eqn:Hrun.
    exact (proj2 (update_user_frame _ _ _ _ _ _ _ _ _ _ Hrun)).
  - intros ->. reflexivity.
  - intros Hne Hnone.
    unfold UserAdmin.update_user, UserAdmin.get_user_by_firebase_uid, UserService.bind,
      UserService.raise, UserDocs.get_by_firebase_uid.
    destruct (String.eqb_spec uid ""); [congruence|]. cbn [negb]. rewrite Hnone.
    reflexivity.
Qed.

Lemma update_user_touches_payload_fields_witness :
  UserService.users
    (UserAdmin.update_user (H0 := ReferenceAdmin.memory_admin) "uid:c@d.org"
       {[ "first_name" := Some "ANN" ]} "f1" 3000 3001 3002 3003 directory_two).2
    !! "uid:c@d.org" ≫= (.!! "email")
  = UserService.users directory_two !! "uid:c@d.org" ≫= (.!! "email").
Proof.
  destruct (update_user_touches_payload_fields (H0 := ReferenceAdmin.memory_admin)
              "uid:c@d.org" {[ "first_name" := Some "ANN" ]} "f1" 3000 3001 3002 3003
              directory_two) as (_ & Hfield & _).
  apply Hfield.
  - intros k v Hkv. apply lookup_singleton_Some in Hkv as [<- _]. reflexivity.
  - apply lookup_singleton_ne. discriminate.
  - discriminate.
Defined.

Lemma where_eq_head (field value k : string) (doc : Py.dict) (c : UserRepo.collection) :
  c !! k = Some doc -> doc !! field = Some (Py.PStr value) ->
  exists k' doc' rest,
    UserRepo.where_eq field value c = (k', doc') :: rest
    /\ c !! k' = Some doc' /\ doc' !! field = Some (Py.PStr value).
Proof.
  intros Hk Hdoc.
  destruct (UserRepo.where_eq field value c) as [|[k' doc'] rest] eqn:Hw.
  - destruct (where_eq_nil _ _ _ _ _ Hw Hk Hdoc).
  - exists k', doc', rest. split; [reflexivity|].
    unfold UserRepo.where_eq in Hw. apply filter_head in Hw as [Hin Hf].
    apply in_map_to_list in Hin. split; [exact Hin|].
    cbn [snd] in Hf. unfold UserRepo.field_is in Hf.
    destruct (doc' !! field) as [[| | |s| |]|]; try discriminate Hf.
    apply String.eqb_eq in Hf. congruence.
Qed.

(** X16. [update_user] refuses an email of another user: when the payload
    holds a valid email that differs, in lower case, from the user's own,
    and another document holds that lower-cased email, the call raises a
    ValueError that names the email and changes nothing. *)
Theorem update_user_email_in_use `{Accounts.Admin} (uid other e e0 : string)
  (doc doc' : Py.dict) (d : Validators.payload) (file_id : string)
  (now1 now2 now now3 : Z) (w : UserService.world) :
  well_kept (UserService.users w) ->
  uid <> "" ->
  UserService.users w !! uid = Some doc ->
  doc !! "email" = Some (Py.PStr e0) -> e0 <> "" ->
  d !! "email" = Some (Some e) ->
  Validators.validate_email (Some e) = true ->
  PyStr.lower e <> PyStr.lower e0 ->
  UserService.users w !! other = Some doc' ->
  doc' !! "email" = Some (Py.PStr (PyStr.lower e)) ->
  UserAdmin.update_user uid d file_id now1 now2 now now3 w
  = (Py.Raise (Py.ValueError ("Email " ++ PyStr.lower e ++ " is already in use")), w).
Proof.
  intros Hkept Hne Hdoc He0 Hne0 Hd Hvalid Hdiff Hother Hoe.
  destruct (Hkept _ _ Hdoc) as (_ & _ & Hc & Hu).
  destruct (from_dict_readable doc (Some uid) now1 Hc Hu) as [u0 Hu0].
  destruct (from_dict_identity _ _ _ _ _ Hu0 He0 Hne0) as (Hemail0 & _ & _).
  assert (Hle : PyStr.lower e <> "").
  { intros Hl. destruct e; [discriminate Hvalid|discriminate Hl]. }
  destruct (where_eq_head "email" (PyStr.lower e) other doc' _ Hother Hoe)
    as (k & dk & rest & Hw & Hk & Hke).
  destruct (Hkept _ _ Hk) as (Hkf & _ & Hkc & Hku).
  destruct (from_dict_readable dk (Some k) now2 Hkc Hku) as [uk Huk].
  destruct (from_dict_identity _ _ _ _ _ Huk Hke Hle) as (_ & Hfk & _).
  unfold UserModel.kwarg in Hfk. rewrite Hkf in Hfk.
  assert (Hkuid : k <> uid).
  { intros ->. rewrite Hdoc in Hk. injection Hk as <-.
    rewrite He0 in Hke. injection Hke as ->. apply Hdiff. symmetry. apply lower_idem. }
  unfold UserAdmin.update_user, UserAdmin.get_user_by_firebase_uid.
  unfold UserService.bind at 1. unfold UserService.raise at 1.
  rewrite (nonempty_eqb _ Hne).
  unfold UserDocs.get_by_firebase_uid. rewrite Hdoc, Hu0. cbn [UserRepo.found].
  unfold UserService.bind at 1.
  unfold UserAdmin.change_email. rewrite Hd, Hvalid.
  cbn [default from_option]. unfold id.
  unfold UserService.bind at 1. unfold UserAdmin.email_lower. rewrite Hemail0.
  unfold UserService.ret at 1.
  destruct (String.eqb_spec (PyStr.lower e) (PyStr.lower e0)) as [Heq|_];
    [destruct (Hdiff Heq)|].
  unfold UserService.bind at 1.
  unfold UserService.get_user_by_email. rewrite validate_email_lower, Hvalid.
  unfold UserRepo.get_by_email. rewrite lower_idem, Hw, Huk. cbn [UserRepo.found].
  rewrite Hfk. unfold UserAdmin.eq_str.
  destruct (String.eqb_spec k uid) as [Heq|_]; [destruct (Hkuid Heq)|].
  reflexivity.
Qed.

Lemma update_user_email_in_use_witness :
  UserAdmin.update_user (H0 := ReferenceAdmin.memory_admin) "uid:c@d.org"
    {[ "email" := Some "A@b.COM" ]} "f1" 3000 3001 3002 3003 directory_two
  = (Py.Raise (Py.ValueError "Email a@b.com is already in use"), directory_two).
Proof.
  assert (H1 : UserService.users directory_two !! "uid:c@d.org" ≫= (.!! "email")
               = Some (Py.PStr "c@d.org")) by (vm_compute; reflexivity).
  assert (H2 : UserService.users directory_two !! "uid:a@b.com" ≫= (.!! "email")
               = Some (Py.PStr "a@b.com")) by (vm_compute; reflexivity).
  destruct (UserService.users directory_two !! "uid:c@d.org") as [doc|] eqn:Hdoc;
    [|discriminate H1].
  destruct (UserService.users directory_two !! "uid:a@b.com") as [doc'|] eqn:Hdoc';
    [|discriminate H2].
  cbn [mbind option_bind] in H1, H2.
  apply (update_user_email_in_use (H0 := ReferenceAdmin.memory_admin)
           "uid:c@d.org" "uid:a@b.com" "A@b.COM" "c@d.org" doc doc').
  - apply create_user_well_kept, create_user_well_kept, directory_empty_kept.
  - discriminate.
  - exact Hdoc.
  - exact H1.
  - discriminate.
  - reflexivity.
  - vm_compute. reflexivity.
  - discriminate.
  - exact Hdoc'.
  - exact H2.
Defined.

(** ** The endpoint that creates a user *)

(** X17. The endpoint that creates a user: an answer 201 comes from a POST
    whose service call succeeded, stores one document and carries the
    user's dictionary; any other answer is a failure that leaves the user
    collection as before; the answer is 400 exactly when a POST made the
    service raise a ValueError; a body without [last_name] never gives
    201. *)
Theorem create_endpoint_outcomes `{Py.Env} (req : UsersApi.request) (temp_id : string)
  (now : Z) (w : UserService.world) :
  (Api.status (UsersApi.create_user req temp_id now w).1 = 201%nat ->
   UsersApi.method req = "POST"
   /\ exists u uid doc,
        UserService.create_user (UsersApi.json req) true temp_id now w
        = (Py.Ok u, (UsersApi.create_user req temp_id now w).2)
        /\ UserService.users (UsersApi.create_user req temp_id now w).2
           = <[uid := doc]> (UserService.users w)
        /\ Api.data (UsersApi.create_user req temp_id now w).1
           = Some {[ "user" := Api.Object (UserModel.to_dict u) ]})
  /\ (Api.status (UsersApi.create_user req temp_id now w).1 <> 201%nat ->
      Api.success (UsersApi.create_user req temp_id now w).1 = false
      /\ UserService.users (UsersApi.create_user req temp_id now w).2
         = UserService.users w)
  /\ (Api.status (UsersApi.create_user req temp_id now w).1 = 400%nat <->
      UsersApi.method req = "POST"
      /\ exists msg,
           (UserService.create_user (UsersApi.json req) true temp_id now w).1
           = Py.Raise (Py.ValueError msg))
  /\ (UsersApi.json req !! "last_name" = None ->
      Api.status (UsersApi.create_user req temp_id now w).1 <> 201%nat).
Proof.
  assert (Hlast : UsersApi.json req !! "last_name" = None ->
                  Py.is_ok (UserService.create_user (UsersApi.json req) true temp_id
                              now w).1 = false).
  { intros Hl.
    destruct (UserService.create_user (UsersApi.json req) true temp_id now w)
      as [[u|ex] w1] eqn:Hrun; [|reflexivity].
    apply create_user_reads_last_name in Hrun as [v Hv]. congruence. }
  unfold UsersApi.create_user.
  destruct (String.eqb_spec (UsersApi.method req) "POST") as [Hm|Hm]; cbn [negb].
  - destruct (UserService.create_user (UsersApi.json req) true temp_id now w)
      as [[u|ex] w1] eqn:Hrun.
    + cbn [fst snd Api.status Api.create_response Api.data].
      repeat split; try congruence; try discriminate.
      * apply create_user_stored in Hrun as Hst.
        destruct Hst as (e & uid & doc & _ & _ & _ & _ & Hw & _).
        exists u, uid, doc. repeat split; assumption.
      * intros [_ [msg Hmsg]]. discriminate Hmsg.
      * intros Hl. specialize (Hlast Hl). discriminate Hlast.
    + pose proof (create_user_raise_users _ _ _ _ _ _ _ Hrun) as Husers.
      destruct ex; cbn [fst snd Api.status Api.create_response Api.data Api.success];
        repeat split; try assumption; try discriminate; try reflexivity; eauto;
        try (intros [_ [msg' Hmsg]]; discriminate Hmsg).
  - cbn [fst snd Api.status Api.create_response Api.data Api.success].
    repeat split; try discriminate; try reflexivity; try tauto.
Qed.

(** ** The words the patterns match *)

Lemma nullable_lang (r : Regex.regex) : Regex.nullable r = true -> lang r [].
Proof.
  induction r as [| |p|r1 IH1 r2 IH2|r1 IH1 r2 IH2|r1 IH1]; cbn [Regex.nullable lang].
  - discriminate.
  - reflexivity.
  - discriminate.
  - intros [H1 H2]%andb_prop. exists [], []. auto.
  - intros [H1|H2]%orb_prop; auto.
  - intros _. exists []. split; [reflexivity|constructor].
Qed.

Lemma deriv_lang (r : Regex.regex) (c : ascii) (l : list ascii) :
  lang (Regex.deriv c r) l -> lang r (c :: l).
Proof.
  revert l.
  induction r as [| |p|r1 IH1 r2 IH2|r1 IH1 r2 IH2|r1 IH1]; intros l;
    cbn [Regex.deriv lang].
  - intros [].
  - intros [].
  - destruct (p c) eqn:Hp; cbn [lang]; [|intros []].
    intros ->. exists c. auto.
  - intros [(l1 & l2 & -> & H1 & H2)|H].
    + exists (c :: l1), l2. repeat split; auto.
    + destruct (Regex.nullable r1) eqn:Hn; [|destruct H].
      exists [], (c :: l). repeat split; auto. apply nullable_lang, Hn.
  - intros [H|H]; auto.
  - intros (l1 & l2 & -> & H1 & (ls & -> & Hls)).
    exists ((c :: l1) :: ls). split; [reflexivity|]. constructor; auto.
Qed.

Lemma derivs_lang (l l' : list ascii) (r : Regex.regex) :
  lang (Regex.derivs l r) l' -> lang r (l ++ l')%list.
Proof.
  revert r. induction l as [|c l IH]; intros r; cbn [Regex.derivs]; [auto|].
  intros H. apply deriv_lang, IH, H.
Qed.

Lemma fullmatch_lang (r : Regex.regex) (s : string) :
  Regex.fullmatch r s = true -> lang r (PyStr.chars s).
Proof.
  unfold Regex.fullmatch. intros H. apply nullable_lang in H.
  apply derivs_lang in H. rewrite app_nil_r in H. exact H.
Qed.

Lemma strip_newline_chars (s s' : string) :
  Regex.strip_newline s = Some s' ->
  PyStr.chars s = (PyStr.chars s' ++ [Regex.newline])%list.
Proof.
  revert s'. induction s as [|c s IH]; intros s'; [discriminate|].
  destruct s as [|d s].
  - cbn [Regex.strip_newline]. destruct (Ascii.eqb_spec c Regex.newline); [|discriminate].
    intros [= <-]. subst c. reflexivity.
  - change (Regex.strip_newline (String c (String d s)))
      with (option_map (String c) (Regex.strip_newline (String d s))).
    destruct (Regex.strip_newline (String d s)) as [t|]; [|discriminate].
    intros [= <-]. unfold PyStr.chars in *.
    change (list_ascii_of_string (String c (String d s)))
      with (c :: list_ascii_of_string (String d s)).
    rewrite (IH t eq_refl). reflexivity.
Qed.

(** The words [re.match] accepts for an anchored pattern. *)
Lemma match_anchored_lang (r : Regex.regex) (s : string) :
  Regex.match_anchored r s = true ->
  exists l, lang r l
            /\ (PyStr.chars s = l \/ PyStr.chars s = (l ++ [Regex.newline])%list).
Proof.
  unfold Regex.match_anchored. intros [H|H]%orb_prop.
  - exists (PyStr.chars s). split; [apply fullmatch_lang, H|auto].
  - destruct (Regex.strip_newline s) as [s'|] eqn:Hs; [|discriminate].
    exists (PyStr.chars s'). split; [apply fullmatch_lang, H|].
    right. apply strip_newline_chars, Hs.
Qed.

Lemma forallb_mono {A} (f g : A -> bool) (l : list A) :
  (forall x, f x = true -> g x = true) -> forallb f l = true -> forallb g l = true.
Proof.
  intros Hfg. induction l as [|x l IH]; [reflexivity|]. cbn [forallb].
  intros [Hx Hl]%andb_prop. rewrite (Hfg _ Hx), (IH Hl). reflexivity.
Qed.

Lemma lang_chars (r : Regex.regex) (l : list ascii) (c : ascii) :
  lang r l -> In c l -> alphabet r c = true.
Proof.
  revert l.
  induction r as [| |p|r1 IH1 r2 IH2|r1 IH1 r2 IH2|r1 IH1]; intros l;
    cbn [lang alphabet].
  - intros [].
  - intros -> [].
  - intros (d & -> & Hp) [<-|[]]. exact Hp.
  - intros (l1 & l2 & -> & H1 & H2) [Hin|Hin]%in_app_or.
    + rewrite (IH1 _ H1 Hin). reflexivity.
    + rewrite (IH2 _ H2 Hin). apply orb_true_r.
  - intros [H1|H2] Hin.
    + rewrite (IH1 _ H1 Hin). reflexivity.
    + rewrite (IH2 _ H2 Hin). apply orb_true_r.
  - intros (ls & -> & Hls) Hin. induction Hls as [|x ls Hx _ IH]; [destruct Hin|].
    cbn [concat] in Hin. apply in_app_or in Hin as [Hin|Hin]; [exact (IH1 _ Hx Hin)|auto].
Qed.

Lemma lang_alphabet (r : Regex.regex) (f : ascii -> bool) (l : list ascii) :
  (forall c, alphabet r c = true -> f c = true) ->
  lang r l -> forallb f l = true.
Proof.
  intros Hf Hl. apply forallb_forall. intros c Hin. apply Hf, (lang_chars _ _ _ Hl Hin).
Qed.

(** A word of [r+] whose words all end with [c] ends with [c]. *)
Lemma plus_ends (r : Regex.regex) (c : ascii) (l : list ascii) :
  (forall w, lang r w -> exists w', w' <> [] /\ w = (w' ++ [c])%list) ->
  lang (Regex.Plus r) l -> exists l', l' <> [] /\ l = (l' ++ [c])%list.
Proof.
  intros Hr. unfold Regex.Plus. cbn [lang].
  intros (l1 & l2 & -> & H1 & (ls & -> & Hls)).
  revert l1 H1. induction Hls as [|x ls Hx _ IH]; intros l1 H1.
  - cbn [concat]. rewrite app_nil_r. apply Hr, H1.
  - cbn [concat]. destruct (IH x Hx) as (l' & Hne & ->).
    exists (l1 ++ l')%list. split.
    + destruct l1; [exact Hne|discriminate].
    + rewrite app_assoc. reflexivity.
Qed.

(** X18. The shape of an email that [validate_email] accepts: a non-empty
    local part of letters, digits and [._%+-], an at sign, a non-empty host
    of letters, digits, dots and hyphens, a dot, and at least two letters;
    one newline may follow. *)
Theorem accepted_email_shape (s : string) :
  Validators.validate_email (Some s) = true ->
  exists local host tld : list ascii,
    (PyStr.chars s = (local ++ "@"%char :: host ++ "."%char :: tld)%list
     \/ PyStr.chars s
        = ((local ++ "@"%char :: host ++ "."%char :: tld) ++ [Regex.newline])%list)
    /\ local <> [] /\ forallb local_ok local = true
    /\ host <> [] /\ forallb domain_ok host = true
    /\ (2 <= List.length tld)%nat /\ forallb PyStr.isalpha tld = true.
Proof.
  unfold Validators.validate_email. destruct s as [|c0 s0]; [discriminate|].
  intros (l & Hl & Hs)%match_anchored_lang.
  unfold Validators.email_pattern in Hl. cbn [lang] in Hl.
  destruct Hl as (l1 & r1 & -> & Hl1 & l2 & r2 & -> & Hl2 & la & r3 & -> & Hla
                  & ld & lt & -> & Hld & Hlt).
  assert (Hlocal : forallb local_ok (l1 ++ l2) = true).
  { rewrite forallb_app. apply andb_true_intro. split.
    - revert Hl1. apply lang_alphabet. intros c. cbn [alphabet Validators.alnum].
      unfold local_ok. intros ->. reflexivity.
    - revert Hl2. apply lang_alphabet. intros c. unfold local_ok.
      cbn [alphabet Regex.Opt Validators.alnum Validators.local_char].
      destruct (PyStr.isalnum c); [reflexivity|]. rewrite !orb_false_r. cbn [orb].
      auto. }
  assert (Hl1ne : (l1 ++ l2)%list <> []).
  { destruct Hl1 as (c & -> & _). discriminate. }
  destruct Hla as (a & -> & Ha). apply Ascii.eqb_eq in Ha. subst a.
  assert (Hhost : forallb domain_ok ld = true).
  { revert Hld. apply lang_alphabet. intros c. unfold domain_ok.
    cbn [alphabet Regex.Plus Regex.Opt Regex.Chr Validators.alnum Validators.label_char].
    unfold PyStr.char_in, PyStr.chars. cbn [list_ascii_of_string existsb].
    rewrite (Ascii.eqb_sym c "."), (Ascii.eqb_sym c "-").
    destruct (PyStr.isalnum c); [reflexivity|].
    destruct (Ascii.eqb "." c); [reflexivity|].
    destruct (Ascii.eqb "-" c); [reflexivity|]. cbn. auto. }
  apply plus_ends with (c := "."%char) in Hld.
  2:{ intros w. cbn [lang].
      intros (w1 & w2 & -> & (c1 & -> & _) & w3 & w4 & -> & _ & (d & -> & Hd)).
      apply Ascii.eqb_eq in Hd. subst d.
      exists (c1 :: w3). split; [discriminate|reflexivity]. }
  destruct Hld as (host & Hne & ->).
  rewrite forallb_app in Hhost. apply andb_prop in Hhost as [Hhost _].
  assert (Htld : (2 <= List.length lt)%nat /\ forallb PyStr.isalpha lt = true).
  { split.
    - unfold Regex.AtLeast in Hlt. cbn [lang Regex.Rep] in Hlt.
      destruct Hlt as (t1 & t2 & -> & (x1 & x2 & -> & (a1 & -> & _)
                       & (y1 & y2 & -> & (a2 & -> & _) & ->)) & _).
      cbn [List.length List.app]. lia.
    - revert Hlt. apply lang_alphabet. intros c.
      cbn [alphabet Regex.AtLeast Regex.Rep Validators.alpha].
      destruct (PyStr.isalpha c); [reflexivity|]. cbn. auto. }
  destruct Htld as [Hlen Halpha].
  exists (l1 ++ l2)%list, host, lt.
  repeat split; try assumption.
  assert (Hshape : (l1 ++ l2 ++ ["@"%char] ++ (host ++ ["."%char]) ++ lt)%list
                   = ((l1 ++ l2) ++ "@"%char :: host ++ "."%char :: lt)%list).
  { rewrite <- !app_assoc. reflexivity. }
  rewrite Hshape in Hs. exact Hs.
Qed.

Lemma accepted_email_shape_witness :
  exists local host tld : list ascii,
    PyStr.chars "jo.doe@mail.example.org"
    = (local ++ "@"%char :: host ++ "."%char :: tld)%list
    /\ (2 <= List.length tld)%nat.
Proof.
  destruct (accepted_email_shape "jo.doe@mail.example.org")
    as (local & host & tld & [Hs|Hs] & _ & _ & _ & _ & Hlen & _).
  - vm_compute. reflexivity.
  - exists local, host, tld. split; assumption.
  - exfalso. apply (f_equal (@List.last ascii)) in Hs.
    apply (f_equal (fun f => f "x"%char)) in Hs.
    rewrite last_last in Hs. vm_compute in Hs. discriminate Hs.
Defined.

Lemma filter_length_app {A} (f : A -> bool) (l1 l2 : list A) :
  List.length (List.filter f (l1 ++ l2))
  = (List.length (List.filter f l1) + List.length (List.filter f l2))%nat.
Proof. rewrite List.filter_app, List.length_app. reflexivity. Qed.

Lemma counts_lang (f : ascii -> bool) (r : Regex.regex) (lo hi : nat) (l : list ascii) :
  counts f r lo hi -> lang r l ->
  (lo <= List.length (List.filter f l) <= hi)%nat.
Proof.
  intros Hc. revert l.
  induction Hc as [|p Hp|p Hp|r1 r2 lo1 hi1 lo2 hi2 _ IH1 _ IH2
                   |r1 r2 lo hi _ IH1 _ IH2|r lo hi lo' hi' _ IH Hlo Hhi];
    intros l; cbn [lang].
  - intros ->. cbn. lia.
  - intros (c & -> & Hc). cbn [List.filter]. rewrite (Hp _ Hc). cbn. lia.
  - intros (c & -> & Hc). cbn [List.filter]. rewrite (Hp _ Hc). cbn. lia.
  - intros (l1 & l2 & -> & H1 & H2). rewrite filter_length_app.
    specialize (IH1 _ H1). specialize (IH2 _ H2). lia.
  - intros [H|H]; auto.
  - intros H. specialize (IH _ H). lia.
Qed.

Lemma digit_counts : counts PyStr.isdigit Validators.phone_pattern 10 13.
Proof.
  assert (Hd : counts PyStr.isdigit Validators.digit 1 1)
    by (apply counts_in; auto).
  assert (Hchr : forall c : ascii, PyStr.isdigit c = false ->
                                   counts PyStr.isdigit (Regex.Chr c) 0 0).
  { intros c Hc. apply counts_out. intros d Hd'. apply Ascii.eqb_eq in Hd'.
    subst d. exact Hc. }
  assert (Hsp : counts PyStr.isdigit (Regex.Class PyStr.isspace) 0 0).
  { apply counts_out. intros c.
    destruct c as [[] [] [] [] [] [] [] []]; intros Hc;
      first [reflexivity | discriminate Hc]. }
  assert (Hsep : counts PyStr.isdigit Validators.sep_char 0 0).
  { apply counts_out. intros c.
    destruct c as [[] [] [] [] [] [] [] []]; intros Hc;
      first [reflexivity | discriminate Hc]. }
  assert (Hopt : forall r hi, counts PyStr.isdigit r 0 hi ->
                              counts PyStr.isdigit (Regex.Opt r) 0 hi).
  { intros r hi Hr. apply counts_alt; [|exact Hr].
    apply (counts_weaken _ _ 0 0); [constructor|lia|lia]. }
  assert (H3 : counts PyStr.isdigit (Regex.Rep 3 Validators.digit) 3 3).
  { apply (counts_weaken _ _ (1 + (1 + (1 + 0))) (1 + (1 + (1 + 0))));
      [repeat constructor; auto|lia|lia]. }
  assert (H4 : counts PyStr.isdigit (Regex.Rep 4 Validators.digit) 4 4).
  { apply (counts_weaken _ _ (1 + (1 + (1 + (1 + 0)))) (1 + (1 + (1 + (1 + 0)))));
      [repeat constructor; auto|lia|lia]. }
  unfold Validators.phone_pattern.
  apply (counts_weaken _ _ (0 + (3 + (0 + (3 + (0 + 4))))) (3 + (3 + (0 + (3 + (0 + 4)))))); [|lia|lia].
  repeat apply counts_cat; try assumption; try (apply Hopt; assumption).
  - apply Hopt.
    apply (counts_weaken _ _ (0 + (1 + 0)) (0 + (3 + 0))); [|lia|lia].
    repeat apply counts_cat.
    + apply Hchr. reflexivity.
    + unfold Regex.RepRange. cbn [Regex.Rep Nat.sub].
      apply (counts_weaken _ _ ((1 + 0) + (0 + (0 + 0))) ((1 + 0) + (1 + (1 + 0)))); [|lia|lia].
      assert (Hod : counts PyStr.isdigit (Regex.Opt Validators.digit) 0 1).
      { apply Hopt. apply (counts_weaken _ _ 1 1); [exact Hd|lia|lia]. }
      repeat apply counts_cat; try assumption; constructor.
    + apply Hopt, Hsp.
  - apply counts_alt; [|exact H3].
    apply (counts_weaken _ _ (0 + (3 + 0)) (0 + (3 + 0))); [|lia|lia].
    repeat apply counts_cat; try assumption; apply Hchr; reflexivity.
Qed.

Lemma length_counts : counts (fun _ => true) Validators.phone_pattern 10 20.
Proof.
  assert (Hc : forall p, counts (fun _ => true) (Regex.Class p) 1 1)
    by (intros p; apply counts_in; auto).
  assert (Hopt : forall r hi, counts (fun _ => true) r 1 hi ->
                              counts (fun _ => true) (Regex.Opt r) 0 hi).
  { intros r hi Hr. apply counts_alt.
    - apply (counts_weaken _ _ 0 0); [constructor|lia|lia].
    - apply (counts_weaken _ _ 1 hi); [exact Hr|lia|lia]. }
  assert (H3 : counts (fun _ => true) (Regex.Rep 3 Validators.digit) 3 3).
  { apply (counts_weaken _ _ (1 + (1 + (1 + 0))) (1 + (1 + (1 + 0))));
      [repeat constructor; auto|lia|lia]. }
  assert (H4 : counts (fun _ => true) (Regex.Rep 4 Validators.digit) 4 4).
  { apply (counts_weaken _ _ (1 + (1 + (1 + (1 + 0)))) (1 + (1 + (1 + (1 + 0)))));
      [repeat constructor; auto|lia|lia]. }
  unfold Validators.phone_pattern.
  apply (counts_weaken _ _ (0 + (3 + (0 + (3 + (0 + 4))))) (5 + (5 + (1 + (3 + (1 + 4))))));
    [|lia|lia].
  repeat apply counts_cat; try assumption; try (apply Hopt, Hc).
  - apply Hopt.
    apply (counts_weaken _ _ (1 + (1 + 0)) (1 + (3 + 1))); [|lia|lia].
    repeat apply counts_cat.
    + apply Hc.
    + unfold Regex.RepRange. cbn [Regex.Rep Nat.sub].
      apply (counts_weaken _ _ ((1 + 0) + (0 + (0 + 0))) ((1 + 0) + (1 + (1 + 0))));
        [|lia|lia].
      repeat apply counts_cat; try apply Hc; try (apply Hopt, Hc); constructor.
    + apply Hopt, Hc.
  - apply counts_alt.
    + apply (counts_weaken _ _ (1 + (3 + 1)) (1 + (3 + 1))); [|lia|lia].
      repeat apply counts_cat; try assumption; apply Hc.
    + apply (counts_weaken _ _ 3 3); [exact H3|lia|lia].
Qed.

Lemma filter_all {A} (l : list A) : List.filter (fun _ => true) l = l.
Proof. induction l as [|x l IH]; [reflexivity|]. cbn [List.filter]. f_equal. exact IH. Qed.

Lemma phone_alphabet (c : ascii) :
  alphabet Validators.phone_pattern c = true -> phone_ok c = true.
Proof.
  destruct c as [[] [] [] [] [] [] [] []]; intros Hc;
    first [reflexivity | discriminate Hc].
Qed.

(** X19. The shape of a phone number that [validate_phone_number] accepts:
    between 10 and 13 digits, between 10 and 20 characters, all of them
    digits, white space or one of [+().-]; one newline may follow. *)
Theorem accepted_phone_shape (s : string) :
  Validators.validate_phone_number (Some s) = true ->
  exists number : list ascii,
    (PyStr.chars s = number \/ PyStr.chars s = (number ++ [Regex.newline])%list)
    /\ forallb phone_ok number = true
    /\ (10 <= digits number <= 13)%nat
    /\ (10 <= List.length number <= 20)%nat.
Proof.
  unfold Validators.validate_phone_number. destruct s as [|c0 s0]; [discriminate|].
  intros (l & Hl & Hs)%match_anchored_lang.
  exists l. split; [exact Hs|]. split; [|split].
  - revert Hl. apply lang_alphabet, phone_alphabet.
  - apply (counts_lang _ _ _ _ _ digit_counts Hl).
  - pose proof (counts_lang _ _ _ _ _ length_counts Hl) as Hlen.
    rewrite filter_all in Hlen. exact Hlen.
Qed.

Lemma accepted_phone_shape_witness :
  exists number : list ascii,
    PyStr.chars "+44 (123) 456-7890" = number /\ (10 <= digits number <= 13)%nat.
Proof.
  destruct (accepted_phone_shape "+44 (123) 456-7890")
    as (number & [Hs|Hs] & _ & Hd & _).
  - vm_compute. reflexivity.
  - exists number. split; assumption.
  - exfalso. apply (f_equal (@List.last ascii)) in Hs.
    apply (f_equal (fun f => f "x"%char)) in Hs.
    rewrite last_last in Hs. vm_compute in Hs. discriminate Hs.
Defined.

(** ** Updating a user keeps the collection in order *)

(** In a collection whose emails are in lower case, the last resort of
    [get_by_email] finds nothing the first query did not find. *)
Lemma scan_emails_none `{Py.Env} (c : UserRepo.collection) (le : string) (now : Z)
  (docs : list (string * Py.dict)) (u : UserModel.User) :
  emails_lower c ->
  UserRepo.where_eq "email" le c = [] ->
  (forall kd, In kd docs -> c !! kd.1 = Some kd.2) ->
  UserRepo.scan_emails le now docs <> Py.Ok (Some u).
Proof.
  intros Hlow Hnil. induction docs as [|[k doc] docs IH]; intros Hin; [discriminate|].
  cbn [UserRepo.scan_emails].
  assert (Hk : c !! k = Some doc) by (apply (Hin (k, doc)); left; reflexivity).
  assert (Hrest : forall kd, In kd docs -> c !! kd.1 = Some kd.2)
    by (intros kd Hkd; apply Hin; right; exact Hkd).
  destruct (doc !! "email") as [v|] eqn:Hv; [|exact (IH Hrest)].
  destruct (Py.truthy v); [|exact (IH Hrest)].
  destruct v as [| | |s| |]; try discriminate.
  destruct (String.eqb_spec (PyStr.lower s) le) as [Heq|_]; [|exact (IH Hrest)].
  rewrite (Hlow _ _ _ Hk Hv) in Heq. subst s.
  destruct (where_eq_nil _ _ _ _ _ Hnil Hk Hv).
Qed.

Lemma in_take {A} (x : A) (n : nat) (l : list A) : In x (take n l) -> In x l.
Proof.
  revert l. induction n as [|n IH]; intros l; [intros []|].
  destruct l as [|y l]; [intros []|]. cbn [take firstn].
  intros [->|Hin]; [left; reflexivity|right; apply IH, Hin].
Qed.

Lemma get_by_email_found `{Py.Env} (c : UserRepo.collection) (e : string) (now : Z)
  (u : UserModel.User) :
  emails_lower c ->
  UserRepo.get_by_email c (PyStr.lower e) now = Py.Ok (Some u) ->
  exists k doc,
    c !! k = Some doc /\ doc !! "email" = Some (Py.PStr (PyStr.lower e))
    /\ UserModel.from_dict doc (Some k) now = Py.Ok u.
Proof.
  intros Hlow. unfold UserRepo.get_by_email. rewrite lower_idem.
  destruct (UserRepo.where_eq "email" (PyStr.lower e) c) as [|[k doc] rest] eqn:Hw.
  - intros Hscan. exfalso. revert Hscan. apply scan_emails_none with (c := c); auto.
    intros [k doc] Hin. apply in_map_to_list. apply (in_take _ _ _ Hin).
  - unfold UserRepo.where_eq in Hw. apply filter_head in Hw as [Hin Hf].
    apply in_map_to_list in Hin. cbn [snd] in Hf. unfold UserRepo.field_is in Hf.
    destruct (doc !! "email") as [[| | |s| |]|] eqn:Hs; try discriminate Hf.
    apply String.eqb_eq in Hf. subst s.
    unfold UserRepo.found. destruct (UserModel.from_dict doc (Some k) now) as [u'|] eqn:Hu;
      [|discriminate].
    intros [= <-]. exists k, doc. auto.
Qed.

Lemma clean_name_other `{Py.Env} (key k : string) (d : Validators.payload) :
  k <> key -> UserAdmin.clean_name key d !! k = d !! k.
Proof.
  intros Hk. unfold UserAdmin.clean_name.
  destruct (d !! key); [|reflexivity]. apply lookup_insert_ne. congruence.
Qed.

(** What the email block of [update_user] leaves in the payload. *)
Lemma change_email_ok `{Accounts.Admin} (uid : string) (u0 : UserModel.User)
  (d d1 : Validators.payload) (now : Z) (w w1 : UserService.world) :
  UserAdmin.change_email uid u0 d now w = (Py.Ok d1, w1) ->
  (forall k, k <> "email" -> d1 !! k = d !! k)
  /\ ((d !! "email" = None /\ d1 !! "email" = None)
      \/ exists e s,
           d1 !! "email" = Some (Some (PyStr.lower e)) /\ PyStr.lower e <> ""
           /\ UserModel.email u0 = Py.PStr s
           /\ (PyStr.lower e = PyStr.lower s
               \/ UserRepo.get_by_email (UserService.users w) (PyStr.lower e) now
                  = Py.Ok None
               \/ exists other,
                    UserRepo.get_by_email (UserService.users w) (PyStr.lower e) now
                    = Py.Ok (Some other)
                    /\ UserModel.firebase_uid other = Py.PStr uid)).
Proof.
  unfold UserAdmin.change_email, UserService.ret, UserService.raise, UserService.bind,
    UserAdmin.email_lower.
  intros Hrun.
  destruct (d !! "email") as [email|] eqn:He.
  2:{ apply run_ok in Hrun as [<- _]. split; [reflexivity|]. left. auto. }
  destruct (Validators.validate_email email) eqn:Hvalid; [|raised Hrun].
  destruct email as [e|]; [|discriminate Hvalid].
  cbn [default from_option] in Hrun. unfold id in Hrun.
  assert (Hle : PyStr.lower e <> "").
  { intros Hl. destruct e; [discriminate Hvalid|discriminate Hl]. }
  destruct (UserModel.email u0) as [| | |s| |] eqn:Hs; try raised Hrun.
  unfold UserService.ret in Hrun.
  assert (Hd1 : forall d1' : Validators.payload,
            d1' = <["email" := Some (PyStr.lower e)]> d ->
            (forall k, k <> "email" -> d1' !! k = d !! k)
            /\ d1' !! "email" = Some (Some (PyStr.lower e))).
  { intros d1' ->. split; [|apply lookup_insert_eq].
    intros k Hk. apply lookup_insert_ne. congruence. }
  destruct (String.eqb_spec (PyStr.lower e) (PyStr.lower s)) as [Heq|Hneq].
  { apply run_ok in Hrun as [<- _]. destruct (Hd1 _ eq_refl) as [Hk Hem].
    split; [exact Hk|]. right. exists e, s. repeat split; auto. }
  unfold UserService.get_user_by_email, UserService.raise in Hrun.
  rewrite validate_email_lower, Hvalid in Hrun.
  destruct (UserRepo.get_by_email (UserService.users w) (PyStr.lower e) now)
    as [[other|]|ex] eqn:Hget; try raised Hrun.
  - destruct (UserAdmin.eq_str (UserModel.firebase_uid other) uid) eqn:Heq;
      cbn [negb] in Hrun; [|raised Hrun].
    destruct (Accounts.idp_update_email _ _ _); [raised Hrun|].
    apply run_ok in Hrun as [<- _]. destruct (Hd1 _ eq_refl) as [Hk Hem].
    split; [exact Hk|]. right. exists e, s. repeat split; try assumption.
    right. right. exists other. split; [first [reflexivity | exact Hget]|].
    unfold UserAdmin.eq_str in Heq.
    destruct (UserModel.firebase_uid other); try discriminate Heq.
    apply String.eqb_eq in Heq. congruence.
  - cbn [negb] in Hrun.
    destruct (Accounts.idp_update_email _ _ _); [raised Hrun|].
    apply run_ok in Hrun as [<- _]. destruct (Hd1 _ eq_refl) as [Hk Hem].
    split; [exact Hk|]. right. exists e, s. repeat split; auto.
Qed.

(** The document [update] of the repository stores. *)
Lemma repo_update_doc `{Accounts.Admin} (c : UserRepo.collection) (uid : string)
  (data doc : Py.dict) (now : Z) :
  c !! uid = Some doc ->
  Accounts.simple_keys data ->
  (UserDocs.update c uid data now).2 = c
  \/ exists data',
       (UserDocs.update c uid data now).2 = <[uid := data' ∪ doc]> c
       /\ (forall k, k <> "email" -> k <> "id" -> data' !! k = data !! k)
       /\ (forall s, data !! "email" = Some (Py.PStr s) ->
                     data' !! "email" = Some (Py.PStr (PyStr.lower s)))
       /\ (data !! "email" = None -> data' !! "email" = None).
Proof.
  intros Hdoc Hsimple.
  destruct (repo_update_written c uid data doc now Hdoc Hsimple)
    as [Hsame|(data' & Hl & Hup)]; [left; exact Hsame|].
  right. exists data'. split; [rewrite Hup; reflexivity|].
  unfold UserDocs.lower_email in Hl.
  rewrite lookup_delete_ne in Hl by discriminate.
  destruct (data !! "email") as [v|] eqn:Hv.
  - destruct (Py.truthy v) eqn:Ht.
    + destruct v as [| | |s| |]; try discriminate Hl. injection Hl as <-.
      repeat split.
      * intros k Hk Hi. rewrite lookup_insert_ne by congruence.
        apply lookup_delete_ne. congruence.
      * intros s' [= <-]. apply lookup_insert_eq.
      * discriminate.
    + injection Hl as <-. repeat split.
      * intros k Hk Hi. apply lookup_delete_ne. congruence.
      * intros s' [= ->]. destruct s'; [|discriminate Ht].
        rewrite lookup_delete_ne by discriminate. exact Hv.
      * discriminate.
  - injection Hl as <-. repeat split.
    + intros k Hk Hi. apply lookup_delete_ne. congruence.
    + discriminate.
    + intros _. rewrite lookup_delete_ne by discriminate. exact Hv.
Qed.

(** What [update_user] does to the collection: nothing, or one document
    replaced. *)
Lemma update_user_directory `{Accounts.Admin} (uid : string)
  (d : Validators.payload) (file_id : string) (now1 now2 now now3 : Z)
  (w w' : UserService.world) (r : Py.result (option UserModel.User)) :
  UserAdmin.update_user uid d file_id now1 now2 now now3 w = (r, w') ->
  well_kept (UserService.users w) -> emails_lower (UserService.users w) ->
  d !! "firebase_uid" = None -> Accounts.simple_keys d ->
  UserService.users w' = UserService.users w
  \/ exists doc doc' m,
       UserService.users w !! uid = Some doc
       /\ UserService.users w' = <[uid := doc']> (UserService.users w)
       /\ doc' !! "firebase_uid" = doc !! "firebase_uid"
       /\ doc' !! "email" = Some (Py.PStr m) /\ m <> "" /\ PyStr.lower m = m
       /\ (doc !! "email" = Some (Py.PStr m)
           \/ UserRepo.where_eq "email" m (UserService.users w) = [])
       /\ date_readable doc' "created_at" = true
       /\ date_readable doc' "updated_at" = true.
Proof.
  intros Hrun Hkept Hlow Hnouid Hsimple.
  unfold UserAdmin.update_user, UserAdmin.get_user_by_firebase_uid in Hrun.
  unfold UserService.bind at 1 in Hrun. unfold UserService.raise at 1 in Hrun.
  destruct (negb (String.eqb uid ""));
    [|apply (f_equal snd) in Hrun; cbn [snd] in Hrun; subst w'; auto].
  unfold UserDocs.get_by_firebase_uid in Hrun.
  destruct (UserService.users w !! uid) as [doc|] eqn:Hdoc;
    [|apply (f_equal snd) in Hrun; cbn [snd] in Hrun; subst w'; auto].
  destruct (Hkept _ _ Hdoc) as (Hdf & (s0 & Hds & Hs0) & Hdc & Hdu).
  destruct (UserModel.from_dict doc (Some uid) now1) as [u0|ex] eqn:Hu0;
    cbn [UserRepo.found] in Hrun;
    [|apply (f_equal snd) in Hrun; cbn [snd] in Hrun; subst w'; auto].
  destruct (from_dict_identity _ _ _ _ _ Hu0 Hds Hs0) as (Hemail0 & _ & _).
  unfold UserService.bind at 1 in Hrun.
  pose proof (change_email_users uid u0 d now2 w) as Husers.
  destruct (UserAdmin.change_email uid u0 d now2 w) as [[d1|ex] w1] eqn:Hce;
    cbn [snd] in Husers;
    [|apply (f_equal snd) in Hrun; cbn [snd] in Hrun; subst w'; auto].
  pose proof (fun k => change_email_absent uid k u0 d d1 now2 w w1 Hce) as Habsent.
  apply change_email_ok in Hce as [Hd1 Hmail].
  unfold UserService.raise at 1 in Hrun.
  destruct (negb _);
    [|apply (f_equal snd) in Hrun; cbn [snd] in Hrun; subst w'; auto].
  unfold UserService.bind at 1 in Hrun.
  match type of Hrun with
  | context [UserService.store_profile_picture ?ud ?t w1] =>
      pose proof (store_profile_picture_frame ud t w1) as Hframe;
      destruct (UserService.store_profile_picture ud t w1) as [[d2|ex] w2] eqn:Hpic;
      cbn [snd] in Hframe; subst w2;
      [|apply (f_equal snd) in Hrun; cbn [snd] in Hrun; subst w'; auto]
  end.
  assert (Hd2 : forall k, k <> "email" -> k <> "first_name" -> k <> "last_name" ->
                          k <> "profile_picture" -> d2 !! k = d !! k).
  { intros k H1 H2 H3 H4.
    rewrite (store_profile_picture_other _ _ _ _ _ _ Hpic H4).
    rewrite !clean_name_other by assumption. apply Hd1, H1. }
  assert (Hd2e : d2 !! "email" = d1 !! "email").
  { rewrite (store_profile_picture_other _ _ _ "email" _ _ Hpic) by discriminate.
    rewrite !clean_name_other by discriminate. reflexivity. }
  assert (Hkeys : forall k, d !! k = None -> d2 !! k = None).
  { intros k Hk. apply (store_profile_picture_absent _ _ _ _ _ _ Hpic).
    apply clean_name_absent, clean_name_absent. exact (Habsent k Hk). }
  pose proof (update_data_simple d d2 now Hsimple Hkeys) as Hplain.
  rewrite Husers in Hrun.
  match type of Hrun with
  | context [UserDocs.update ?c uid ?data now3] =>
      destruct (repo_update_doc c uid data doc now3 Hdoc Hplain)
        as [Hsame|(data' & Hc' & Hother & Hem & Hnoem)];
      destruct (UserDocs.update c uid data now3) as [r' c'] eqn:Hup
  end.
  { apply (f_equal snd) in Hrun. cbn [snd] in Hrun, Hsame. subst w' c'. auto. }
  apply (f_equal snd) in Hrun. cbn [snd] in Hrun, Hc'. subst w' c'.
  cbn [UserService.users]. right.
  (* the fields of the update *)
  assert (Hfu : data' !! "firebase_uid" = None).
  { rewrite Hother by discriminate. rewrite lookup_insert_ne by discriminate.
    rewrite lookup_fmap, Hd2 by discriminate. rewrite Hnouid. reflexivity. }
  assert (Hua : data' !! "updated_at" = Some (Py.PTime now)).
  { rewrite Hother by discriminate. apply lookup_insert_eq. }
  assert (Hca : date_readable (data' ∪ doc) "created_at" = true).
  { unfold date_readable in *.
    destruct (data' !! "created_at") as [v|] eqn:Hv.
    - rewrite (lookup_union_Some_l _ _ _ _ Hv).
      rewrite Hother in Hv by discriminate.
      rewrite lookup_insert_ne in Hv by discriminate. rewrite lookup_fmap in Hv.
      destruct (d2 !! "created_at") as [[x|]|]; cbn in Hv; try discriminate Hv;
        injection Hv as <-; reflexivity.
    - rewrite lookup_union_r by exact Hv. exact Hdc. }
  assert (Hmail' : exists m, (data' ∪ doc) !! "email" = Some (Py.PStr m) /\ m <> ""
                             /\ PyStr.lower m = m
                             /\ (doc !! "email" = Some (Py.PStr m)
                                 \/ UserRepo.where_eq "email" m (UserService.users w) = [])).
  { destruct Hmail as [[Hno Hno1]|(e & s & He1 & Hle & Hs & Hcase)].
    - exists s0. rewrite lookup_union_r.
      + repeat split; auto. apply (Hlow _ _ _ Hdoc Hds).
      + apply Hnoem. rewrite lookup_insert_ne by discriminate.
        rewrite lookup_fmap, Hd2e, Hno1. reflexivity.
    - assert (Hstored : (data' ∪ doc) !! "email" = Some (Py.PStr (PyStr.lower e))).
      { apply lookup_union_Some_l. rewrite <- (lower_idem e). apply Hem.
        rewrite lookup_insert_ne by discriminate.
        rewrite lookup_fmap, Hd2e, He1. reflexivity. }
      exists (PyStr.lower e). repeat split; auto using lower_idem.
      rewrite Hemail0 in Hs. injection Hs as <-.
      pose proof (Hlow _ _ _ Hdoc Hds) as Hs0l.
      destruct Hcase as [Heq|[Hnone|(other & Hget & Hfo)]].
      + left. rewrite Heq, Hs0l. exact Hds.
      + right. apply get_by_email_None in Hnone. rewrite lower_idem in Hnone.
        exact Hnone.
      + left. apply get_by_email_found in Hget as (k & dk & Hk & Hke & Huk); [|exact Hlow].
        destruct (Hkept _ _ Hk) as (Hkf & _ & _ & _).
        destruct (from_dict_identity _ _ _ _ _ Huk Hke Hle) as (_ & Hfk & _).
        unfold UserModel.kwarg in Hfk. rewrite Hkf, Hfo in Hfk.
        injection Hfk as <-. rewrite Hdoc in Hk. injection Hk as <-. exact Hke. }
  destruct Hmail' as (m & Hm & Hmne & Hml & Hmcase).
  exists doc, (data' ∪ doc), m.
  repeat split; try assumption.
  - apply lookup_union_r, Hfu.
  - unfold date_readable. rewrite (lookup_union_Some_l _ _ _ _ Hua). reflexivity.
Qed.

(** X20. [update_user] with a payload of strings or nulls whose keys are
    simple field names and do not include [firebase_uid] keeps the user
    collection in order, whether it succeeds or raises: every document
    stays stored under its [firebase_uid] with a non-empty email and
    readable dates, emails stay in lower case and no two documents hold
    the same email. *)
Theorem update_user_keeps_directory `{Accounts.Admin} (uid : string)
  (d : Validators.payload) (file_id : string) (now1 now2 now now3 : Z)
  (w : UserService.world) :
  well_kept (UserService.users w) ->
  emails_lower (UserService.users w) ->
  emails_distinct (UserService.users w) ->
  d !! "firebase_uid" = None ->
  Accounts.simple_keys d ->
  well_kept
    (UserService.users (UserAdmin.update_user uid d file_id now1 now2 now now3 w).2)
  /\ emails_lower
       (UserService.users (UserAdmin.update_user uid d file_id now1 now2 now now3 w).2)
  /\ emails_distinct
       (UserService.users (UserAdmin.update_user uid d file_id now1 now2 now now3 w).2).
Proof.
  intros Hkept Hlow Hdis Hnouid Hsimple.
  destruct (UserAdmin.update_user uid d file_id now1 now2 now now3 w) as [r w'] eqn:Hrun.
  cbn [snd].
  destruct (update_user_directory _ _ _ _ _ _ _ _ _ _ Hrun Hkept Hlow Hnouid Hsimple)
    as [->|(doc & doc' & m & Hdoc & -> & Hf & Hm & Hmne & Hml & Hcase & Hc & Hu)];
    [auto|].
  destruct (Hkept _ _ Hdoc) as (Hdf & _).
  split; [|split].
  - intros k dk Hk. destruct (decide (uid = k)) as [->|Hne].
    + rewrite lookup_insert_eq in Hk. injection Hk as <-.
      repeat split; try assumption; [congruence|eauto].
    + rewrite lookup_insert_ne in Hk by exact Hne. exact (Hkept _ _ Hk).
  - intros k dk s Hk Hs. destruct (decide (uid = k)) as [->|Hne].
    + rewrite lookup_insert_eq in Hk. injection Hk as <-. congruence.
    + rewrite lookup_insert_ne in Hk by exact Hne. exact (Hlow _ _ _ Hk Hs).
  - assert (Hclash : forall k dk, k <> uid -> UserService.users w !! k = Some dk ->
                                  dk !! "email" <> Some (Py.PStr m)).
    { intros k dk Hne Hk Hs. destruct Hcase as [Hold|Hnil].
      - exact (Hne (Hdis _ _ _ _ _ Hk Hdoc Hs Hold)).
      - exact (where_eq_nil _ _ _ _ _ Hnil Hk Hs). }
    intros k1 k2 d1 d2 s H1 H2 Hs1 Hs2.
    destruct (decide (k1 = k2)) as [|Hne12]; [assumption|]. exfalso.
    destruct (decide (uid = k1)) as [->|Hne1].
    + rewrite lookup_insert_eq in H1. rewrite lookup_insert_ne in H2 by exact Hne12.
      injection H1 as <-. assert (s = m) by congruence. subst s.
      apply (Hclash k2 d2); auto.
    + rewrite lookup_insert_ne in H1 by exact Hne1.
      destruct (decide (uid = k2)) as [->|Hne2].
      * rewrite lookup_insert_eq in H2. injection H2 as <-.
        assert (s = m) by congruence. subst s. apply (Hclash k1 d1); auto.
      * rewrite lookup_insert_ne in H2 by exact Hne2.
        exact (Hne12 (Hdis _ _ _ _ _ H1 H2 Hs1 Hs2)).
Qed.

Lemma update_user_keeps_directory_witness :
  emails_distinct
    (UserService.users
       (UserAdmin.update_user (H0 := ReferenceAdmin.memory_admin) "uid:c@d.org"
          {[ "email" := Some "New@D.org" ]} "f1" 3000 3001 3002 3003 directory_two).2).
Proof.
  destruct directory_empty_kept as (Hk & Hl & Hd).
  destruct (create_user_emails (signup "A@B.com") true "t1" 1000 directory_empty Hl Hd)
    as [Hl1 Hd1].
  destruct (create_user_emails (signup "c@d.org") true "t2" 2000 directory_one Hl1 Hd1)
    as [Hl2 Hd2].
  apply (update_user_keeps_directory (H0 := ReferenceAdmin.memory_admin)).
  - apply create_user_well_kept, create_user_well_kept, Hk.
  - exact Hl2.
  - exact Hd2.
  - reflexivity.
  - intros k v Hkv. apply lookup_singleton_Some in Hkv as [<- _]. reflexivity.
Defined.

(** ** A reset mail that is not sent *)

(** X21. When a reset is requested for a known email without an active
    reset: if the mail service reports that it did not send, the record
    just created is deleted again (its id being non-empty) and the stores
    are as before; if the mail service raises, the record stays in the
    repository and the generic error is answered. *)
Theorem failed_mail_rolls_back `{Py.Env} (w : PasswordService.world)
  (mail url uid tok new_id : string) (display_name : option string) (now_query now : Z) :
  Py.idp_get_user_by_email (PasswordService.provider w) mail
  = Py.UserFound uid display_name ->
  ResetRepo.get_active_reset_by_email (PasswordService.resets w) mail now_query = None ->
  PasswordService.resets w !! new_id = None ->
  (Py.send_password_reset_email mail (url ++ "?token=" ++ tok) display_name = Py.NotSent ->
   new_id <> "" ->
   PasswordService.request_password_reset mail url tok new_id now_query now w
   = ((false, PasswordService.msg_mail_failed), w))
  /\ (Py.send_password_reset_email mail (url ++ "?token=" ++ tok) display_name
      = Py.MailRaised ->
      PasswordService.request_password_reset mail url tok new_id now_query now w
      = ((false, PasswordService.msg_error),
         {| PasswordService.resets :=
              <[new_id := issued mail uid tok new_id now]> (PasswordService.resets w);
            PasswordService.provider := PasswordService.provider w |})).
Proof.
  intros Hfound Hnone Hfresh.
  unfold PasswordService.request_password_reset. rewrite Hfound, Hnone.
  cbv beta iota zeta delta [ResetRepo.create].
  split.
  - intros Hmail Hne. rewrite Hmail.
    unfold PasswordService.id_set, ResetRepo.with_id. cbn [ResetRepo.id].
    destruct new_id as [|c i]; [congruence|].
    unfold ResetRepo.delete. cbn [snd].
    rewrite delete_insert_id by exact Hfresh.
    destruct w. reflexivity.
  - intros Hmail. rewrite Hmail. reflexivity.
Qed.

Lemma failed_mail_rolls_back_witness :
  PasswordService.request_password_reset (H := mail_down) "x@y.com" "https://app/reset"
    "t0ken" "r1" 1000 1000 world_unsent
  = ((false, PasswordService.msg_mail_failed), world_unsent).
Proof.
  destruct (failed_mail_rolls_back (H := mail_down) world_unsent "x@y.com"
              "https://app/reset" "uid:x@y.com" "t0ken" "r1" None 1000 1000)
    as [Hroll _].
  - vm_compute. reflexivity.
  - vm_compute. reflexivity.
  - reflexivity.
  - apply Hroll; [reflexivity|discriminate].
Defined.

(** ** The validator of user creation and the provisioning of an identity *)

(** X22. [validate_password] of utils/auth.py accepts a password exactly
    when it reports no error, and it reports each of its five messages
    exactly when the requirement of that message is not met: fewer than
    eight characters, no upper-case letter, no lower-case letter, no
    digit, no special character. It reports no other message. *)
Theorem validate_password_reports (p : string) :
  (Auth.valid (Auth.validate_password p) = true <->
   Auth.errors (Auth.validate_password p) = [])
  /\ (In Auth.msg_length (Auth.errors (Auth.validate_password p)) <->
      (String.length p < 8)%nat)
  /\ (In Auth.msg_upper (Auth.errors (Auth.validate_password p)) <->
      PyStr.any PyStr.isupper p = false)
  /\ (In Auth.msg_lower (Auth.errors (Auth.validate_password p)) <->
      PyStr.any PyStr.islower p = false)
  /\ (In Auth.msg_digit (Auth.errors (Auth.validate_password p)) <->
      PyStr.any PyStr.isdigit p = false)
  /\ (In Auth.msg_special (Auth.errors (Auth.validate_password p)) <->
      PyStr.any (PyStr.char_in Auth.special_class) p = false)
  /\ (forall msg, In msg (Auth.errors (Auth.validate_password p)) ->
        In msg [Auth.msg_length; Auth.msg_upper; Auth.msg_lower; Auth.msg_digit;
                Auth.msg_special]).
Proof.
  unfold Auth.validate_password, Auth.re_search_class, Auth.reject.
  destruct (Nat.ltb_spec (String.length p) 8) as [Hlen|Hlen];
    destruct (PyStr.any PyStr.isupper p);
    destruct (PyStr.any PyStr.islower p);
    destruct (PyStr.any PyStr.isdigit p);
    destruct (PyStr.any (PyStr.char_in Auth.special_class) p);
    cbn [negb Auth.valid Auth.errors List.app];
    repeat split; intros; try discriminate; try reflexivity; try lia;
    try (cbn [In] in *; intuition (try discriminate; try lia; auto); fail).
Qed.

(** X23. [create_firebase_user]: a password the validator rejects raises a
    ValueError with the validator's messages joined by newlines, before the
    provider is called; a uid is returned only for a valid password and is
    the uid of the account the provider created for the lower-cased email;
    whatever is raised is a ValueError. *)
Theorem create_firebase_user_outcomes `{Py.Env} (st : Py.idp) (email password : string)
  (display_name : option string) :
  (Auth.valid (Auth.validate_password password) = false ->
   Firebase.create_firebase_user st email password display_name
   = (Py.Raise (Py.ValueError
                  (PyStr.join Firebase.nl (Auth.errors (Auth.validate_password password)))),
      st))
  /\ (forall uid st',
        Firebase.create_firebase_user st email password display_name = (Py.Ok uid, st') ->
        Auth.valid (Auth.validate_password password) = true
        /\ exists name,
             Py.idp_create_user st (PyStr.lower email) password name
             = (Py.Created uid, st')
             /\ (name = None \/ name = display_name))
  /\ (forall e st',
        Firebase.create_firebase_user st email password display_name = (Py.Raise e, st') ->
        exists msg, e = Py.ValueError msg).
Proof.
  unfold Firebase.create_firebase_user.
  destruct (Auth.valid (Auth.validate_password password)); cbn [negb].
  - split; [discriminate|].
    match goal with
    | |- context [Py.idp_create_user st ?a password ?n] =>
        assert (Hn : n = None \/ n = display_name)
          by (destruct display_name as [[|c s]|]; auto);
        destruct (Py.idp_create_user st a password n) as [[uid'| |msg] st''] eqn:Hc
    end; split; intros x st' E; try (apply (f_equal fst) in E; discriminate E).
    + apply run_ok in E as [<- <-]. split; [reflexivity|]. eauto.
    + apply (f_equal fst) in E. cbn [fst] in E. injection E as <-. eauto.
    + apply (f_equal fst) in E. cbn [fst] in E. injection E as <-. eauto.
  - split; [reflexivity|]. split; intros x st' E.
    + apply (f_equal fst) in E. discriminate E.
    + apply (f_equal fst) in E. cbn [fst] in E. injection E as <-. eauto.
Qed.

(** ** Listing the users *)

Lemma read_all_kept `{Py.Env} (c : UserRepo.collection) (now : Z)
  (docs : list (string * Py.dict)) :
  well_kept c ->
  (forall kd, In kd docs -> c !! kd.1 = Some kd.2) ->
  exists us,
    UserDocs.read_all docs now = Py.Ok us
    /\ Forall2 (fun kd u =>
                  UserModel.firebase_uid u = Py.PStr kd.1
                  /\ kd.2 !! "email" = Some (UserModel.email u)
                  /\ (kd.1 <> "" -> UserModel.id u = Py.PStr kd.1))
         docs us.
Proof.
  intros Hkept. induction docs as [|[k doc] docs IH]; intros Hin.
  - exists []. split; [reflexivity|constructor].
  - destruct IH as (us & Hus & Hall); [intros kd Hkd; apply Hin; right; exact Hkd|].
    assert (Hk : c !! k = Some doc) by (apply (Hin (k, doc)); left; reflexivity).
    destruct (Hkept _ _ Hk) as (Hf & (e & He & Hne) & Hc & Hu).
    destruct (from_dict_readable doc (Some k) now Hc Hu) as [u Hread].
    destruct (from_dict_identity _ _ _ _ _ Hread He Hne) as (Hue & Huf & Hui).
    exists (u :: us). cbn [UserDocs.read_all]. rewrite Hread, Hus.
    split; [reflexivity|]. constructor; [|exact Hall].
    cbn [fst snd]. unfold UserModel.kwarg in Huf. rewrite Hf in Huf.
    repeat split; [exact Huf|congruence|]. intros Hkne. apply (Hui k eq_refl Hkne).
Qed.

(** X24. On a collection kept in order [get_all_users] returns one user per
    document, in the order of the documents, each with the document's key
    as [firebase_uid] (and as [id], the key being non-empty) and with the
    document's email; reading changes nothing. *)
Theorem get_all_users_lists_every_document `{Py.Env} (now : Z) (w : UserService.world) :
  well_kept (UserService.users w) ->
  exists us,
    UserAdmin.get_all_users now w = (Py.Ok us, w)
    /\ List.length us = size (UserService.users w)
    /\ Forall2 (fun kd u =>
                  UserModel.firebase_uid u = Py.PStr kd.1
                  /\ kd.2 !! "email" = Some (UserModel.email u)
                  /\ (kd.1 <> "" -> UserModel.id u = Py.PStr kd.1))
         (map_to_list (UserService.users w)) us.
Proof.
  intros Hkept.
  destruct (read_all_kept (UserService.users w) now (map_to_list (UserService.users w))
              Hkept) as (us & Hus & Hall).
  - intros [k doc] Hin. apply in_map_to_list, Hin.
  - exists us. unfold UserAdmin.get_all_users, UserDocs.get_all. rewrite Hus.
    split; [reflexivity|]. split; [|exact Hall].
    apply Forall2_length in Hall. rewrite <- Hall. apply length_map_to_list.
Qed.

Lemma get_all_users_lists_every_document_witness :
  exists us,
    UserAdmin.get_all_users 5000 directory_two = (Py.Ok us, directory_two)
    /\ List.length us = size (UserService.users directory_two).
Proof.
  destruct (get_all_users_lists_every_document 5000 directory_two)
    as (us & Hrun & Hlen & _).
  - apply create_user_well_kept, create_user_well_kept, directory_empty_kept.
  - exists us. split; assumption.
Defined.
